(** * Kali assistant: the natural-language routing layer

    A shallow embedding of the conversational routing code of the
    repository (v2/ai_assistant.py, v2/telegram_bot.py,
    v2/tool_executor.py, v2/tool_system.py, v2/tool_discovery.py and the
    legacy single-file server) together with the properties its
    specification states about it.

    Conventions.
    - A Python [str] is a Rocq [string]; each character is read as the
      code point of the same number (U+0000 .. U+00FF).
    - A Python [dict] with string keys is an association list in
      insertion order; a value decoded from JSON is a [json].
    - The per-user conversation map is a [gmap Z (list message)].
    - What the operating system, the model API, [which] and [json.loads]
      answer is not decided by the repository: they are the fields of a
      [World], and every statement holds for every world.
    - A Python exception is a value of type [exn]; code that can raise
      returns [exn + A]. *)

From Stdlib Require Import ZArith String Ascii List Lia DecimalString.
From Stdlib Require Import Orders Mergesort Sorted Permutation.
From stdpp Require Import base gmap list strings.

Open Scope string_scope.
Open Scope list_scope.

Set Warnings "-register-all".

(** ** Python's string primitives *)

Module Py.

Definition dquote : ascii := "034"%char.
Definition newline : ascii := "010"%char.

(** [str.isspace] on one character, for the code points below 256. *)
Definition isspace (c : ascii) : bool :=
  let n := nat_of_ascii c in
  ((9 <=? n)%nat && (n <=? 13)%nat)
  || ((28 <=? n)%nat && (n <=? 32)%nat)
  || (n =? 133)%nat || (n =? 160)%nat.

Fixpoint lstrip (s : string) : string :=
  match s with
  | String c s' => if isspace c then lstrip s' else s
  | EmptyString => EmptyString
  end.

Fixpoint rstrip (s : string) : string :=
  match s with
  | EmptyString => EmptyString
  | String c s' =>
      match rstrip s' with
      | EmptyString => if isspace c then EmptyString else String c EmptyString
      | r => String c r
      end
  end.

(** [s.strip()] *)
Definition strip (s : string) : string := rstrip (lstrip s).

(** [s.startswith(p)] *)
Definition startswith (s p : string) : bool := String.prefix p s.

(** [s[n:]] *)
Fixpoint drop (n : nat) (s : string) : string :=
  match n, s with
  | O, _ => s
  | S n', String _ s' => drop n' s'
  | S _, EmptyString => EmptyString
  end.

(** [s[i:j]] for [0 <= i <= j]; a slice that runs past the end is cut
    short, it never raises. *)
Definition slice (i j : nat) (s : string) : string := substring i (j - i) s.

(** [s.find(sub)], with [None] for Python's [-1]. *)
Fixpoint find (sub s : string) : option nat :=
  if String.prefix sub s then Some O
  else match s with
       | EmptyString => None
       | String _ s' => option_map S (find sub s')
       end.

(** [sub in s] *)
Definition contains (sub s : string) : bool :=
  match find sub s with Some _ => true | None => false end.

(** [s.partition(sep)]: the text before the first [sep] and, when there
    is one, the text after it. *)
Definition partition (sep s : string) : string * option string :=
  match find sep s with
  | None => (s, None)
  | Some i => (substring 0 i s, Some (drop (i + String.length sep) s))
  end.

(** [s.split(sep)] for a non-empty [sep]. Every round removes at least
    one character, so [String.length s] rounds are enough
    ([split_rounds_enough] below). *)
Fixpoint split_rounds (rounds : nat) (sep s : string) : list string :=
  match partition sep s with
  | (a, None) => [a]
  | (a, Some r) =>
      match rounds with
      | O => [a]
      | S k => a :: split_rounds k sep r
      end
  end.

Definition split (sep s : string) : list string :=
  split_rounds (String.length s) sep s.

(** [s.replace(old, new)] for a non-empty [old]. *)
Fixpoint replace_rounds (rounds : nat) (old new s : string) : string :=
  match partition old s with
  | (a, None) => a
  | (a, Some r) =>
      match rounds with
      | O => a
      | S k => a +:+ new +:+ replace_rounds k old new r
      end
  end.

Definition replace (old new s : string) : string :=
  replace_rounds (String.length s) old new s.

(** [range(start, stop, step)] for [step > 0]: the numbers
    [start + k * step] below [stop]. *)
Definition range (start stop step : nat) : list nat :=
  map (fun k => start + k * step)
      (seq 0 ((stop - start + (step - 1)) / step)).

(** ["".join(l)] *)
Definition join (l : list string) : string :=
  fold_right String.append EmptyString l.

(** [str(n)] for an [int] *)
Definition str_of_int (n : Z) : string := NilZero.string_of_int (Z.to_int n).

End Py.

(** ** Transport: splitting long tool output

    v2/telegram_bot.py, [_handle_ai_response], and the legacy
    [handle_ai_message] hold the same loop:
<<
    if len(output) > 4000:
        for i in range(0, len(output), 4000):
            await update.message.reply_text(f"```\n{output[i:i+4000]}\n```", ...)
    else:
        await update.message.reply_text(f"```\n{output}\n```", ...)
>> *)

Definition CHUNK : nat := 4000.

(** The pieces of [output] that are sent, one per outbound message. *)
Definition split_output (output : string) : list string :=
  if (CHUNK <? String.length output)%nat
  then map (fun i => Py.slice i (i + CHUNK) output)
           (Py.range 0 (String.length output) CHUNK)
  else [output].

Definition fence : string := "```".

(** The text of the message that carries one piece. *)
Definition code_block (piece : string) : string :=
  fence +:+ String Py.newline (piece +:+ String Py.newline fence).

Definition send_output (output : string) : list string :=
  map code_block (split_output output).

(** ** Values decoded from JSON and Python dictionaries *)

Inductive json : Type :=
| JNull
| JBool (b : bool)
| JInt (n : Z)
| JFloat (repr : string)   (* a float, kept as the text [str] gives for it *)
| JStr (s : string)
| JArr (items : list json)
| JObj (fields : list (string * json)).

(** A [dict] with string keys, in insertion order. *)
Abbreviation pydict := (list (string * json)).

Module Dict.

(** [d.get(k)] *)
Fixpoint get (k : string) (d : pydict) : option json :=
  match d with
  | [] => None
  | (k', v) :: d' => if String.eqb k k' then Some v else get k d'
  end.

(** [k in d] *)
Definition has (k : string) (d : pydict) : bool :=
  match get k d with Some _ => true | None => false end.

(** [d.get(k, dflt)] *)
Definition get_default (k : string) (dflt : json) (d : pydict) : json :=
  match get k d with Some v => v | None => dflt end.

End Dict.

(** ** Exceptions *)

Inductive exn : Type :=
| JSONDecodeError                 (* json.JSONDecodeError *)
| KeyError (key : string)
| OtherException (text : string). (* any other [Exception]; [text] is [str(e)] *)

Abbreviation raises A := (exn + A)%type.

Definition ret {A} (a : A) : raises A := inr a.
Definition throw {A} (e : exn) : raises A := inl e.
Definition bind {A B} (m : raises A) (k : A -> raises B) : raises B :=
  match m with
  | inl e => inl e
  | inr a => k a
  end.

Notation "x <- m ;; k" := (bind m (fun x => k))
  (at level 100, m at next level, right associativity).

(** ** Conversation entries and the external collaborators *)

Record message : Type := { role : string; content : string }.

(** What the completion API does with one request. *)
Inductive api_outcome : Type :=
| ApiReply (text : string)        (* [response.choices[0].message.content] *)
| ApiFailure (text : string).     (* the call raises; [text] is [str(e)] *)

(** What happens to one shell command given a timeout in seconds. *)
Inductive proc_outcome : Type :=
| SpawnFails (text : string)      (* [create_subprocess_shell] raises; [str(e)] *)
| Exited (stdout stderr : string) (returncode : Z)
                                  (* [communicate()] returned in time *)
| TimedOut                        (* [asyncio.wait_for] raised [TimeoutError],
                                     and [process.kill()] went through *)
| KillRaises (text : string).     (* [asyncio.wait_for] raised [TimeoutError]
                                     and [process.kill()] raised: the child
                                     had ended by then ([ProcessLookupError]);
                                     [text] is [str(e)], empty for that one *)

(** The world outside the repository. *)
Record World : Type := {
  (** [subprocess.run(["which", name], ...).returncode == 0] *)
  which : string -> bool;
  (** [json.loads]: the decoded value, or the exception it raises *)
  json_loads : string -> raises json;
  (** [client.chat.completions.create(messages=...)] *)
  complete : list message -> api_outcome;
  (** running a shell command with a timeout *)
  os_run : string -> Z -> proc_outcome
}.

(** ** v2/config.py *)

Definition AI_MAX_CONTEXT : Z := 10.

(** ** v2/tool_discovery.py *)

(** [check_tool_installed]: [subprocess.run] raises for an argument that is
    not a string and the bare [except] answers [False]. *)
Definition check_tool_installed (w : World) (tool_name : json) : bool :=
  match tool_name with
  | JStr name => which w name
  | _ => false
  end.

Definition install_commands : list (string * string) :=
  [ ("nmap", "sudo apt install nmap");
    ("nikto", "sudo apt install nikto");
    ("gobuster", "sudo apt install gobuster");
    ("sqlmap", "sudo apt install sqlmap");
    ("hydra", "sudo apt install hydra");
    ("john", "sudo apt install john");
    ("hashcat", "sudo apt install hashcat");
    ("aircrack-ng", "sudo apt install aircrack-ng");
    ("wireshark", "sudo apt install wireshark");
    ("metasploit-framework", "sudo apt install metasploit-framework");
    ("msfvenom", "sudo apt install metasploit-framework");
    ("wpscan", "sudo gem install wpscan");
    ("whatweb", "sudo apt install whatweb");
    ("enum4linux", "sudo apt install enum4linux");
    ("masscan", "sudo apt install masscan");
    ("reaver", "sudo apt install reaver");
    ("ettercap", "sudo apt install ettercap-graphical");
    ("binwalk", "sudo apt install binwalk");
    ("volatility", "sudo apt install volatility") ].

Fixpoint table_get (k : string) (t : list (string * string)) : option string :=
  match t with
  | [] => None
  | (k', v) :: t' => if String.eqb k k' then Some v else table_get k t'
  end.

(** [f"{v}"] for a value that can be a dictionary key; a list or a dict
    cannot, and asking the table for one raises [TypeError]. *)
Definition str_of_scalar (v : json) : raises string :=
  match v with
  | JStr s => ret s
  | JInt n => ret (Py.str_of_int n)
  | JFloat r => ret r
  | JBool true => ret "True"
  | JBool false => ret "False"
  | JNull => ret "None"
  | JArr _ => throw (OtherException "unhashable type: 'list'")
  | JObj _ => throw (OtherException "unhashable type: 'dict'")
  end.

(** [suggest_install(tool_name)["install_command"]]: the table has string
    keys only, so every other key gets the default. *)
Definition suggest_install (tool_name : json) : raises string :=
  shown <- str_of_scalar tool_name ;;
  match tool_name with
  | JStr name =>
      ret (match table_get name install_commands with
           | Some c => c
           | None => "sudo apt install " +:+ shown
           end)
  | _ => ret ("sudo apt install " +:+ shown)
  end.

(** ** v2/ai_assistant.py *)

Record AIAssistant : Type := {
  client : bool;                           (* [self.client is not None] *)
  user_contexts : gmap Z (list message);
  system_prompt : string
}.

Definition is_available (ai : AIAssistant) : bool := client ai.

(** [l[start:]] *)
Definition slice_from {A} (start : Z) (l : list A) : list A :=
  if (start <? 0)%Z
  then drop (Z.to_nat (Z.max 0 (Z.of_nat (length l) + start))) l
  else drop (Z.to_nat start) l.

(** [l[i]] *)
Definition item {A} (i : nat) (l : list A) : raises A :=
  match l !! i with
  | Some a => ret a
  | None => throw (OtherException "list index out of range")
  end.

Definition a_acute : ascii := "225"%char.   (* U+00E1 *)
Definition o_acute : ascii := "243"%char.   (* U+00F3 *)
Definition inv_question : ascii := "191"%char.   (* U+00BF *)

Definition fence_json : string := "```json".

(** The first half of [_parse_ai_response]: the text handed to
    [json.loads]. *)
Definition clean_response (response : string) : raises string :=
  if Py.startswith (Py.strip response) fence_json then
    after <- item 1 (Py.split fence_json response) ;;
    inside <- item 0 (Py.split fence after) ;;
    ret (Py.strip inside)
  else if Py.startswith (Py.strip response) fence then
    after <- item 1 (Py.split fence response) ;;
    inside <- item 0 (Py.split fence after) ;;
    ret (Py.strip inside)
  else ret (Py.strip response).

Definition type_name (v : json) : string :=
  match v with
  | JNull => "NoneType"
  | JBool _ => "bool"
  | JInt _ => "int"
  | JFloat _ => "float"
  | JStr _ => "str"
  | JArr _ => "list"
  | JObj _ => "dict"
  end.

(** [parsed.keys()], evaluated for the log line after [json.loads]: it
    raises [AttributeError] for a value that is not a dict. *)
Definition keys_of (v : json) : raises pydict :=
  match v with
  | JObj fields => ret fields
  | other =>
      throw (OtherException
               ("'" +:+ type_name other +:+ "' object has no attribute 'keys'"))
  end.

Definition _parse_ai_response (w : World) (response : string) : raises pydict :=
  cleaned <- clean_response response ;;
  parsed <- json_loads w cleaned ;;
  keys_of parsed.

Definition not_installed_text : string :=
  " no est" +:+ String a_acute (" instalada. " +:+
  String inv_question "Quieres que la instale?").

(** The part of [chat] after the reply is parsed (the availability
    check). *)
Definition check_parsed (w : World) (parsed : pydict) : raises pydict :=
  match Dict.get "tool" parsed with
  | Some tool_name =>
      if check_tool_installed w tool_name then ret parsed
      else
        install_command <- suggest_install tool_name ;;
        shown <- str_of_scalar tool_name ;;
        ret [ ("tool_not_installed", tool_name);
              ("install_command", JStr install_command);
              ("offer_install", JBool true);
              ("explanation", JStr (shown +:+ not_installed_text)) ]
  | None => ret parsed
  end.

Definition unavailable_error : pydict :=
  [ ("error", JStr "IA no disponible");
    ("suggestion", JStr "Configura OPENAI_API_KEY en el archivo .env") ].

Definition parse_error : pydict :=
  [ ("error", JStr "Error al parsear respuesta de IA");
    ("suggestion",
     JStr ("Intenta reformular tu pregunta. La IA est" +:+ String a_acute
           " respondiendo texto en lugar de JSON.")) ].

Definition general_error (text : string) : pydict :=
  [ ("error", JStr ("Error de IA: " +:+ text));
    ("suggestion", JStr "Intenta de nuevo o usa comandos directos") ].

(** [str(e)] *)
Definition str_of_exn (e : exn) : string :=
  match e with
  | JSONDecodeError => ""
  | KeyError k => "'" +:+ k +:+ "'"
  | OtherException text => text
  end.

(** The two [except] clauses of [chat]. *)
Definition catch_all (r : raises pydict) : pydict :=
  match r with
  | inr d => d
  | inl JSONDecodeError => parse_error
  | inl e => general_error (str_of_exn e)
  end.

(** [self.user_contexts.get(user_id, [])] *)
Definition stored_context (ai : AIAssistant) (user_id : Z) : list message :=
  default [] (user_contexts ai !! user_id).

(** [context[-AI_MAX_CONTEXT:]]: what [chat] reads back from the store. *)
Definition recent_context (ai : AIAssistant) (user_id : Z) : list message :=
  slice_from (- AI_MAX_CONTEXT) (stored_context ai user_id).

(** The messages sent to the model: the system prompt, the recent
    context, the new user message. *)
Definition build_messages (ai : AIAssistant) (user_message : string) (user_id : Z)
  : list message :=
  {| role := "system"; content := system_prompt ai |}
    :: recent_context ai user_id
    ++ [ {| role := "user"; content := user_message |} ].

Definition save_exchange (ai : AIAssistant) (user_message ai_response : string)
  (user_id : Z) : AIAssistant :=
  let context := stored_context ai user_id in
  {| client := client ai;
     user_contexts :=
       <[ user_id := context ++ [ {| role := "user"; content := user_message |};
                                 {| role := "assistant"; content := ai_response |} ] ]>
         (user_contexts ai);
     system_prompt := system_prompt ai |}.

Definition chat (w : World) (ai : AIAssistant) (user_message : string) (user_id : Z)
  : AIAssistant * pydict :=
  if negb (is_available ai) then (ai, unavailable_error)
  else
    match complete w (build_messages ai user_message user_id) with
    | ApiFailure text => (ai, general_error text)
    | ApiReply text =>
        let ai_response := Py.strip text in
        (save_exchange ai user_message ai_response user_id,
         catch_all (parsed <- _parse_ai_response w ai_response ;;
                    check_parsed w parsed))
    end.

Definition clear_context (ai : AIAssistant) (user_id : Z) : AIAssistant :=
  match user_contexts ai !! user_id with
  | Some _ =>
      {| client := client ai;
         user_contexts := <[ user_id := [] ]> (user_contexts ai);
         system_prompt := system_prompt ai |}
  | None => ai
  end.

Definition get_context_size (ai : AIAssistant) (user_id : Z) : nat :=
  length (stored_context ai user_id).

(** ** v2/telegram_bot.py: the dispatcher *)

(** What [_handle_ai_response] decides to do with a result of [chat]. The
    texts it builds around these values are left out; the loop that
    numbers the suggestions of a question is kept, since it can raise. *)
Inductive action : Type :=
| ReplyConversation (text : json)
| AskQuestion (question suggestions : json)
| OfferInstall (tool install_command explanation : json)
| ExecuteTool (tool_name parameters explanation : json)
| ReportError (error suggestion : json)
| ReplyNotUnderstood.

(** [d[k]] *)
Definition getitem (k : string) (d : pydict) : raises json :=
  match Dict.get k d with
  | Some v => ret v
  | None => throw (KeyError k)
  end.

(** A Python string is true when it is not empty. *)
Definition truthy (s : string) : bool :=
  match s with EmptyString => false | _ => true end.

(** The truth value Python gives a decoded value. *)
Definition json_truthy (v : json) : bool :=
  match v with
  | JNull => false
  | JBool b => b
  | JInt n => negb (n =? 0)%Z
  | JFloat r => negb (String.eqb r "0.0" || String.eqb r "-0.0")
  | JStr s => truthy s
  | JArr l => match l with [] => false | _ => true end
  | JObj d => match d with [] => false | _ => true end
  end.

(** What a [for] loop over a decoded value goes through: the items of a
    list, the characters of a string, the keys of a dict; a number, a
    boolean and [None] cannot be iterated, which is a [TypeError]. *)
Definition iterate (v : json) : raises (list json) :=
  match v with
  | JArr items => ret items
  | JStr s => ret (map (fun c => JStr (String c EmptyString)) (list_ascii_of_string s))
  | JObj fields => ret (map (fun field => JStr (fst field)) fields)
  | _ => throw (OtherException ("'" +:+ type_name v +:+ "' object is not iterable"))
  end.

(** The suggestions that are numbered under a question:
    [if suggestions: for i, sug in enumerate(suggestions, 1): ...] *)
Definition numbered (suggestions : json) : raises (list (Z * json)) :=
  if json_truthy suggestions then
    items <- iterate suggestions ;;
    ret (combine (map (fun k => Z.of_nat k + 1)%Z (seq 0 (length items))) items)
  else ret [].

Definition _handle_ai_response (ai_result : pydict) : raises action :=
  if Dict.has "conversation" ai_result then
    text <- getitem "conversation" ai_result ;;
    ret (ReplyConversation text)
  else if Dict.has "question" ai_result then
    question <- getitem "question" ai_result ;;
    let suggestions := Dict.get_default "suggestions" (JArr []) ai_result in
    _ <- numbered suggestions ;;
    ret (AskQuestion question suggestions)
  else if Dict.has "tool_not_installed" ai_result then
    tool <- getitem "tool_not_installed" ai_result ;;
    install_cmd <- getitem "install_command" ai_result ;;
    ret (OfferInstall tool install_cmd
           (Dict.get_default "explanation" (JStr "") ai_result))
  else if Dict.has "tool" ai_result && Dict.has "parameters" ai_result then
    tool_name <- getitem "tool" ai_result ;;
    parameters <- getitem "parameters" ai_result ;;
    ret (ExecuteTool tool_name parameters
           (Dict.get_default "explanation" (JStr "Ejecutando...") ai_result))
  else if Dict.has "error" ai_result then
    error <- getitem "error" ai_result ;;
    ret (ReportError error (Dict.get_default "suggestion" (JStr "") ai_result))
  else ret ReplyNotUnderstood.

(** [check_authorization]: an empty allow-list admits everybody. *)
Definition check_authorization (allowed : list Z) (user_id : Z) : bool :=
  match allowed with
  | [] => true
  | _ => bool_decide (user_id ∈ allowed)
  end.

(** [handle_message]: nothing happens for a user who is not allowed;
    otherwise the message goes through [chat] and the dispatcher. *)
Definition handle_message (w : World) (allowed : list Z) (ai : AIAssistant)
  (user_message : string) (user_id : Z) : AIAssistant * option (raises action) :=
  if negb (check_authorization allowed user_id) then (ai, None)
  else
    let '(ai', ai_result) := chat w ai user_message user_id in
    (ai', Some (_handle_ai_response ai_result)).

(** ** Running commands: v2/tool_executor.py and v2/tool_system.py *)

(** What the code does to the child process. [Killed] is
    [process.kill()] going through: the signal goes to the shell that
    [create_subprocess_shell] started, not to what the shell runs. *)
Inductive proc_event : Type :=
| Spawned (command : string)
| Killed.

Definition timeout_text (timeout : Z) : string :=
  "Comando excedi" +:+ String o_acute (" el timeout de " +:+
  Py.str_of_int timeout +:+ " segundos").

(** [ToolExecutor.run_command]; the legacy [run_command] is the same
    code. *)
Definition run_command (w : World) (command : string) (timeout : Z)
  : pydict * list proc_event :=
  match os_run w command timeout with
  | SpawnFails text =>
      ([ ("success", JBool false); ("command", JStr command);
         ("error", JStr text) ],
       [])
  | Exited stdout stderr returncode =>
      ([ ("success", JBool true); ("command", JStr command);
         ("stdout", JStr stdout); ("stderr", JStr stderr);
         ("returncode", JInt returncode) ],
       [Spawned command])
  | TimedOut =>
      ([ ("success", JBool false); ("command", JStr command);
         ("error", JStr (timeout_text timeout)) ],
       [Spawned command; Killed])
  | KillRaises text =>
      (* [process.kill()] is inside the outer [try]: its exception goes
         to [except Exception as e] *)
      ([ ("success", JBool false); ("command", JStr command);
         ("error", JStr text) ],
       [Spawned command])
  end.

(** The command line [_run_command] really runs. *)
Definition sudo_command (root_password command : string) (use_sudo : bool)
  : string :=
  if use_sudo && truthy root_password then
    "echo " +:+ String Py.dquote (root_password +:+
    String Py.dquote (" | sudo -S " +:+ command))
  else if use_sudo then "sudo " +:+ command
  else command.

(** [command.replace(self.root_password, "***") if self.root_password
    else command] *)
Definition redact (root_password command : string) : string :=
  if truthy root_password then Py.replace root_password "***" command
  else command.

(** [ToolSystemManager._run_command] *)
Definition _run_command (w : World) (root_password command : string)
  (timeout : Z) (use_sudo : bool) : pydict * list proc_event :=
  let command := sudo_command root_password command use_sudo in
  match os_run w command timeout with
  | SpawnFails text =>
      ([ ("success", JBool false); ("command", JStr command);
         ("error", JStr text) ],
       [])
  | Exited stdout stderr returncode =>
      ([ ("success", JBool true);
         ("command", JStr (redact root_password command));
         ("stdout", JStr stdout); ("stderr", JStr stderr);
         ("returncode", JInt returncode) ],
       [Spawned command])
  | TimedOut =>
      ([ ("success", JBool false);
         ("command", JStr (redact root_password command));
         ("error", JStr (timeout_text timeout)) ],
       [Spawned command; Killed])
  | KillRaises text =>
      (* the outer [except]: the command as it was run *)
      ([ ("success", JBool false); ("command", JStr command);
         ("error", JStr text) ],
       [Spawned command])
  end.

(** ** The routed-response shapes, as the specification names them *)

Inductive shape : Type :=
| Conversation | Tool | Question | ToolNotInstalled | Error | Unknown.

Definition shape_eqb (a b : shape) : bool :=
  match a, b with
  | Conversation, Conversation | Tool, Tool | Question, Question
  | ToolNotInstalled, ToolNotInstalled | Error, Error | Unknown, Unknown => true
  | _, _ => false
  end.

(** The keys that make a reply have a shape. *)
Definition matches (d : pydict) (s : shape) : bool :=
  match s with
  | Conversation => Dict.has "conversation" d
  | Tool => Dict.has "tool" d && Dict.has "parameters" d
  | Question => Dict.has "question" d
  | ToolNotInstalled => Dict.has "tool_not_installed" d
  | Error => Dict.has "error" d
  | Unknown => true
  end.

(** First matching shape wins; [Unknown] when none does. *)
Definition first_match (order : list shape) (d : pydict) : shape :=
  match List.find (matches d) order with
  | Some s => s
  | None => Unknown
  end.

(** The order in which the specification lists the shapes. *)
Definition stated_order : list shape :=
  [Conversation; Tool; Question; ToolNotInstalled; Error].

(** The order in which [_handle_ai_response] tests them. *)
Definition dispatch_order : list shape :=
  [Conversation; Question; ToolNotInstalled; Tool; Error].

Definition shape_of (a : action) : shape :=
  match a with
  | ReplyConversation _ => Conversation
  | AskQuestion _ _ => Question
  | OfferInstall _ _ _ => ToolNotInstalled
  | ExecuteTool _ _ _ => Tool
  | ReportError _ _ => Error
  | ReplyNotUnderstood => Unknown
  end.

(** The value of the ["command"] field of an execution result. *)
Definition command_field (result : pydict) : string :=
  match Dict.get "command" result with
  | Some (JStr c) => c
  | _ => EmptyString
  end.

(** The first [n] pieces of [s] cut at [0], [step], [2 * step], ... *)
Definition pieces (step n : nat) (s : string) : list string :=
  map (fun i => Py.slice i (i + step) s) (map (fun k => 0 + k * step) (seq 0 n)).

(** A result of [chat] is an error when it has an ["error"] key holding a
    message. *)
Definition error_shaped (result : pydict) : bool :=
  match Dict.get "error" result with
  | Some (JStr _) => true
  | _ => false
  end.

(** Several messages of one user, one [chat] after the other. *)
Fixpoint chats (w : World) (ai : AIAssistant) (user_messages : list string)
  (user_id : Z) : AIAssistant :=
  match user_messages with
  | [] => ai
  | m :: rest => chats w (fst (chat w ai m user_id)) rest user_id
  end.

(** ** Concrete worlds, to run the model on *)

Module Demo.

(** [s] between double quotes. *)
Definition q (s : string) : string :=
  String Py.dquote (s +:+ String Py.dquote EmptyString).

(** [{"conversation":"hi"}] *)
Definition hi_text : string :=
  "{" +:+ q "conversation" +:+ ":" +:+ q "hi" +:+ "}".

Definition hi_value : json := JObj [("conversation", JStr "hi")].

(** [{"tool":"nmap","parameters":{"target":"10.0.0.1"},"explanation":"scan"}] *)
Definition nmap_text : string :=
  "{" +:+ q "tool" +:+ ":" +:+ q "nmap" +:+ "," +:+ q "parameters" +:+ ":{"
  +:+ q "target" +:+ ":" +:+ q "10.0.0.1" +:+ "}," +:+ q "explanation" +:+ ":"
  +:+ q "scan" +:+ "}".

Definition nmap_parameters : json := JObj [("target", JStr "10.0.0.1")].

Definition nmap_value : json :=
  JObj [ ("tool", JStr "nmap"); ("parameters", nmap_parameters);
         ("explanation", JStr "scan") ].

(** A decoder that knows the two texts above and rejects every other
    text. *)
Definition loads (s : string) : raises json :=
  if String.eqb s hi_text then ret hi_value
  else if String.eqb s nmap_text then ret nmap_value
  else throw JSONDecodeError.

(** A world where the model always answers [reply], the tools in
    [installed] are on the path and commands end as [outcome]. *)
Definition world (reply : api_outcome) (installed : list string)
  (outcome : proc_outcome) : World :=
  {| which := fun name => bool_decide (name ∈ installed);
     json_loads := loads;
     complete := fun _ => reply;
     os_run := fun _ _ => outcome |}.

Definition assistant : AIAssistant :=
  {| client := true; user_contexts := ∅;
     system_prompt := "Eres un asistente de pentesting profesional y amigable." |}.

Definition entry (n : nat) : message :=
  {| role := "user"; content := Py.str_of_int (Z.of_nat n) |}.

(** The same text inside a fenced block, with and without the
    language tag. *)
Definition hi_fenced_json : string :=
  fence_json +:+ String Py.newline (hi_text +:+ String Py.newline fence).

Definition hi_fenced : string := code_block hi_text.

(** A reply with the keys of a tool call and of a question. *)
Definition tool_and_question : pydict :=
  [ ("tool", JStr "nmap"); ("parameters", nmap_parameters);
    ("question", JStr "Which ports?") ].

(** A question whose suggestions are a number, and one whose suggestions
    are a list. *)
Definition question_with_number : pydict :=
  [ ("question", JStr "Which ports?"); ("suggestions", JInt 5) ].

Definition question_with_list : pydict :=
  [ ("question", JStr "Which ports?");
    ("suggestions", JArr [JStr "80"; JStr "443"]) ].

(** A reply with the keys of a tool call and of a conversation. *)
Definition tool_and_conversation : pydict :=
  [ ("tool", JStr "nmap"); ("parameters", nmap_parameters);
    ("conversation", JStr "Scanning now.") ].

(** An assistant that holds twelve entries for user 7. *)
Definition busy_assistant : AIAssistant :=
  {| client := true;
     user_contexts := <[ 7%Z := map entry (seq 0 12) ]> ∅;
     system_prompt := "" |}.

End Demo.

(** ** What the specification asks of an execution result *)

(** The subprocess ended before the timeout. *)
Definition completed (outcome : proc_outcome) : bool :=
  match outcome with
  | Exited _ _ _ => true
  | _ => false
  end.

(** [result] reports [outcome]: a command, a boolean ["success"] that is
    true exactly for a completed subprocess, the two outputs and the exit
    code of a completed subprocess, an error text otherwise. *)
Definition reports (outcome : proc_outcome) (result : pydict) : Prop :=
  (exists command, Dict.get "command" result = Some (JStr command))
  /\ Dict.get "success" result = Some (JBool (completed outcome))
  /\ (forall stdout stderr code,
        outcome = Exited stdout stderr code ->
        Dict.get "stdout" result = Some (JStr stdout)
        /\ Dict.get "stderr" result = Some (JStr stderr)
        /\ Dict.get "returncode" result = Some (JInt code))
  /\ (completed outcome = false ->
      exists text, Dict.get "error" result = Some (JStr text)).

(** ** What the specification asks of the dispatcher *)

(** The dispatcher takes the first shape of [order] that the reply
    matches. *)
Definition dispatches_in_order (order : list shape) : Prop :=
  forall (d : pydict) (a : action),
    _handle_ai_response d = inr a -> shape_of a = first_match order d.

(** What becomes of a parsed reply: the availability check of [chat], its
    [except] clauses, then the dispatcher. *)
Definition route (w : World) (parsed : pydict) : raises action :=
  _handle_ai_response (catch_all (check_parsed w parsed)).

(** Every reply that names a tool which is present ends in the execution
    of that tool. *)
Definition present_tool_is_executed (w : World) : Prop :=
  forall (parsed : pydict) (name : string),
    Dict.get "tool" parsed = Some (JStr name) ->
    which w name = true ->
    exists parameters explanation,
      route w parsed = inr (ExecuteTool (JStr name) parameters explanation).

(** ** What the specification asks of the parser *)

(** A reply that begins with a fenced block: the opening fence with its
    language tag and a line break, the contents, the closing fence and
    what follows it. *)
Definition fenced_block (tag contents rest : string) : string :=
  fence +:+ tag +:+ String Py.newline (contents +:+ fence +:+ rest).

(** The parser decodes the contents of the first fenced region of every
    such reply: the tag holds no backtick and no line break, the contents
    hold no fence. *)
Definition unwraps_fenced_blocks (w : World) : Prop :=
  forall tag contents rest : string,
    Py.contains "`" tag = false ->
    Py.contains (String Py.newline EmptyString) tag = false ->
    Py.contains fence contents = false ->
    _parse_ai_response w (fenced_block tag contents rest)
    = (parsed <- json_loads w (Py.strip contents) ;; keys_of parsed).

(** [suggest_install(name)["install_command"]] for a string. *)
Definition install_command_for (name : string) : string :=
  match table_get name install_commands with
  | Some c => c
  | None => "sudo apt install " +:+ name
  end.

(** The result [chat] builds for a tool that is not installed. *)
Definition not_installed_result (name : string) : pydict :=
  [ ("tool_not_installed", JStr name);
    ("install_command", JStr (install_command_for name));
    ("offer_install", JBool true);
    ("explanation", JStr (name +:+ not_installed_text)) ].

(** ** More concrete worlds *)

Module Demo2.

(** A decoder given by a table of texts and their values; every other
    text is rejected. *)
Fixpoint decode (table : list (string * json)) (s : string) : raises json :=
  match table with
  | [] => throw JSONDecodeError
  | (text, value) :: rest => if String.eqb s text then ret value else decode rest s
  end.

Definition world (table : list (string * json)) (reply : api_outcome)
  (installed : list string) (outcome : proc_outcome) : World :=
  {| which := fun name => bool_decide (name ∈ installed);
     json_loads := decode table;
     complete := fun _ => reply;
     os_run := fun _ _ => outcome |}.




End Demo2.

(** ** v2/tool_discovery.py: the catalogue of tools *)

(** The information kept for a tool. [version] is absent for a tool that
    was not discovered, as in [get_tool_info]. *)
Record tool_info : Type := {
  installed : bool;
  path : option string;
  version : option string;
  category : string;
  description : string
}.

(** [_load_common_tools]: name, category, description. *)
Definition common_kali_tools : list (string * (string * string)) :=
  [
    ("nmap", ("network_scan", "Network exploration and security auditing"));
    ("masscan", ("network_scan", "Ultra-fast port scanner"));
    ("netcat", ("network_scan", "TCP/UDP connections and listening"));
    ("nc", ("network_scan", "Netcat alias"));
    ("ping", ("network_scan", "ICMP echo requests"));
    ("traceroute", ("network_scan", "Trace route to host"));
    ("arp-scan", ("network_scan", "ARP network scanner"));
    ("unicornscan", ("network_scan", "Advanced network scanner"));
    ("nikto", ("web_scan", "Web server vulnerability scanner"));
    ("wpscan", ("web_scan", "WordPress vulnerability scanner"));
    ("whatweb", ("web_scan", "Web technology identifier"));
    ("gobuster", ("web_scan", "Directory/file/DNS brute forcer"));
    ("dirb", ("web_scan", "Web content scanner"));
    ("wfuzz", ("web_scan", "Web application fuzzer"));
    ("ffuf", ("web_scan", "Fast web fuzzer"));
    ("sqlmap", ("exploitation", "SQL injection tool"));
    ("msfconsole", ("exploitation", "Metasploit Framework console"));
    ("msfvenom", ("exploitation", "Metasploit payload generator"));
    ("searchsploit", ("exploitation", "Exploit-DB search tool"));
    ("exploit-db", ("exploitation", "Exploit database"));
    ("hydra", ("password", "Network login cracker"));
    ("john", ("password", "John the Ripper password cracker"));
    ("hashcat", ("password", "Advanced password recovery"));
    ("crunch", ("password", "Wordlist generator"));
    ("cewl", ("password", "Custom wordlist generator"));
    ("aircrack-ng", ("wireless", "WiFi security auditing"));
    ("airodump-ng", ("wireless", "WiFi packet capture"));
    ("aireplay-ng", ("wireless", "WiFi packet injection"));
    ("reaver", ("wireless", "WPS attack tool"));
    ("wash", ("wireless", "WPS scanner"));
    ("bully", ("wireless", "WPS brute force"));
    ("enum4linux", ("enumeration", "SMB enumeration tool"));
    ("smbclient", ("enumeration", "SMB/CIFS client"));
    ("rpcclient", ("enumeration", "RPC client tool"));
    ("snmp-check", ("enumeration", "SNMP enumerator"));
    ("ldapsearch", ("enumeration", "LDAP search tool"));
    ("dig", ("dns", "DNS lookup tool"));
    ("nslookup", ("dns", "DNS query tool"));
    ("host", ("dns", "DNS lookup utility"));
    ("dnsenum", ("dns", "DNS enumeration tool"));
    ("dnsrecon", ("dns", "DNS reconnaissance tool"));
    ("fierce", ("dns", "DNS reconnaissance"));
    ("whois", ("info_gathering", "Domain/IP information"));
    ("theHarvester", ("info_gathering", "Email/subdomain gatherer"));
    ("recon-ng", ("info_gathering", "Reconnaissance framework"));
    ("shodan", ("info_gathering", "Shodan CLI"));
    ("tshark", ("sniffing", "CLI network analyzer"));
    ("tcpdump", ("sniffing", "Packet analyzer"));
    ("binwalk", ("forensics", "Firmware analysis tool"));
    ("foremost", ("forensics", "File carving tool"));
    ("volatility", ("forensics", "Memory forensics"));
    ("setoolkit", ("social_eng", "Social Engineering Toolkit"));
    ("curl", ("utilities", "HTTP client"));
    ("wget", ("utilities", "File downloader"));
    ("git", ("utilities", "Version control"));
    ("python3", ("utilities", "Python interpreter"))
  ].

(** What [get_tool_path] and [get_tool_version] find out about a tool by
    running it. *)
Record Probe : Type := {
  get_tool_path : string -> option string;
  get_tool_version : string -> string
}.

(** [d.get(name)] for a dict with string keys. *)
Fixpoint assoc {A} (name : string) (d : list (string * A)) : option A :=
  match d with
  | [] => None
  | (k, v) :: d' => if String.eqb name k then Some v else assoc name d'
  end.

Definition scan_installed_tools (w : World) (p : Probe)
  : list (string * tool_info) :=
  flat_map
    (fun entry =>
       let name := fst entry in
       if check_tool_installed w (JStr name)
       then [ (name, {| installed := true;
                        path := get_tool_path p name;
                        version := Some (get_tool_version p name);
                        category := fst (snd entry);
                        description := snd (snd entry) |}) ]
       else [])
    common_kali_tools.

Definition get_tools_by_category (discovered_tools : list (string * tool_info))
  (cat : string) : list string :=
  map fst (List.filter (fun entry => String.eqb (category (snd entry)) cat)
             discovered_tools).

(** [sorted] on strings: by code points, as [String.leb] orders them. *)
Module StringOrder <: Orders.TotalLeBool.
Definition t : Type := string.
Definition leb : t -> t -> bool := String.leb.
Lemma leb_total (x y : t) : leb x y = true \/ leb y x = true.
Proof. apply String.leb_total. Qed.
End StringOrder.

Module StringSort := Mergesort.Sort StringOrder.

Definition sorted (l : list string) : list string := StringSort.sort l.

(** [get_all_categories]: the set of the categories, sorted. *)
Definition get_all_categories (discovered_tools : list (string * tool_info))
  : list string :=
  sorted (remove_dups (map (fun entry => category (snd entry)) discovered_tools)).

Definition get_tool_info (discovered_tools : list (string * tool_info))
  (tool_name : string) : option tool_info :=
  match assoc tool_name discovered_tools with
  | Some info => Some info
  | None =>
      match assoc tool_name common_kali_tools with
      | Some (cat, desc) =>
          Some {| installed := false; path := None; version := None;
                  category := cat; description := desc |}
      | None => None
      end
  end.

(** ** v2/tool_executor.py: installing a tool *)

(** The truth value of [d.get(k)]. *)
Definition get_truthy (k : string) (d : pydict) : bool :=
  match Dict.get k d with
  | Some v => json_truthy v
  | None => false
  end.

Definition install_tool (w : World) (tool_name install_command : string)
  : pydict * list proc_event :=
  let '(result, events) := run_command w install_command 600 in
  if get_truthy "success" result then
    ([ ("success", JBool true); ("tool", JStr tool_name);
       ("message", JStr (tool_name +:+ " instalado correctamente")) ],
     events)
  else
    ([ ("success", JBool false); ("tool", JStr tool_name);
       ("error", Dict.get_default "error" (JStr "Error desconocido") result) ],
     events).

(** ** v2/telegram_bot.py: the buttons and their callbacks *)

(** The callback data of the button that accepts the installation of
    [tool], as [_handle_ai_response] builds it. *)
Definition yes_button (tool : string) : string := "install_" +:+ tool.

(** What [install_callback] tells the user. *)
Inductive install_reply : Type :=
| InstallCancelled
| InstallDone (tool_name : string)
| InstallError (error : json).

(** [install_callback]: [before] is the world in which the install
    command runs, [after] the one in which the tools are scanned again. *)
Definition install_callback (before after : World) (p : Probe)
  (discovered_tools : list (string * tool_info)) (data : string)
  : list (string * tool_info) * install_reply * list proc_event :=
  if String.eqb data "install_cancel" then
    (discovered_tools, InstallCancelled, [])
  else
    let tool_name := Py.replace "install_" "" data in
    let '(result, events) :=
      install_tool before tool_name (install_command_for tool_name) in
    if get_truthy "success" result then
      (scan_installed_tools after p, InstallDone tool_name, events)
    else
      (discovered_tools,
       InstallError (Dict.get_default "error" (JStr "Error desconocido") result),
       events).

(** The callback data of the button of a category. *)
Definition cat_button (cat : string) : string := "cat_" +:+ cat.

Fixpoint map_raises {A B} (f : A -> raises B) (l : list A) : raises (list B) :=
  match l with
  | [] => ret []
  | a :: l' => b <- f a ;; bs <- map_raises f l' ;; ret (b :: bs)
  end.

(** [categories_command]: the rows of the keyboard, each button by its
    callback data (the label is the category with spaces and capitals). *)
Definition keyboard_rows (categories : list string) : raises (list (list string)) :=
  map_raises
    (fun i =>
       first <- item i categories ;;
       if (i + 1 <? length categories)%nat then
         second <- item (i + 1) categories ;;
         ret [cat_button first; cat_button second]
       else ret [cat_button first])
    (Py.range 0 (length categories) 2).

(** [category_callback]: the category read back from the callback data
    and, for each of its tools in sorted order, the description shown. A
    tool without information raises ([None] has no [get]). *)
Definition category_callback (discovered_tools : list (string * tool_info))
  (data : string) : raises (string * list (string * string)) :=
  let cat := Py.replace "cat_" "" data in
  let tools := get_tools_by_category discovered_tools cat in
  lines <- map_raises
             (fun tool =>
                match get_tool_info discovered_tools tool with
                | Some info => ret (tool, description info)
                | None =>
                    throw (OtherException
                             "'NoneType' object has no attribute 'get'")
                end)
             (sorted tools) ;;
  ret (cat, lines).

(** ** v2/tool_system.py: packages and files *)

(** [d[k] = v] *)
Fixpoint dict_set (k : string) (v : json) (d : pydict) : pydict :=
  match d with
  | [] => [(k, v)]
  | (k', v') :: d' =>
      if String.eqb k k' then (k, v) :: d' else (k', v') :: dict_set k v d'
  end.

Definition package_commands (package_name : string) : list (string * string) :=
  [ ("apt", "apt-get update && apt-get install -y " +:+ package_name);
    ("pip", "pip install " +:+ package_name);
    ("pip3", "pip3 install " +:+ package_name);
    ("gem", "gem install " +:+ package_name);
    ("cargo", "cargo install " +:+ package_name);
    ("npm", "npm install -g " +:+ package_name) ].

Definition install_package (w : World) (root_password package_name
  package_manager : string) : pydict * list proc_event :=
  let commands := package_commands package_name in
  match table_get package_manager commands with
  | None =>
      ([ ("success", JBool false);
         ("error",
          JStr ("Package manager '" +:+ package_manager +:+ "' no soportado. Usa: "
                +:+ String.concat ", " (map fst commands))) ],
       [])
  | Some command =>
      let use_sudo :=
        String.eqb package_manager "apt" || String.eqb package_manager "npm" in
      let '(result, events) := _run_command w root_password command 1800 use_sudo in
      (dict_set "package_manager" (JStr package_manager)
         (dict_set "package" (JStr package_name) result),
       events)
  end.

(** [l[:stop]] *)
Definition slice_to {A} (stop : Z) (l : list A) : list A :=
  if (stop <? 0)%Z
  then take (Z.to_nat (Z.max 0 (Z.of_nat (length l) + stop))) l
  else take (Z.to_nat stop) l.

(** [read_file]; [readlines] is what opening the file and reading its
    lines gives: the lines, or the text of the exception. *)
Definition read_file (readlines : string -> string + list string)
  (filepath : string) (lines : Z) : pydict :=
  match readlines filepath with
  | inr content_lines =>
      let display_lines := slice_to lines content_lines in
      [ ("success", JBool true); ("filepath", JStr filepath);
        ("total_lines", JInt (Z.of_nat (length content_lines)));
        ("showing_lines", JInt (Z.of_nat (length display_lines)));
        ("content", JStr (Py.join display_lines));
        ("truncated", JBool (lines <? Z.of_nat (length content_lines))%Z) ]
  | inl text =>
      [ ("success", JBool false); ("filepath", JStr filepath);
        ("error", JStr text) ]
  end.

(** The list cut in rows of two, the last row alone when the length is
    odd. *)
Fixpoint pairs {A} (l : list A) : list (list A) :=
  match l with
  | [] => []
  | [a] => [[a]]
  | a :: b :: l' => [a; b] :: pairs l'
  end.

(** A probe for the concrete worlds. *)
Definition demo_probe : Probe :=
  {| get_tool_path := fun name => Some ("/usr/bin/" +:+ name);
     get_tool_version := fun _ => "Unknown version" |}.

(** ** v2/config.py: timeouts and word lists *)

Definition TOOL_TIMEOUTS : list (string * Z) :=
  [ ("nmap", 600); ("nikto", 600); ("gobuster", 600); ("sqlmap", 600);
    ("whatweb", 120); ("hydra", 1800); ("msfvenom", 120); ("netcat", 30);
    ("dig", 30); ("whois", 30); ("traceroute", 120); ("masscan", 600);
    ("enum4linux", 300); ("searchsploit", 30); ("wpscan", 600);
    ("default", 300) ]%Z.

Definition WORDLISTS : list (string * string) :=
  [ ("common", "/usr/share/wordlists/dirb/common.txt");
    ("medium", "/usr/share/wordlists/dirbuster/directory-list-2.3-medium.txt");
    ("big", "/usr/share/wordlists/dirbuster/directory-list-2.3-big.txt");
    ("dns", "/usr/share/wordlists/dnsmap.txt");
    ("rockyou", "/usr/share/wordlists/rockyou.txt") ].

(** [TOOL_TIMEOUTS.get(name, dflt)] *)
Definition timeout_get (name : string) (dflt : Z) : Z :=
  match assoc name TOOL_TIMEOUTS with
  | Some t => t
  | None => dflt
  end.

(** ** v2/tool_executor.py: the command lines *)

(** What Python raises while a command line is put together. *)
Inductive pyerr : Type :=
| KeyErr (key : json)                (* KeyError *)
| TypeErr                            (* TypeError *)
| AttributeErr                       (* AttributeError *)
| UnboundLocalErr (variable : string).

Abbreviation fails A := (pyerr + A)%type.

Definition and_then {A B} (m : fails A) (k : A -> fails B) : fails B :=
  match m with
  | inl e => inl e
  | inr a => k a
  end.

Notation "x <~ m ;; k" := (and_then m (fun x => k))
  (at level 100, m at next level, right associativity).

(** [str] of a list and of a dict, which the formatting of a parameter
    can need, are Python's. *)
Record Python : Type := {
  str_of_list : list json -> string;
  str_of_dict : pydict -> string;
  json_dumps : pydict -> string      (* json.dumps(result, indent=2) *)
}.

(** [f"{v}"] *)
Definition py_str (py : Python) (v : json) : string :=
  match v with
  | JStr s => s
  | JInt n => Py.str_of_int n
  | JFloat r => r
  | JBool true => "True"
  | JBool false => "False"
  | JNull => "None"
  | JArr l => str_of_list py l
  | JObj d => str_of_dict py d
  end.

(** [params[k]] *)
Definition subscript (params : json) (k : string) : fails json :=
  match params with
  | JObj d =>
      match Dict.get k d with
      | Some v => inr v
      | None => inl (KeyErr (JStr k))
      end
  | _ => inl TypeErr
  end.

(** [params.get(k, dflt)] *)
Definition get_param (params : json) (k : string) (dflt : json) : fails json :=
  match params with
  | JObj d => inr (Dict.get_default k dflt d)
  | _ => inl AttributeErr
  end.

(** [v == s] for a string [s] *)
Definition is_str (v : json) (s : string) : bool :=
  match v with
  | JStr s' => String.eqb s' s
  | _ => false
  end.

(** [table[key]] for a table with string keys: a list or a dict cannot be
    a key. *)
Definition table_item (key : json) (table : list (string * string)) : fails string :=
  match key with
  | JStr s =>
      match table_get s table with
      | Some v => inr v
      | None => inl (KeyErr key)
      end
  | JArr _ | JObj _ => inl TypeErr
  | _ => inl (KeyErr key)
  end.

(** [WORDLISTS.get(wordlist, wordlist)] *)
Definition wordlist_path (wordlist : json) : fails json :=
  match wordlist with
  | JStr s =>
      match table_get s WORDLISTS with
      | Some v => inr (JStr v)
      | None => inr wordlist
      end
  | JArr _ | JObj _ => inl TypeErr
  | _ => inr wordlist
  end.

Definition _format_result (py : Python) (result : pydict) : string :=
  json_dumps py result.

(** The end of every method: run the command, return the formatted
    result. *)
Definition run (py : Python) (w : World) (command : string) (timeout : Z)
  : fails (string * list proc_event) :=
  let result := run_command w command timeout in
  inr (_format_result py (fst result), snd result).

Definition execute_nmap (py : Python) (w : World) (params : json)
  : fails (string * list proc_event) :=
  target <~ subscript params "target" ;;
  ports <~ get_param params "ports" (JStr "1-1000") ;;
  scan_type <~ get_param params "scan_type" (JStr "basic") ;;
  output_format <~ get_param params "output_format" (JStr "normal") ;;
  let scan_options :=
    [ ("quick", "-F");
      ("basic", "-p " +:+ py_str py ports);
      ("version", "-sV -p " +:+ py_str py ports);
      ("aggressive", "-A -p " +:+ py_str py ports);
      ("stealth", "-sS -p " +:+ py_str py ports);
      ("udp", "-sU -p " +:+ py_str py ports) ] in
  let verbose := if is_str output_format "verbose" then "-v" else "" in
  let xml := if is_str output_format "xml" then "-oX -" else "" in
  option <~ table_item scan_type scan_options ;;
  run py w ("nmap " +:+ option +:+ " " +:+ verbose +:+ " " +:+ xml +:+ " "
         +:+ py_str py target)
      (timeout_get "nmap" 600).

Definition execute_nikto (py : Python) (w : World) (params : json)
  : fails (string * list proc_event) :=
  target <~ subscript params "target" ;;
  ssl_value <~ get_param params "ssl" (JBool false) ;;
  let ssl := if json_truthy ssl_value then "-ssl" else "" in
  port <~ get_param params "port" (JInt 80) ;;
  tuning <~ get_param params "tuning" (JStr "1234") ;;
  run py w ("nikto -h " +:+ py_str py target +:+ " -p " +:+ py_str py port +:+ " "
         +:+ ssl +:+ " -Tuning " +:+ py_str py tuning)
      (timeout_get "nikto" 600).

Definition execute_gobuster (py : Python) (w : World) (params : json)
  : fails (string * list proc_event) :=
  mode <~ get_param params "mode" (JStr "dir") ;;
  target <~ subscript params "target" ;;
  wordlist <~ get_param params "wordlist" (JStr "common") ;;
  threads <~ get_param params "threads" (JInt 10) ;;
  wl_path <~ wordlist_path wordlist ;;
  command <~
    (if is_str mode "dir" then
       extensions <~ get_param params "extensions" (JStr "php,html,txt") ;;
       inr ("gobuster dir -u " +:+ py_str py target +:+ " -w " +:+ py_str py wl_path
            +:+ " -x " +:+ py_str py extensions +:+ " -t " +:+ py_str py threads)
     else if is_str mode "dns" then
       inr ("gobuster dns -d " +:+ py_str py target +:+ " -w " +:+ py_str py wl_path
            +:+ " -t " +:+ py_str py threads)
     else if is_str mode "vhost" then
       inr ("gobuster vhost -u " +:+ py_str py target +:+ " -w "
            +:+ py_str py wl_path +:+ " -t " +:+ py_str py threads)
     else inl (UnboundLocalErr "command")) ;;
  run py w command (timeout_get "gobuster" 600).

Definition execute_sqlmap (py : Python) (w : World) (params : json)
  : fails (string * list proc_event) :=
  url <~ subscript params "url" ;;
  level <~ get_param params "level" (JInt 1) ;;
  risk <~ get_param params "risk" (JInt 1) ;;
  technique <~ get_param params "technique" (JStr "BEUST") ;;
  data <~ get_param params "data" JNull ;;
  cookie <~ get_param params "cookie" JNull ;;
  let command :=
    "sqlmap -u '" +:+ py_str py url +:+ "' --batch --level=" +:+ py_str py level
    +:+ " --risk=" +:+ py_str py risk +:+ " --technique=" +:+ py_str py technique in
  let command :=
    if json_truthy data then command +:+ " --data='" +:+ py_str py data +:+ "'"
    else command in
  let command :=
    if json_truthy cookie then command +:+ " --cookie='" +:+ py_str py cookie +:+ "'"
    else command in
  run py w command (timeout_get "sqlmap" 600).

Definition execute_whatweb (py : Python) (w : World) (params : json)
  : fails (string * list proc_event) :=
  target <~ subscript params "target" ;;
  aggression <~ get_param params "aggression" (JInt 1) ;;
  verbose_value <~ get_param params "verbose" (JBool true) ;;
  let verbose := if json_truthy verbose_value then "-v" else "" in
  run py w ("whatweb -a " +:+ py_str py aggression +:+ " " +:+ verbose +:+ " "
         +:+ py_str py target)
      (timeout_get "whatweb" 120).

Definition execute_hydra (py : Python) (w : World) (params : json)
  : fails (string * list proc_event) :=
  target <~ subscript params "target" ;;
  service <~ subscript params "service" ;;
  username <~ subscript params "username" ;;
  rockyou <~ table_item (JStr "rockyou") WORDLISTS ;;
  password_list <~ get_param params "password_list" (JStr rockyou) ;;
  threads <~ get_param params "threads" (JInt 4) ;;
  port <~ get_param params "port" JNull ;;
  let port_flag := if json_truthy port then "-s " +:+ py_str py port else "" in
  run py w ("hydra -l " +:+ py_str py username +:+ " -P " +:+ py_str py password_list
         +:+ " -t " +:+ py_str py threads +:+ " " +:+ port_flag +:+ " "
         +:+ py_str py target +:+ " " +:+ py_str py service)
      (timeout_get "hydra" 1800).

Definition execute_dig (py : Python) (w : World) (params : json)
  : fails (string * list proc_event) :=
  domain <~ subscript params "domain" ;;
  record_type <~ get_param params "record_type" (JStr "A") ;;
  dns_server <~ get_param params "dns_server" (JStr "") ;;
  run py w ("dig " +:+ py_str py domain +:+ " " +:+ py_str py record_type +:+ " "
         +:+ (if json_truthy dns_server then py_str py dns_server else ""))
      (timeout_get "dig" 30).

Definition execute_whois (py : Python) (w : World) (params : json)
  : fails (string * list proc_event) :=
  target <~ subscript params "target" ;;
  run py w ("whois " +:+ py_str py target) (timeout_get "whois" 30).

(** [parameters.values()] *)
Definition values (parameters : json) : fails (list json) :=
  match parameters with
  | JObj d => inr (map snd d)
  | _ => inl AttributeErr
  end.

Definition _execute_generic_tool (py : Python) (w : World) (tool_name : string)
  (parameters : json) : fails (string * list proc_event) :=
  vs <~ values parameters ;;
  let args := String.concat " " (map (py_str py) vs) in
  run py w (tool_name +:+ " " +:+ args)
      (timeout_get tool_name (timeout_get "default" 300)).

(** The methods of [tool_methods] that work on files and packages; they
    are passed to [execute_tool] as [others]. *)
Definition file_methods : list string :=
  [ "msfvenom"; "download"; "git_clone"; "install_package"; "read_file";
    "move_file"; "copy_file" ].

(** [execute_tool]: the method of the table for a name that is in it, the
    generic method for every other name. *)
Definition execute_tool (py : Python)
  (others : string -> json -> fails (string * list proc_event))
  (w : World) (tool_name : string) (parameters : json)
  : fails (string * list proc_event) :=
  if String.eqb tool_name "nmap" then execute_nmap py w parameters
  else if String.eqb tool_name "nikto" then execute_nikto py w parameters
  else if String.eqb tool_name "gobuster" then execute_gobuster py w parameters
  else if String.eqb tool_name "sqlmap" then execute_sqlmap py w parameters
  else if String.eqb tool_name "whatweb" then execute_whatweb py w parameters
  else if String.eqb tool_name "hydra" then execute_hydra py w parameters
  else if String.eqb tool_name "dig" then execute_dig py w parameters
  else if String.eqb tool_name "whois" then execute_whois py w parameters
  else if bool_decide (tool_name ∈ file_methods) then others tool_name parameters
  else _execute_generic_tool py w tool_name parameters.

(** The parameters a method reads with [params[...]], in the order in
    which it reads them. *)
Definition required_parameters (tool_name : string) : list string :=
  if String.eqb tool_name "nmap" then ["target"]
  else if String.eqb tool_name "nikto" then ["target"]
  else if String.eqb tool_name "gobuster" then ["target"]
  else if String.eqb tool_name "sqlmap" then ["url"]
  else if String.eqb tool_name "whatweb" then ["target"]
  else if String.eqb tool_name "hydra" then ["target"; "service"; "username"]
  else if String.eqb tool_name "dig" then ["domain"]
  else if String.eqb tool_name "whois" then ["target"]
  else [].

Definition demo_python : Python :=
  {| str_of_list := fun _ => "[...]";
     str_of_dict := fun _ => "{...}";
     json_dumps := fun result =>
       match Dict.get "command" result with
       | Some (JStr command) => "{ command: " +:+ command +:+ " }"
       | _ => "{}"
       end |}.

(** * Properties *)

(** ** Strings *)

Lemma append_cons (c : ascii) (a b : string) :
  String c a +:+ b = String c (a +:+ b).
Proof. reflexivity. Qed.

Lemma append_empty_l (b : string) : EmptyString +:+ b = b.
Proof. reflexivity. Qed.

Lemma substring_0_drop (n : nat) (s : string) :
  substring 0 n s +:+ Py.drop n s = s.
Proof.
  revert s; induction n as [|n IH]; intros [|c s]; simpl; try reflexivity.
  rewrite append_cons. f_equal. apply IH.
Qed.

Lemma substring_drop (n m l : nat) (s : string) :
  substring (n + m) l s = substring m l (Py.drop n s).
Proof.
  revert s; induction n as [|n IH]; intros s; simpl; [reflexivity|].
  destruct s as [|c s]; [|apply IH].
  now destruct m, l.
Qed.

Lemma length_str_drop (n : nat) (s : string) :
  String.length (Py.drop n s) = String.length s - n.
Proof.
  revert s; induction n as [|n IH]; intros [|c s]; simpl; auto with arith.
Qed.

Lemma length_substring_le (n m : nat) (s : string) :
  String.length (substring n m s) <= m.
Proof.
  revert n m; induction s as [|c s IH]; intros [|n] [|m]; simpl; try lia.
  - specialize (IH 0 m). lia.
  - apply (IH n 0).
  - apply (IH n (S m)).
Qed.

Lemma length_0_empty (s : string) : String.length s = 0 -> s = EmptyString.
Proof. now destruct s. Qed.

(** ** Splitting long output *)

Section Chunks.

Variable step : nat.
Hypothesis step_pos : 0 < step.

Lemma pieces_succ (n : nat) (s : string) :
  pieces step (S n) s = substring 0 step s :: pieces step n (Py.drop step s).
Proof using Type.
  clear step_pos.
  unfold pieces, Py.slice. rewrite !map_map, <- cons_seq, <- seq_shift. simpl.
  rewrite Nat.sub_0_r, map_map. f_equal.
  apply map_ext; intros k. simpl.
  replace (step + k * step + step - (step + k * step)) with step by lia.
  replace (k * step + step - k * step) with step by lia.
  apply substring_drop.
Qed.

Lemma join_pieces (n : nat) (s : string) :
  String.length s <= n * step -> Py.join (pieces step n s) = s.
Proof using step_pos.
  revert s; induction n as [|n IH]; intros s Hlen.
  - simpl in Hlen. apply Nat.le_0_r, length_0_empty in Hlen. now subst.
  - rewrite pieces_succ. simpl. rewrite IH.
    + apply substring_0_drop.
    + rewrite length_str_drop. simpl in Hlen. lia.
Qed.

Lemma pieces_short (n : nat) (s : string) :
  Forall (fun p => String.length p <= step) (pieces step n s).
Proof using Type.
  clear step_pos.
  unfold pieces. rewrite map_map. apply List.Forall_forall. intros p Hp.
  apply in_map_iff in Hp as [k [<- _]]. unfold Py.slice.
  etransitivity; [apply length_substring_le|lia].
Qed.

Lemma range_count (len : nat) :
  len <= (len - 0 + (step - 1)) / step * step.
Proof using step_pos.
  pose proof (Nat.div_mod (len - 0 + (step - 1)) step ltac:(lia)) as Hd.
  pose proof (Nat.mod_upper_bound (len - 0 + (step - 1)) step ltac:(lia)) as Hm.
  nia.
Qed.

End Chunks.

Lemma split_output_long (output : string) :
  CHUNK < String.length output ->
  split_output output
  = pieces CHUNK ((String.length output - 0 + (CHUNK - 1)) / CHUNK) output.
Proof.
  intros Hlong. unfold split_output.
  destruct (Nat.ltb_spec CHUNK (String.length output)); [reflexivity|lia].
Qed.

Lemma length_pieces (step n : nat) (s : string) : length (pieces step n s) = n.
Proof. unfold pieces. now rewrite !length_map, length_seq. Qed.

(** C9. An output longer than 4000 characters is cut into consecutive
    pieces of at most 4000 characters each, one per outbound message;
    joined in order the pieces give back the output exactly, and an output
    of 9000 characters goes out as exactly 3 messages. *)
Theorem split_output_exact (output : string) :
  CHUNK < String.length output ->
  Py.join (split_output output) = output
  /\ Forall (fun piece => String.length piece <= CHUNK) (split_output output)
  /\ (String.length output = 9 * 1000 -> length (send_output output) = 3).
Proof.
  intros Hlong. unfold send_output. rewrite length_map.
  rewrite (split_output_long _ Hlong).
  repeat split.
  - apply join_pieces; [unfold CHUNK; lia|].
    apply range_count. unfold CHUNK; lia.
  - apply pieces_short.
  - intros H9. rewrite length_pieces, H9. reflexivity.
Qed.

Lemma split_output_exact_witness :
  let output := string_of_list_ascii (repeat "x"%char (9 * 1000)) in
  CHUNK < String.length output
  /\ Py.join (split_output output) = output
  /\ Forall (fun piece => String.length piece <= CHUNK) (split_output output)
  /\ (String.length output = 9 * 1000 -> length (send_output output) = 3).
Proof.
  intros output.
  assert (Hlong : CHUNK < String.length output)
    by (apply Nat.ltb_lt; vm_compute; reflexivity).
  split; [exact Hlong|].
  exact (split_output_exact output Hlong).
Defined.

(** ** The conversation store *)

(** [l[-n:]] for [n > 0] is the last [n] items when there are that many,
    and the whole list otherwise. *)
Lemma slice_from_last {A} (n : nat) (l : list A) :
  0 < n ->
  slice_from (- Z.of_nat n) l = drop (length l - n) l.
Proof.
  intros Hn. unfold slice_from.
  replace (- Z.of_nat n <? 0)%Z with true by (symmetry; apply Z.ltb_lt; lia).
  f_equal. lia.
Qed.

Lemma recent_context_drop (ai : AIAssistant) (user_id : Z) :
  recent_context ai user_id
  = drop (length (stored_context ai user_id) - 10) (stored_context ai user_id).
Proof.
  unfold recent_context. change (- AI_MAX_CONTEXT)%Z with (- Z.of_nat 10)%Z.
  apply slice_from_last. lia.
Qed.

(** C5. When more than [AI_MAX_CONTEXT] = 10 entries are stored for a
    user, what [chat] reads back is exactly the last 10 of them, in the
    order they were stored; for a user with no stored history it is the
    empty list (nothing is raised: [recent_context] is a total
    function). *)
Theorem recent_context_last_entries (ai : AIAssistant) (user_id : Z) :
  ((AI_MAX_CONTEXT < Z.of_nat (length (stored_context ai user_id)))%Z ->
   exists older,
     stored_context ai user_id = older ++ recent_context ai user_id
     /\ Z.of_nat (length (recent_context ai user_id)) = AI_MAX_CONTEXT)
  /\ (user_contexts ai !! user_id = None -> recent_context ai user_id = []).
Proof.
  split.
  - intros Hlong. unfold AI_MAX_CONTEXT in *. rewrite recent_context_drop.
    exists (take (length (stored_context ai user_id) - 10) (stored_context ai user_id)).
    split.
    + symmetry. apply take_drop.
    + rewrite length_drop. lia.
  - intros Hnone. rewrite recent_context_drop. unfold stored_context.
    rewrite Hnone. reflexivity.
Qed.

Lemma recent_context_last_entries_witness :
  ((AI_MAX_CONTEXT < Z.of_nat (length (stored_context Demo.busy_assistant 7)))%Z
   /\ exists older,
       stored_context Demo.busy_assistant 7
       = older ++ recent_context Demo.busy_assistant 7
       /\ Z.of_nat (length (recent_context Demo.busy_assistant 7)) = AI_MAX_CONTEXT)
  /\ (user_contexts Demo.busy_assistant !! 8%Z = None
      /\ recent_context Demo.busy_assistant 8 = []).
Proof.
  assert (Hlong : (AI_MAX_CONTEXT
                   < Z.of_nat (length (stored_context Demo.busy_assistant 7)))%Z)
    by (vm_compute; reflexivity).
  assert (Hnone : user_contexts Demo.busy_assistant !! 8%Z = None)
    by (vm_compute; reflexivity).
  split; split.
  - exact Hlong.
  - exact (proj1 (recent_context_last_entries Demo.busy_assistant 7) Hlong).
  - exact Hnone.
  - exact (proj2 (recent_context_last_entries Demo.busy_assistant 8) Hnone).
Defined.

(** What one successful exchange does to the store. *)
Lemma chat_saves_exchange (w : World) (ai : AIAssistant) (user_message : string)
  (user_id : Z) (text : string) :
  is_available ai = true ->
  complete w (build_messages ai user_message user_id) = ApiReply text ->
  fst (chat w ai user_message user_id)
  = save_exchange ai user_message (Py.strip text) user_id.
Proof.
  intros Hav Hreply. unfold chat. rewrite Hav, Hreply. reflexivity.
Qed.

Lemma stored_context_save (ai : AIAssistant) (m r : string) (user_id other : Z) :
  stored_context (save_exchange ai m r user_id) other
  = if decide (user_id = other)
    then stored_context ai user_id
           ++ [ {| role := "user"; content := m |};
                {| role := "assistant"; content := r |} ]
    else stored_context ai other.
Proof.
  unfold stored_context, save_exchange. simpl.
  rewrite lookup_insert. destruct (decide (user_id = other)); reflexivity.
Qed.

(** C4, as the code has it. A [chat] that gets a reply stores the previous
    history of the user followed by the two new entries: nothing is
    evicted, the stored history grows by two entries, and the histories of
    the other users stay as they are. The bound is on the read side only:
    at most [AI_MAX_CONTEXT] stored entries are sent to the model. *)
Theorem chat_appends_without_eviction (w : World) (ai : AIAssistant)
  (user_message : string) (user_id : Z) (text : string) :
  is_available ai = true ->
  complete w (build_messages ai user_message user_id) = ApiReply text ->
  let ai' := fst (chat w ai user_message user_id) in
  stored_context ai' user_id
  = stored_context ai user_id
      ++ [ {| role := "user"; content := user_message |};
           {| role := "assistant"; content := Py.strip text |} ]
  /\ get_context_size ai' user_id = get_context_size ai user_id + 2
  /\ (forall other, other <> user_id ->
      stored_context ai' other = stored_context ai other)
  /\ (Z.of_nat (length (recent_context ai' user_id)) <= AI_MAX_CONTEXT)%Z.
Proof.
  intros Hav Hreply ai'. subst ai'.
  rewrite (chat_saves_exchange _ _ _ _ _ Hav Hreply).
  repeat split.
  - rewrite stored_context_save. now destruct (decide (user_id = user_id)).
  - unfold get_context_size. rewrite stored_context_save.
    destruct (decide (user_id = user_id)); [|congruence].
    rewrite length_app. simpl. lia.
  - intros other Hne. rewrite stored_context_save.
    destruct (decide (user_id = other)); congruence.
  - rewrite recent_context_drop, length_drop. unfold AI_MAX_CONTEXT. lia.
Qed.

Lemma chat_appends_without_eviction_witness :
  let w := Demo.world (ApiReply Demo.hi_text) [] TimedOut in
  let ai := Demo.busy_assistant in
  let ai' := fst (chat w ai "hola" 7) in
  is_available ai = true
  /\ complete w (build_messages ai "hola" 7) = ApiReply Demo.hi_text
  /\ stored_context ai' 7
     = stored_context ai 7
         ++ [ {| role := "user"; content := "hola" |};
              {| role := "assistant"; content := Py.strip Demo.hi_text |} ]
  /\ get_context_size ai' 7 = get_context_size ai 7 + 2
  /\ (forall other, other <> 7%Z -> stored_context ai' other = stored_context ai other)
  /\ (Z.of_nat (length (recent_context ai' 7)) <= AI_MAX_CONTEXT)%Z.
Proof.
  intros w ai ai'.
  split; [reflexivity|]. split; [reflexivity|].
  exact (chat_appends_without_eviction w ai "hola" 7 Demo.hi_text eq_refl eq_refl).
Defined.

(** C4, as stated, fails: six exchanges of one user leave twelve stored
    entries, more than [AI_MAX_CONTEXT]. *)
Lemma stored_history_exceeds_maximum :
  let w := Demo.world (ApiReply Demo.hi_text) [] TimedOut in
  let ai' := chats w Demo.assistant ["a"; "b"; "c"; "d"; "e"; "f"] 7 in
  get_context_size ai' 7 = 12
  /\ ~ (Z.of_nat (get_context_size ai' 7) <= AI_MAX_CONTEXT)%Z.
Proof.
  intros w ai'.
  assert (H : get_context_size ai' 7 = 12) by (vm_compute; reflexivity).
  split; [exact H|]. rewrite H. unfold AI_MAX_CONTEXT. lia.
Qed.

(** ** Running commands *)

Lemma prefix_app (p a b : string) :
  String.prefix p a = true -> String.prefix p (a +:+ b) = true.
Proof.
  revert a; induction p as [|c p IH]; intros a H;
    [now destruct (a +:+ b)|].
  destruct a as [|c' a]; [discriminate|].
  rewrite append_cons. simpl in *.
  destruct (ascii_dec c c'); [auto|discriminate].
Qed.

Lemma find_unfold (sub s : string) :
  Py.find sub s
  = if String.prefix sub s then Some 0
    else match s with
         | EmptyString => None
         | String _ s' => option_map S (Py.find sub s')
         end.
Proof. destruct s; reflexivity. Qed.

Lemma find_cons_some (sub : string) (c : ascii) (s : string) :
  (exists i, Py.find sub s = Some i) ->
  exists j, Py.find sub (String c s) = Some j.
Proof.
  intros [i Hi]. rewrite find_unfold.
  destruct (String.prefix sub (String c s)); [now exists 0|].
  rewrite Hi. now exists (S i).
Qed.

Lemma find_app_some (sub a b : string) :
  (exists i, Py.find sub a = Some i) ->
  exists j, Py.find sub (a +:+ b) = Some j.
Proof.
  induction a as [|c a IH]; intros [i Hi]; rewrite find_unfold in Hi.
  - destruct (String.prefix sub EmptyString) eqn:E; [|discriminate].
    exists 0. rewrite find_unfold. now rewrite (prefix_app _ _ b E).
  - destruct (String.prefix sub (String c a)) eqn:E.
    + exists 0. rewrite find_unfold. now rewrite (prefix_app _ _ b E).
    + rewrite append_cons. apply find_cons_some, IH.
      destruct (Py.find sub a) as [k|]; [now exists k|discriminate].
Qed.

Lemma contains_app_l (sub a b : string) :
  Py.contains sub a = true -> Py.contains sub (a +:+ b) = true.
Proof.
  unfold Py.contains. intros Ha.
  destruct (Py.find sub a) as [i|] eqn:E; [|discriminate].
  destruct (find_app_some sub a b (ex_intro _ i E)) as [j ->]. reflexivity.
Qed.

Lemma timeout_text_mentions_timeout (timeout : Z) :
  Py.contains "timeout" (timeout_text timeout) = true.
Proof.
  change (timeout_text timeout)
    with (("Comando excedi" +:+ String o_acute " el timeout")
          +:+ (" de " +:+ Py.str_of_int timeout +:+ " segundos")).
  apply contains_app_l. vm_compute. reflexivity.
Qed.

(** The timeout where the kill goes through. Whatever the command and the
    timeout, when the child process is still running as it is killed the
    result is a failure whose error message contains "timeout", and the
    process has been killed; the same holds for [_run_command]. The
    function returns in that case: there is no wait after the kill. *)
Theorem timeout_kills_and_reports (w : World) (command : string) (timeout : Z)
  (root_password : string) (use_sudo : bool) :
  (os_run w command timeout = TimedOut ->
   let '(result, events) := run_command w command timeout in
   Dict.get "success" result = Some (JBool false)
   /\ (exists text, Dict.get "error" result = Some (JStr text)
                    /\ Py.contains "timeout" text = true)
   /\ events = [Spawned command; Killed])
  /\ (os_run w (sudo_command root_password command use_sudo) timeout = TimedOut ->
      let '(result, events) := _run_command w root_password command timeout use_sudo in
      Dict.get "success" result = Some (JBool false)
      /\ (exists text, Dict.get "error" result = Some (JStr text)
                       /\ Py.contains "timeout" text = true)
      /\ events = [Spawned (sudo_command root_password command use_sudo); Killed]).
Proof.
  split; intros Hout.
  - unfold run_command. rewrite Hout. repeat split.
    eexists; split; [reflexivity|apply timeout_text_mentions_timeout].
  - unfold _run_command. rewrite Hout. repeat split.
    eexists; split; [reflexivity|apply timeout_text_mentions_timeout].
Qed.

Lemma timeout_kills_and_reports_witness :
  let w := Demo.world (ApiFailure "") [] TimedOut in
  os_run w "nmap -p 1-1000 10.0.0.1" 600 = TimedOut
  /\ Dict.get "error" (fst (run_command w "nmap -p 1-1000 10.0.0.1" 600))
     = Some (JStr (timeout_text 600))
  /\ snd (run_command w "nmap -p 1-1000 10.0.0.1" 600)
     = [Spawned "nmap -p 1-1000 10.0.0.1"; Killed]
  /\ os_run w (sudo_command "s3cret" "id" true) 60 = TimedOut
  /\ snd (_run_command w "s3cret" "id" 60 true)
     = [Spawned (sudo_command "s3cret" "id" true); Killed].
Proof.
  intros w.
  pose proof (timeout_kills_and_reports w "nmap -p 1-1000 10.0.0.1" 600 "" false)
    as [H1 _].
  pose proof (timeout_kills_and_reports w "id" 60 "s3cret" true) as [_ H2].
  specialize (H1 eq_refl). specialize (H2 eq_refl).
  split; [reflexivity|]. split; [reflexivity|].
  split; [exact (proj2 (proj2 H1))|].
  split; [reflexivity|].
  exact (proj2 (proj2 H2)).
Defined.

(** What becomes of a timeout when the kill raises: the outer [except]
    answers with the text of that exception, and no kill has happened. *)
Lemma kill_raises_result (w : World) (command : string) (timeout : Z)
  (root_password : string) (use_sudo : bool) (text : string) :
  (os_run w command timeout = KillRaises text ->
   run_command w command timeout
   = ([ ("success", JBool false); ("command", JStr command);
        ("error", JStr text) ],
      [Spawned command]))
  /\ (os_run w (sudo_command root_password command use_sudo) timeout
      = KillRaises text ->
      _run_command w root_password command timeout use_sudo
      = ([ ("success", JBool false);
           ("command", JStr (sudo_command root_password command use_sudo));
           ("error", JStr text) ],
         [Spawned (sudo_command root_password command use_sudo)])).
Proof.
  split; intros H.
  - unfold run_command. now rewrite H.
  - unfold _run_command. now rewrite H.
Qed.

(** C7, where the code departs from it. [process.kill()] is called inside
    the outer [try]. When the timeout has passed and the child has ended
    by the time of the call, the call raises [ProcessLookupError], whose
    text is empty; the outer [except] answers, so the error of the result
    is that empty text and does not mention the timeout, and nothing has
    been killed. The sibling path, where the kill goes through, reports
    the timeout. [_run_command] does the same. *)
Theorem timeout_lost_when_kill_raises :
  let gone := Demo.world (ApiFailure "") [] (KillRaises "") in
  let slow := Demo.world (ApiFailure "") [] TimedOut in
  run_command gone "nmap -F 10.0.0.1" 600
  = ([ ("success", JBool false); ("command", JStr "nmap -F 10.0.0.1");
       ("error", JStr "") ],
     [Spawned "nmap -F 10.0.0.1"])
  /\ Py.contains "timeout" "" = false
  /\ ~ In Killed (snd (run_command gone "nmap -F 10.0.0.1" 600))
  /\ _run_command gone "" "nmap -F 10.0.0.1" 600 false
     = ([ ("success", JBool false); ("command", JStr "nmap -F 10.0.0.1");
          ("error", JStr "") ],
        [Spawned "nmap -F 10.0.0.1"])
  /\ Dict.get "error" (fst (run_command slow "nmap -F 10.0.0.1" 600))
     = Some (JStr (timeout_text 600))
  /\ Py.contains "timeout" (timeout_text 600) = true
  /\ snd (run_command slow "nmap -F 10.0.0.1" 600)
     = [Spawned "nmap -F 10.0.0.1"; Killed].
Proof.
  intros gone slow.
  repeat split; try (vm_compute; reflexivity).
  simpl. intros [H|[]]. discriminate H.
Qed.

(** C10. [run_command] always returns a result (it is a total function:
    both [except] clauses return a dict): the result holds the command and
    a boolean ["success"], which is true exactly when the subprocess ended
    before the timeout, whatever its exit code, and then the outputs and
    the exit code are there; on a timeout or a failed spawn ["success"] is
    false and there is an error text. [_run_command] does the same for
    the command line it builds. *)
Theorem run_command_reports_outcome (w : World) (command : string) (timeout : Z)
  (root_password : string) (use_sudo : bool) :
  reports (os_run w command timeout) (fst (run_command w command timeout))
  /\ Dict.get "command" (fst (run_command w command timeout)) = Some (JStr command)
  /\ reports (os_run w (sudo_command root_password command use_sudo) timeout)
       (fst (_run_command w root_password command timeout use_sudo)).
Proof.
  unfold reports, run_command, _run_command.
  destruct (os_run w command timeout) as [text|out err code| |text];
    destruct (os_run w (sudo_command root_password command use_sudo) timeout)
      as [text'|out' err' code'| |text'];
    simpl; repeat split; eauto; congruence.
Qed.

(** A subprocess that ends with a non-zero exit code is a success. *)
Example run_command_nonzero_exit :
  let w := Demo.world (ApiFailure "") [] (Exited "" "not found" 127) in
  fst (run_command w "nmap" 300)
  = [ ("success", JBool true); ("command", JStr "nmap"); ("stdout", JStr "");
      ("stderr", JStr "not found"); ("returncode", JInt 127) ].
Proof. reflexivity. Qed.

(** C8, where the code departs from it. With a root password set and
    [use_sudo], a spawn that fails returns the command line as it was run:
    the password is in the ["command"] field. The two sibling paths
    (completed, timed out) replace it by three stars. *)
Theorem spawn_failure_keeps_password :
  let failing := Demo.world (ApiFailure "") []
                   (SpawnFails "[Errno 24] Too many open files") in
  let slow := Demo.world (ApiFailure "") [] TimedOut in
  let done := Demo.world (ApiFailure "") [] (Exited "uid=0(root)" "" 0) in
  command_field (fst (_run_command failing "s3cret" "id" 300 true))
  = "echo " +:+ Demo.q "s3cret" +:+ " | sudo -S id"
  /\ Py.contains "s3cret"
       (command_field (fst (_run_command failing "s3cret" "id" 300 true))) = true
  /\ command_field (fst (_run_command slow "s3cret" "id" 300 true))
     = "echo " +:+ Demo.q "***" +:+ " | sudo -S id"
  /\ command_field (fst (_run_command done "s3cret" "id" 300 true))
     = "echo " +:+ Demo.q "***" +:+ " | sudo -S id".
Proof. vm_compute. repeat split. Qed.

(** ** The dispatcher *)

Lemma has_getitem (k : string) (d : pydict) :
  Dict.has k d = true -> exists v, getitem k d = inr v /\ Dict.get k d = Some v.
Proof.
  unfold Dict.has, getitem. destruct (Dict.get k d) as [v|]; [|discriminate].
  intros _. now exists v.
Qed.

Lemma hasnt_getitem (k : string) (d : pydict) :
  Dict.has k d = false -> getitem k d = inl (KeyError k).
Proof.
  unfold Dict.has, getitem. now destruct (Dict.get k d).
Qed.

(** Replace a [getitem] whose key is known to be there by its value. *)
Ltac known_key H :=
  let v := fresh "v" in
  let Hv := fresh "Hv" in
  let Hg := fresh "Hg" in
  destruct (has_getitem _ _ H) as [v [Hv Hg]]; rewrite ?Hv; simpl.

Lemma dispatch_follows_its_order : dispatches_in_order dispatch_order.
Proof.
  intros d a. unfold _handle_ai_response, first_match, dispatch_order. simpl.
  destruct (Dict.has "conversation" d) eqn:Hc.
  { known_key Hc. now intros [= <-]. }
  destruct (Dict.has "question" d) eqn:Hq.
  { known_key Hq.
    destruct (numbered (Dict.get_default "suggestions" (JArr []) d)); simpl;
      [discriminate|]. now intros [= <-]. }
  destruct (Dict.has "tool_not_installed" d) eqn:Hn.
  { known_key Hn. destruct (getitem "install_command" d); simpl; [discriminate|].
    now intros [= <-]. }
  destruct (Dict.has "tool" d) eqn:Ht, (Dict.has "parameters" d) eqn:Hp; simpl;
    try (known_key Ht; known_key Hp; now intros [= <-]);
    (destruct (Dict.has "error" d) eqn:He;
     [known_key He; now intros [= <-] | now intros [= <-]]).
Qed.

(** The loop over the suggestions raises exactly for a value that is
    true and cannot be iterated. *)
Lemma numbered_raises (suggestions : json) (e : exn) :
  numbered suggestions = inl e <->
  json_truthy suggestions = true /\ iterate suggestions = inl e.
Proof.
  unfold numbered. destruct (json_truthy suggestions).
  - destruct (iterate suggestions) as [e'|items]; simpl.
    + split; [now intros [= <-]|now intros [_ [= <-]]].
    + split; [discriminate|now intros [_ H]].
  - split; [discriminate|now intros [H _]].
Qed.

Lemma iterate_raises (v : json) (e : exn) :
  iterate v = inl e ->
  e = OtherException ("'" +:+ type_name v +:+ "' object is not iterable")
  /\ ((exists b, v = JBool b) \/ (exists n, v = JInt n) \/ (exists r, v = JFloat r)
      \/ v = JNull).
Proof.
  destruct v; simpl; try discriminate; intros [= <-]; (split; [reflexivity|]);
    eauto 6.
Qed.

(** The two places where the dispatcher raises. *)
Lemma dispatch_raises (d : pydict) (e : exn) :
  _handle_ai_response d = inl e ->
  (first_match dispatch_order d = ToolNotInstalled
   /\ Dict.has "install_command" d = false
   /\ e = KeyError "install_command")
  \/ (first_match dispatch_order d = Question
      /\ exists suggestions,
           Dict.get "suggestions" d = Some suggestions
           /\ json_truthy suggestions = true
           /\ iterate suggestions = inl e).
Proof.
  unfold _handle_ai_response, first_match, dispatch_order. simpl.
  destruct (Dict.has "conversation" d) eqn:Hc.
  { known_key Hc. discriminate. }
  destruct (Dict.has "question" d) eqn:Hq.
  { known_key Hq.
    destruct (numbered (Dict.get_default "suggestions" (JArr []) d))
      as [e'|lines] eqn:Hn; simpl; [|discriminate].
    intros [= <-]. right. split; [reflexivity|].
    apply numbered_raises in Hn. destruct Hn as [Htrue Hiter].
    unfold Dict.get_default in *.
    destruct (Dict.get "suggestions" d) as [suggestions|]; [|discriminate].
    now exists suggestions. }
  destruct (Dict.has "tool_not_installed" d) eqn:Hn.
  { known_key Hn. destruct (Dict.has "install_command" d) eqn:Hi.
    - known_key Hi. discriminate.
    - rewrite (hasnt_getitem _ _ Hi). simpl. intros [= <-]. now left. }
  destruct (Dict.has "tool" d) eqn:Ht, (Dict.has "parameters" d) eqn:Hp; simpl;
    try (known_key Ht; known_key Hp; discriminate);
    (destruct (Dict.has "error" d) eqn:He;
     [known_key He; discriminate | discriminate]).
Qed.

(** A question whose suggestions can be gone through is asked. *)
Lemma question_is_asked (d : pydict) (items : list json) :
  first_match dispatch_order d = Question ->
  iterate (Dict.get_default "suggestions" (JArr []) d) = inr items ->
  exists question,
    Dict.get "question" d = Some question
    /\ _handle_ai_response d
       = inr (AskQuestion question (Dict.get_default "suggestions" (JArr []) d)).
Proof.
  unfold _handle_ai_response, first_match, dispatch_order. simpl.
  destruct (Dict.has "conversation" d) eqn:Hc; [discriminate|].
  destruct (Dict.has "question" d) eqn:Hq.
  - intros _ Hiter. destruct (has_getitem _ _ Hq) as [question [Hv Hg]].
    exists question. split; [exact Hg|]. rewrite Hv. simpl.
    unfold numbered. rewrite Hiter.
    now destruct (json_truthy (Dict.get_default "suggestions" (JArr []) d)).
  - destruct (Dict.has "tool_not_installed" d); [discriminate|].
    destruct (Dict.has "tool" d && Dict.has "parameters" d); [discriminate|].
    now destruct (Dict.has "error" d).
Qed.

Lemma unknown_gets_a_reply (d : pydict) :
  first_match dispatch_order d = Unknown ->
  _handle_ai_response d = inr ReplyNotUnderstood.
Proof.
  unfold _handle_ai_response, first_match, dispatch_order. simpl.
  destruct (Dict.has "conversation" d); [discriminate|].
  destruct (Dict.has "question" d); [discriminate|].
  destruct (Dict.has "tool_not_installed" d); [discriminate|].
  destruct (Dict.has "tool" d && Dict.has "parameters" d); [discriminate|].
  destruct (Dict.has "error" d); [discriminate|]. reflexivity.
Qed.

(** C2, as the code has it. The dispatcher takes the first shape that
    matches in the order conversation, question, tool_not_installed,
    tool with parameters, error. It raises in two places only, each after
    the branch has been taken in that order: in the tool_not_installed
    branch when the reply has no install command ([KeyError]), and in the
    question branch when the suggestions are a true value that cannot be
    iterated, a number or [true] ([TypeError]); a question whose
    suggestions are absent, a list, a string or an object is asked. A
    reply that matches no shape is answered with the fixed "not
    understood" message, which is not what a parse failure is answered
    with (the error report built from [parse_error]). *)
Theorem dispatcher_first_match :
  dispatches_in_order dispatch_order
  /\ (forall d e, _handle_ai_response d = inl e ->
        (first_match dispatch_order d = ToolNotInstalled
         /\ Dict.has "install_command" d = false
         /\ e = KeyError "install_command")
        \/ (first_match dispatch_order d = Question
            /\ exists suggestions,
                 Dict.get "suggestions" d = Some suggestions
                 /\ json_truthy suggestions = true
                 /\ iterate suggestions = inl e
                 /\ e = OtherException
                         ("'" +:+ type_name suggestions +:+ "' object is not iterable")))
  /\ (forall d items,
        first_match dispatch_order d = Question ->
        iterate (Dict.get_default "suggestions" (JArr []) d) = inr items ->
        exists question,
          _handle_ai_response d
          = inr (AskQuestion question (Dict.get_default "suggestions" (JArr []) d)))
  /\ (forall d, first_match dispatch_order d = Unknown ->
        _handle_ai_response d = inr ReplyNotUnderstood)
  /\ (exists error suggestion,
        _handle_ai_response parse_error = inr (ReportError error suggestion)).
Proof.
  split; [exact dispatch_follows_its_order|].
  split.
  { intros d e H. destruct (dispatch_raises d e H) as [Hl|[Hq [v [Hv [Ht Hi]]]]];
      [now left|right].
    split; [exact Hq|]. exists v. repeat split; try assumption.
    exact (proj1 (iterate_raises v e Hi)). }
  split.
  { intros d items Hq Hi. destruct (question_is_asked d items Hq Hi) as [q [_ H]].
    now exists q. }
  split; [exact unknown_gets_a_reply|].
  do 2 eexists. reflexivity.
Qed.

Lemma dispatcher_first_match_witness :
  shape_of (AskQuestion (JStr "Which ports?") (JArr []))
  = first_match dispatch_order Demo.tool_and_question
  /\ _handle_ai_response [("explanation", JStr "scan")] = inr ReplyNotUnderstood
  /\ _handle_ai_response Demo.question_with_number
     = inl (OtherException "'int' object is not iterable")
  /\ (exists question,
        _handle_ai_response Demo.question_with_list
        = inr (AskQuestion question (JArr [JStr "80"; JStr "443"]))).
Proof.
  split; [|split; [|split]].
  - exact (proj1 dispatcher_first_match Demo.tool_and_question _ eq_refl).
  - exact (proj1 (proj2 (proj2 (proj2 dispatcher_first_match)))
             [("explanation", JStr "scan")] eq_refl).
  - destruct (proj1 (proj2 dispatcher_first_match) Demo.question_with_number
                (OtherException "'int' object is not iterable") eq_refl)
      as [[H _]|[_ [v [Hv [_ [_ He]]]]]]; [discriminate H|].
    injection Hv as <-. reflexivity.
  - exact (proj1 (proj2 (proj2 dispatcher_first_match)) Demo.question_with_list
             [JStr "80"; JStr "443"] eq_refl eq_refl).
Defined.

(** C2, as stated, fails: with the keys of a tool call and of a question
    the dispatcher asks the question, while the stated order (tool before
    question) gives the tool call. *)
Lemma stated_order_is_not_followed : ~ dispatches_in_order stated_order.
Proof.
  intros H.
  specialize (H Demo.tool_and_question
                (AskQuestion (JStr "Which ports?") (JArr [])) eq_refl).
  discriminate H.
Qed.

(** ** The availability check of [chat] *)

Lemma chat_after_reply (w : World) (ai : AIAssistant) (user_message : string)
  (user_id : Z) (text : string) :
  is_available ai = true ->
  complete w (build_messages ai user_message user_id) = ApiReply text ->
  snd (chat w ai user_message user_id)
  = catch_all (parsed <- _parse_ai_response w (Py.strip text) ;;
               check_parsed w parsed).
Proof.
  intros Hav Hreply. unfold chat. rewrite Hav, Hreply. reflexivity.
Qed.

Lemma check_parsed_absent (w : World) (parsed : pydict) (name : string) :
  Dict.get "tool" parsed = Some (JStr name) ->
  which w name = false ->
  check_parsed w parsed = inr (not_installed_result name).
Proof.
  intros Htool Habsent. unfold check_parsed. rewrite Htool. simpl.
  rewrite Habsent. reflexivity.
Qed.

Lemma check_parsed_present (w : World) (parsed : pydict) (name : string) :
  Dict.get "tool" parsed = Some (JStr name) ->
  which w name = true ->
  check_parsed w parsed = inr parsed.
Proof.
  intros Htool Hpresent. unfold check_parsed. rewrite Htool. simpl.
  rewrite Hpresent. reflexivity.
Qed.

Lemma dispatch_tool_call (d : pydict) (tool_name parameters : json) :
  Dict.get "tool" d = Some tool_name ->
  Dict.get "parameters" d = Some parameters ->
  Dict.has "conversation" d = false ->
  Dict.has "question" d = false ->
  Dict.has "tool_not_installed" d = false ->
  _handle_ai_response d
  = inr (ExecuteTool tool_name parameters
           (Dict.get_default "explanation" (JStr "Ejecutando...") d)).
Proof.
  intros Ht Hp Hc Hq Hn. unfold _handle_ai_response, Dict.has, getitem in *.
  rewrite Ht, Hp in *.
  destruct (Dict.get "conversation" d); [discriminate|].
  destruct (Dict.get "question" d); [discriminate|].
  destruct (Dict.get "tool_not_installed" d); [discriminate|].
  reflexivity.
Qed.

(** C1, as the code has it. Take a reply that parses to a dict whose
    ["tool"] is a string. When [which] does not find the tool, [chat]
    returns the tool_not_installed result with that name and its install
    command, and the dispatcher offers the installation: nothing is
    executed. When [which] finds it, [chat] returns the reply as parsed,
    and the dispatcher executes the tool with that name and those
    parameters provided the reply has ["parameters"] and none of the keys
    tested before the tool call (conversation, question,
    tool_not_installed). *)
Theorem chat_checks_availability (w : World) (ai : AIAssistant)
  (user_message : string) (user_id : Z) (text : string) (parsed : pydict)
  (name : string) :
  is_available ai = true ->
  complete w (build_messages ai user_message user_id) = ApiReply text ->
  _parse_ai_response w (Py.strip text) = inr parsed ->
  Dict.get "tool" parsed = Some (JStr name) ->
  let result := snd (chat w ai user_message user_id) in
  (which w name = false ->
   result = not_installed_result name
   /\ _handle_ai_response result
      = inr (OfferInstall (JStr name) (JStr (install_command_for name))
               (JStr (name +:+ not_installed_text))))
  /\ (which w name = true ->
      result = parsed
      /\ forall parameters,
          Dict.get "parameters" parsed = Some parameters ->
          Dict.has "conversation" parsed = false ->
          Dict.has "question" parsed = false ->
          Dict.has "tool_not_installed" parsed = false ->
          _handle_ai_response result
          = inr (ExecuteTool (JStr name) parameters
                   (Dict.get_default "explanation" (JStr "Ejecutando...") parsed))).
Proof.
  intros Hav Hreply Hparse Htool result. subst result.
  rewrite (chat_after_reply _ _ _ _ _ Hav Hreply), Hparse. simpl.
  split; intros Hwhich.
  - rewrite (check_parsed_absent _ _ _ Htool Hwhich). simpl.
    split; reflexivity.
  - rewrite (check_parsed_present _ _ _ Htool Hwhich). simpl.
    split; [reflexivity|].
    intros parameters Hp Hc Hq Hn. now apply dispatch_tool_call.
Qed.

Lemma chat_checks_availability_witness :
  let absent := Demo.world (ApiReply Demo.nmap_text) [] TimedOut in
  let present := Demo.world (ApiReply Demo.nmap_text) ["nmap"] TimedOut in
  let parsed := [ ("tool", JStr "nmap"); ("parameters", Demo.nmap_parameters);
                  ("explanation", JStr "scan") ] in
  (_parse_ai_response absent (Py.strip Demo.nmap_text) = inr parsed
   /\ which absent "nmap" = false
   /\ snd (chat absent Demo.assistant "escanea 10.0.0.1" 7)
      = not_installed_result "nmap"
   /\ _handle_ai_response (snd (chat absent Demo.assistant "escanea 10.0.0.1" 7))
      = inr (OfferInstall (JStr "nmap") (JStr "sudo apt install nmap")
               (JStr ("nmap" +:+ not_installed_text))))
  /\ (_parse_ai_response present (Py.strip Demo.nmap_text) = inr parsed
      /\ which present "nmap" = true
      /\ _handle_ai_response (snd (chat present Demo.assistant "escanea 10.0.0.1" 7))
         = inr (ExecuteTool (JStr "nmap") Demo.nmap_parameters (JStr "scan"))).
Proof.
  intros absent present parsed.
  assert (Ha : _parse_ai_response absent (Py.strip Demo.nmap_text) = inr parsed)
    by (vm_compute; reflexivity).
  assert (Hp : _parse_ai_response present (Py.strip Demo.nmap_text) = inr parsed)
    by (vm_compute; reflexivity).
  pose proof (chat_checks_availability absent Demo.assistant "escanea 10.0.0.1" 7
                Demo.nmap_text parsed "nmap" eq_refl eq_refl Ha eq_refl) as [H1 _].
  pose proof (chat_checks_availability present Demo.assistant "escanea 10.0.0.1" 7
                Demo.nmap_text parsed "nmap" eq_refl eq_refl Hp eq_refl) as [_ H2].
  specialize (H1 eq_refl). specialize (H2 eq_refl).
  split.
  - split; [exact Ha|]. split; [reflexivity|]. exact H1.
  - split; [exact Hp|]. split; [reflexivity|].
    exact (proj2 H2 Demo.nmap_parameters eq_refl eq_refl eq_refl eq_refl).
Defined.

(** C1, as stated, fails: a reply with the keys of a tool call and of a
    question, naming a tool that is present, makes the dispatcher ask the
    question; the tool is not executed. *)
Lemma present_tool_not_always_executed :
  ~ present_tool_is_executed (Demo.world (ApiReply Demo.nmap_text) ["nmap"] TimedOut).
Proof.
  intros H.
  destruct (H Demo.tool_and_question "nmap" eq_refl eq_refl)
    as [parameters [explanation Hroute]].
  discriminate Hroute.
Qed.

(** ** Stripping, splitting and the text handed to the decoder *)

Lemma rstrip_is_prefix (s : string) : exists t, s = Py.rstrip s +:+ t.
Proof.
  induction s as [|c s [t IH]]; [now exists EmptyString|].
  simpl. destruct (Py.rstrip s) as [|a r].
  - destruct (Py.isspace c).
    + now exists (String c s).
    + exists s. reflexivity.
  - exists t. rewrite append_cons. f_equal. exact IH.
Qed.

Lemma lstrip_is_suffix (s : string) : exists t, s = t +:+ Py.lstrip s.
Proof.
  induction s as [|c s [t IH]]; [now exists EmptyString|].
  simpl. destruct (Py.isspace c).
  - exists (String c t). rewrite append_cons. f_equal. exact IH.
  - now exists EmptyString.
Qed.

Lemma find_app_r_some (sub t s : string) :
  (exists i, Py.find sub s = Some i) ->
  exists j, Py.find sub (t +:+ s) = Some j.
Proof.
  intros H. induction t as [|c t IH]; [exact H|].
  rewrite append_cons. now apply find_cons_some.
Qed.

Lemma startswith_strip_find (p s : string) :
  Py.startswith (Py.strip s) p = true -> exists i, Py.find p s = Some i.
Proof.
  unfold Py.startswith, Py.strip. intros Hp.
  destruct (lstrip_is_suffix s) as [t Ht].
  destruct (rstrip_is_prefix (Py.lstrip s)) as [u Hu].
  rewrite Ht. apply find_app_r_some. rewrite Hu.
  apply find_app_some. exists 0. rewrite find_unfold. now rewrite Hp.
Qed.

Lemma split_rounds_first (rounds : nat) (sep s : string) :
  exists rest,
    Py.split_rounds rounds sep s = fst (Py.partition sep s) :: rest.
Proof.
  destruct rounds; simpl; destruct (Py.partition sep s) as [a [r|]]; simpl; eauto.
Qed.

Lemma item_0_split_rounds (rounds : nat) (sep s : string) :
  item 0 (Py.split_rounds rounds sep s) = inr (fst (Py.partition sep s)).
Proof.
  destruct (split_rounds_first rounds sep s) as [rest ->]. reflexivity.
Qed.

Lemma find_some_nonempty (sub s : string) (i : nat) :
  sub <> EmptyString -> Py.find sub s = Some i -> s <> EmptyString.
Proof.
  intros Hsub Hfind ->. destruct sub; [congruence|discriminate].
Qed.

(** When [sep] occurs in [s], the second item of [s.split(sep)] is the
    text between the first [sep] and the next one. *)
Lemma item_1_split (sep s : string) (i : nat) :
  sep <> EmptyString ->
  Py.find sep s = Some i ->
  item 1 (Py.split sep s)
  = inr (fst (Py.partition sep (Py.drop (i + String.length sep) s))).
Proof.
  intros Hsep Hfind. unfold Py.split.
  destruct (String.length s) as [|k] eqn:Hlen.
  - apply length_0_empty in Hlen.
    now destruct (find_some_nonempty _ _ _ Hsep Hfind).
  - simpl. unfold Py.partition at 1. rewrite Hfind.
    destruct (split_rounds_first k sep (Py.drop (i + String.length sep) s))
      as [rest ->].
    reflexivity.
Qed.

Lemma fence_json_nonempty : fence_json <> EmptyString.
Proof. discriminate. Qed.

Lemma fence_nonempty : fence <> EmptyString.
Proof. discriminate. Qed.

(** [clean_response] never raises: when the stripped text starts with a
    marker, the marker occurs in the text and the split has a second
    item. *)
Lemma clean_response_total (response : string) :
  exists cleaned, clean_response response = inr cleaned.
Proof.
  unfold clean_response.
  destruct (Py.startswith (Py.strip response) fence_json) eqn:Hj.
  - destruct (startswith_strip_find _ _ Hj) as [i Hi].
    rewrite (item_1_split _ _ i fence_json_nonempty Hi). simpl.
    unfold Py.split. rewrite item_0_split_rounds. simpl. eauto.
  - destruct (Py.startswith (Py.strip response) fence) eqn:Hf; [|simpl; eauto].
    destruct (startswith_strip_find _ _ Hf) as [i Hi].
    rewrite (item_1_split _ _ i fence_nonempty Hi). simpl.
    unfold Py.split. rewrite item_0_split_rounds. simpl. eauto.
Qed.

(** ** Failures become error results *)

Lemma catch_all_error (e : exn) : error_shaped (catch_all (inl e)) = true.
Proof. now destruct e. Qed.

(** C3. [chat] is a total function into results: nothing it catches goes
    on to the caller. With the client configured, a failure of the model
    call gives the general error result carrying the failure's text; a
    reply whose cleaned text the decoder rejects gives the parse error
    result; whatever else is raised while the reply is handled gives an
    error result as well. All of these have an ["error"] key with a
    message. *)
Theorem chat_surfaces_failures (w : World) (ai : AIAssistant)
  (user_message : string) (user_id : Z) :
  is_available ai = true ->
  let result := snd (chat w ai user_message user_id) in
  (forall text,
     complete w (build_messages ai user_message user_id) = ApiFailure text ->
     result = general_error text /\ error_shaped result = true)
  /\ (forall text,
        complete w (build_messages ai user_message user_id) = ApiReply text ->
        exists cleaned,
          clean_response (Py.strip text) = inr cleaned
          /\ (json_loads w cleaned = inl JSONDecodeError ->
              result = parse_error /\ error_shaped result = true)
          /\ (forall e, json_loads w cleaned = inl e -> error_shaped result = true)).
Proof.
  intros Hav result. subst result. split.
  - intros text Hfail. unfold chat. rewrite Hav, Hfail. simpl. now split.
  - intros text Hreply. rewrite (chat_after_reply _ _ _ _ _ Hav Hreply).
    destruct (clean_response_total (Py.strip text)) as [cleaned Hclean].
    exists cleaned. split; [exact Hclean|].
    unfold _parse_ai_response. rewrite Hclean. simpl. split.
    + intros ->. simpl. now split.
    + intros e ->. simpl. apply catch_all_error.
Qed.

Lemma chat_surfaces_failures_witness :
  let down := Demo.world (ApiFailure "Connection error.") [] TimedOut in
  let chatty := Demo.world (ApiReply "Claro, ahora mismo lo hago.") [] TimedOut in
  is_available Demo.assistant = true
  /\ snd (chat down Demo.assistant "hola" 7) = general_error "Connection error."
  /\ snd (chat chatty Demo.assistant "hola" 7) = parse_error.
Proof.
  intros down chatty.
  pose proof (chat_surfaces_failures down Demo.assistant "hola" 7 eq_refl) as [H1 _].
  pose proof (chat_surfaces_failures chatty Demo.assistant "hola" 7 eq_refl) as [_ H2].
  split; [reflexivity|]. split.
  - exact (proj1 (H1 "Connection error." eq_refl)).
  - destruct (H2 "Claro, ahora mismo lo hago." eq_refl) as [cleaned [Hc [Hp _]]].
    injection Hc as <-. exact (proj1 (Hp eq_refl)).
Defined.

(** ** Where a separator is found *)

Lemma drop_empty (n : nat) : Py.drop n EmptyString = EmptyString.
Proof. now destruct n. Qed.

Lemma drop_app_length (a b : string) (k : nat) :
  Py.drop (String.length a + k) (a +:+ b) = Py.drop k b.
Proof. induction a as [|c a IH]; [reflexivity|]. simpl. exact IH. Qed.

Lemma substring_0_app_length (a b : string) (k : nat) :
  substring 0 (String.length a + k) (a +:+ b) = a +:+ substring 0 k b.
Proof.
  induction a as [|c a IH]; [reflexivity|].
  simpl. rewrite append_cons. f_equal. exact IH.
Qed.

Lemma append_empty_r (a : string) : a +:+ EmptyString = a.
Proof. induction a as [|c a IH]; [reflexivity|]. rewrite append_cons. now f_equal. Qed.

Lemma substring_0_length_app (a b : string) :
  substring 0 (String.length a) (a +:+ b) = a.
Proof.
  rewrite <- (Nat.add_0_r (String.length a)), substring_0_app_length.
  replace (substring 0 0 b) with EmptyString by now destruct b.
  apply append_empty_r.
Qed.

Lemma length_append (a b : string) :
  String.length (a +:+ b) = String.length a + String.length b.
Proof.
  induction a as [|c a IH]; [reflexivity|].
  rewrite append_cons. simpl. now rewrite IH.
Qed.

Lemma prefix_length (p s : string) :
  String.prefix p s = true -> String.length p <= String.length s.
Proof.
  revert s; induction p as [|c p IH]; intros s H; [simpl; lia|].
  destruct s as [|c' s]; [discriminate|]. simpl in *.
  destruct (ascii_dec c c'); [|discriminate]. apply IH in H. lia.
Qed.

(** A prefix test only looks at the first characters. *)
Lemma prefix_app_long (p a b : string) :
  String.length p <= String.length a ->
  String.prefix p (a +:+ b) = String.prefix p a.
Proof.
  revert a; induction p as [|c p IH]; intros a Hlen.
  - destruct a; [now destruct b|reflexivity].
  - destruct a as [|c' a]; [simpl in Hlen; lia|].
    rewrite append_cons. simpl. destruct (ascii_dec c c'); [|reflexivity].
    apply IH. simpl in Hlen. lia.
Qed.

Lemma prefix_trans (p q s : string) :
  String.prefix p q = true -> String.prefix q s = true -> String.prefix p s = true.
Proof.
  revert q s; induction p as [|c p IH]; intros q s Hpq Hqs; [now destruct s|].
  destruct q as [|c1 q]; [discriminate|]. destruct s as [|c2 s]; [discriminate|].
  simpl in *. destruct (ascii_dec c c1) as [->|]; [|discriminate].
  destruct (ascii_dec c1 c2) as [->|]; [|discriminate].
  eapply IH; eassumption.
Qed.

(** A prefix that reaches past [a] into [String c b] holds [c]. *)
Lemma prefix_straddle (p a : string) (c : ascii) (b : string) :
  String.prefix p (a +:+ String c b) = true ->
  String.prefix p a = true \/ In c (list_ascii_of_string p).
Proof.
  revert p; induction a as [|x a IH]; intros p H.
  - destruct p as [|c' p]; [now left|]. right. simpl in *.
    destruct (ascii_dec c' c); [now left|discriminate].
  - destruct p as [|c' p]; [now left|]. rewrite append_cons in H. simpl in *.
    destruct (ascii_dec c' x); [|discriminate].
    destruct (IH _ H); [now left|right; now right].
Qed.

Lemma find_some_prefix (sub s : string) (i : nat) :
  Py.find sub s = Some i -> String.prefix sub (Py.drop i s) = true.
Proof.
  revert i; induction s as [|c s IH]; intros i; rewrite find_unfold.
  - destruct (String.prefix sub EmptyString) eqn:E; [|discriminate].
    intros [= <-]. exact E.
  - destruct (String.prefix sub (String c s)) eqn:E.
    + intros [= <-]. exact E.
    + destruct (Py.find sub s) as [k|]; [|discriminate].
      intros [= <-]. simpl. now apply IH.
Qed.

Lemma find_some_first (sub s : string) (i j : nat) :
  Py.find sub s = Some i -> j < i -> String.prefix sub (Py.drop j s) = false.
Proof.
  revert i j; induction s as [|c s IH]; intros i j; rewrite find_unfold.
  - destruct (String.prefix sub EmptyString); [|discriminate].
    intros [= <-]. lia.
  - destruct (String.prefix sub (String c s)) eqn:E.
    + intros [= <-]. lia.
    + destruct (Py.find sub s) as [k|] eqn:Hk; [|discriminate].
      intros [= <-] Hj. destruct j as [|j]; [exact E|].
      simpl. apply (IH k); [reflexivity|lia].
Qed.

Lemma find_none_nowhere (sub s : string) (j : nat) :
  Py.find sub s = None -> String.prefix sub (Py.drop j s) = false.
Proof.
  revert j; induction s as [|c s IH]; intros j; rewrite find_unfold.
  - destruct (String.prefix sub EmptyString) eqn:E; [discriminate|].
    intros _. now rewrite drop_empty.
  - destruct (String.prefix sub (String c s)) eqn:E; [discriminate|].
    destruct (Py.find sub s) as [k|] eqn:Hk; [discriminate|].
    intros _. destruct j as [|j]; [exact E|]. simpl. now apply IH.
Qed.

Lemma find_some_length (sub s : string) (i : nat) :
  Py.find sub s = Some i -> i + String.length sub <= String.length s.
Proof.
  revert i; induction s as [|c s IH]; intros i; rewrite find_unfold.
  - destruct (String.prefix sub EmptyString) eqn:E; [|discriminate].
    intros [= <-]. apply prefix_length in E. simpl in *. lia.
  - destruct (String.prefix sub (String c s)) eqn:E.
    + intros [= <-]. apply prefix_length in E. simpl in *. lia.
    + destruct (Py.find sub s) as [k|]; [|discriminate].
      intros [= <-]. specialize (IH k eq_refl). simpl. lia.
Qed.

(** The first occurrence stays the first when text is added at the end. *)
Lemma find_app_stable (sub a b : string) (i : nat) :
  Py.find sub a = Some i -> Py.find sub (a +:+ b) = Some i.
Proof.
  revert i; induction a as [|c a IH]; intros i Hi.
  - rewrite find_unfold in Hi.
    destruct (String.prefix sub EmptyString) eqn:E; [|discriminate].
    injection Hi as <-. rewrite find_unfold. now rewrite (prefix_app _ _ b E).
  - pose proof (find_some_length _ _ _ Hi) as Hlen.
    rewrite find_unfold in Hi. rewrite find_unfold.
    rewrite prefix_app_long by lia.
    destruct (String.prefix sub (String c a)); [exact Hi|].
    destruct (Py.find sub a) as [k|]; [|discriminate].
    rewrite append_cons. now rewrite (IH k eq_refl).
Qed.

(** ** The fenced region *)

Lemma rstrip_cons_nonspace (c : ascii) (s : string) :
  Py.isspace c = false -> Py.rstrip (String c s) = String c (Py.rstrip s).
Proof. intros Hc. simpl. rewrite Hc. now destruct (Py.rstrip s). Qed.

Lemma strip_fence (x : string) :
  Py.strip (fence +:+ x) = fence +:+ Py.rstrip x.
Proof.
  unfold Py.strip, fence. rewrite !append_cons, append_empty_l.
  simpl Py.lstrip. now rewrite !rstrip_cons_nonspace by reflexivity.
Qed.

Lemma strip_fence_json (x : string) :
  Py.strip (fence_json +:+ x) = fence_json +:+ Py.rstrip x.
Proof.
  unfold Py.strip, fence_json. rewrite !append_cons, append_empty_l.
  simpl Py.lstrip. now rewrite !rstrip_cons_nonspace by reflexivity.
Qed.

Lemma prefix_refl_app (p x : string) : String.prefix p (p +:+ x) = true.
Proof.
  induction p as [|c p IH]; [now destruct x|].
  rewrite append_cons. simpl. now destruct (ascii_dec c c).
Qed.

Lemma prefix_common (p a b : string) :
  String.prefix (p +:+ a) (p +:+ b) = String.prefix a b.
Proof.
  induction p as [|c p IH]; [reflexivity|].
  rewrite !append_cons. simpl. now destruct (ascii_dec c c).
Qed.

Lemma prefix_empty (s : string) : String.prefix EmptyString s = true.
Proof. now destruct s. Qed.

Lemma prefix_cons (a : ascii) (p : string) (b : ascii) (s : string) :
  String.prefix (String a p) (String b s)
  = if ascii_dec a b then String.prefix p s else false.
Proof. reflexivity. Qed.

Lemma no_backtick_first (s p : string) :
  Py.startswith s "`" = false -> String.prefix (String "`" p) s = false.
Proof.
  unfold Py.startswith. destruct s as [|c s]; [reflexivity|].
  rewrite !prefix_cons. destruct (ascii_dec "`" c); [|reflexivity].
  now rewrite prefix_empty.
Qed.

Lemma drop_marker (a b : string) :
  Py.drop (0 + String.length a) (a +:+ b) = b.
Proof. rewrite Nat.add_comm. apply (drop_app_length a b 0). Qed.

Section Fenced.

Variables body rest : string.

(** The fence that closes [body] is the first one after the marker. *)
Hypothesis closing_first :
  Py.find fence (body +:+ fence) = Some (String.length body).

Lemma find_closing (y : string) :
  Py.find fence (body +:+ fence +:+ y) = Some (String.length body).
Proof using closing_first.
  replace (body +:+ fence +:+ y) with ((body +:+ fence) +:+ y).
  - now apply find_app_stable.
  - clear. induction body as [|c b IH]; [reflexivity|].
    rewrite !append_cons. now f_equal.
Qed.

Lemma partition_closing (y : string) :
  fst (Py.partition fence (body +:+ fence +:+ y)) = body.
Proof using closing_first.
  unfold Py.partition. rewrite find_closing. simpl.
  apply substring_0_length_app.
Qed.

Lemma partition_body : fst (Py.partition fence body) = body.
Proof using closing_first.
  unfold Py.partition. destruct (Py.find fence body) as [j|] eqn:Hj; [|reflexivity].
  pose proof (find_some_length _ _ _ Hj) as Hlen.
  rewrite (find_app_stable _ _ fence _ Hj) in closing_first.
  injection closing_first as ->. simpl in Hlen. lia.
Qed.

(** The text up to the next ["```json"] keeps [body] whole and, unless
    it stops right after [body], the closing fence too. *)
Lemma before_next_marker :
  Py.startswith rest "`" = false ->
  fst (Py.partition fence_json (body +:+ fence +:+ rest)) = body
  \/ exists y,
      fst (Py.partition fence_json (body +:+ fence +:+ rest))
      = body +:+ fence +:+ y.
Proof using closing_first.
  intros Hrest. unfold Py.partition.
  destruct (Py.find fence_json (body +:+ fence +:+ rest)) as [m|] eqn:Hm; simpl.
  2:{ right. now exists rest. }
  pose proof (find_some_prefix _ _ _ Hm) as Hat.
  assert (Hfence : String.prefix fence (Py.drop m (body +:+ fence +:+ rest)) = true)
    by (eapply prefix_trans; [|exact Hat]; reflexivity).
  destruct (Nat.lt_ge_cases m (String.length body)) as [Hlt|Hge].
  { rewrite (find_some_first _ _ _ _ (find_closing rest) Hlt) in Hfence.
    discriminate. }
  destruct (m - String.length body) as [|[|[|k]]] eqn:Hk.
  - left. replace m with (String.length body) by lia.
    apply substring_0_length_app.
  - exfalso. replace m with (String.length body + 1) in Hat by lia.
    rewrite drop_app_length in Hat.
    change (String.prefix ("``" +:+ "`json") ("``" +:+ rest) = true) in Hat.
    rewrite prefix_common, (no_backtick_first _ _ Hrest) in Hat. discriminate.
  - exfalso. replace m with (String.length body + 2) in Hat by lia.
    rewrite drop_app_length in Hat.
    change (String.prefix ("`" +:+ "``json") ("`" +:+ rest) = true) in Hat.
    rewrite prefix_common, (no_backtick_first _ _ Hrest) in Hat. discriminate.
  - right. exists (substring 0 k rest).
    replace m with (String.length body + (String.length fence + k))
      by (simpl; lia).
    now rewrite !substring_0_app_length.
Qed.

(** The text between the marker and the closing fence is what goes to
    the decoder, stripped. *)
Lemma clean_json_block :
  Py.startswith rest "`" = false ->
  clean_response (fence_json +:+ body +:+ fence +:+ rest) = inr (Py.strip body).
Proof using closing_first.
  intros Hrest. unfold clean_response.
  rewrite strip_fence_json. unfold Py.startswith at 1.
  rewrite prefix_refl_app.
  assert (Hfind : Py.find fence_json (fence_json +:+ body +:+ fence +:+ rest)
                  = Some 0).
  { rewrite find_unfold. now rewrite prefix_refl_app. }
  rewrite (item_1_split _ _ 0 fence_json_nonempty Hfind).
  rewrite drop_marker. simpl bind.
  unfold Py.split. rewrite item_0_split_rounds. simpl bind.
  destruct (before_next_marker Hrest) as [-> | [y ->]].
  - now rewrite partition_body.
  - now rewrite partition_closing.
Qed.

Lemma clean_plain_block :
  Py.startswith body "json" = false ->
  clean_response (fence +:+ body +:+ fence +:+ rest) = inr (Py.strip body).
Proof using closing_first.
  intros Hbody. unfold clean_response.
  rewrite strip_fence. unfold Py.startswith.
  assert (Hnot : String.prefix fence_json
                   (fence +:+ Py.rstrip (body +:+ fence +:+ rest)) = false).
  { change fence_json with (fence +:+ "json"). rewrite prefix_common.
    destruct (String.prefix "json" (Py.rstrip (body +:+ fence +:+ rest))) eqn:E;
      [|reflexivity].
    destruct (rstrip_is_prefix (body +:+ fence +:+ rest)) as [u Hu].
    apply (prefix_app _ _ u) in E. rewrite <- Hu in E.
    unfold fence in E. rewrite append_cons in E.
    apply prefix_straddle in E as [E|E].
    - unfold Py.startswith in Hbody. congruence.
    - simpl in E. intuition discriminate. }
  rewrite Hnot, prefix_refl_app.
  assert (Hfind : Py.find fence (fence +:+ body +:+ fence +:+ rest) = Some 0).
  { rewrite find_unfold. now rewrite prefix_refl_app. }
  rewrite (item_1_split _ _ 0 fence_nonempty Hfind).
  rewrite drop_marker. simpl bind.
  rewrite partition_closing. simpl bind.
  unfold Py.split. rewrite item_0_split_rounds. simpl bind.
  now rewrite partition_body.
Qed.

End Fenced.

(** C6, as the code has it. A reply that begins with a fenced block (the
    marker ["```json"] or ["```"], a body, the closing fence) is unwrapped:
    what goes to the decoder is the body of the first fenced region,
    stripped, whatever follows the closing fence. Here the closing fence is the first run of
    three backticks after the marker, and for the ["```json"] marker it is
    not followed by one more backtick. In particular, with a decoder that
    reads [{"conversation":"hi"}] as that object, the fenced reply parses
    to it and the dispatcher replies with the conversation text "hi". *)
Theorem fenced_reply_is_unwrapped (w : World) (body rest : string) :
  (Py.find fence (body +:+ fence) = Some (String.length body) ->
   (Py.startswith rest "`" = false ->
    _parse_ai_response w (fence_json +:+ body +:+ fence +:+ rest)
    = (parsed <- json_loads w (Py.strip body) ;; keys_of parsed))
   /\ (Py.startswith body "json" = false ->
       _parse_ai_response w (fence +:+ body +:+ fence +:+ rest)
       = (parsed <- json_loads w (Py.strip body) ;; keys_of parsed)))
  /\ (json_loads w Demo.hi_text = inr Demo.hi_value ->
      _parse_ai_response w Demo.hi_fenced_json = inr [("conversation", JStr "hi")]
      /\ _parse_ai_response w Demo.hi_fenced = inr [("conversation", JStr "hi")]
      /\ _handle_ai_response [("conversation", JStr "hi")]
         = inr (ReplyConversation (JStr "hi"))).
Proof.
  split.
  - intros Hclose. split.
    + intros Hrest. unfold _parse_ai_response.
      now rewrite (clean_json_block body rest Hclose Hrest).
    + intros Hbody. unfold _parse_ai_response.
      now rewrite (clean_plain_block body rest Hclose Hbody).
  - intros Hloads.
    assert (Hj : clean_response Demo.hi_fenced_json = inr Demo.hi_text)
      by (vm_compute; reflexivity).
    assert (Hp : clean_response Demo.hi_fenced = inr Demo.hi_text)
      by (vm_compute; reflexivity).
    unfold _parse_ai_response. rewrite Hj, Hp. simpl bind. rewrite Hloads.
    repeat split.
Qed.

Lemma fenced_reply_is_unwrapped_witness :
  let w := Demo.world (ApiReply Demo.hi_fenced_json) [] TimedOut in
  let body := String Py.newline (Demo.hi_text +:+ String Py.newline EmptyString) in
  let rest := String Py.newline "Listo." in
  Py.find fence (body +:+ fence) = Some (String.length body)
  /\ Py.startswith rest "`" = false
  /\ Py.startswith body "json" = false
  /\ json_loads w Demo.hi_text = inr Demo.hi_value
  /\ _parse_ai_response w (fence_json +:+ body +:+ fence +:+ rest)
     = inr [("conversation", JStr "hi")]
  /\ _parse_ai_response w (fence +:+ body +:+ fence +:+ rest)
     = inr [("conversation", JStr "hi")]
  /\ _parse_ai_response w Demo.hi_fenced_json = inr [("conversation", JStr "hi")].
Proof.
  intros w body rest.
  assert (Hclose : Py.find fence (body +:+ fence) = Some (String.length body))
    by (vm_compute; reflexivity).
  destruct (fenced_reply_is_unwrapped w body rest) as [Hgen Hhi].
  destruct (Hgen Hclose) as [Hjson Hplain].
  split; [exact Hclose|]. split; [reflexivity|]. split; [reflexivity|].
  split; [reflexivity|].
  split; [exact (Hjson eq_refl)|].
  split; [exact (Hplain eq_refl)|].
  exact (proj1 (Hhi eq_refl)).
Defined.

(** C6, as stated, fails. The parser knows two markers, ["```json"] and
    ["```"]: a block with another language tag keeps its tag in the text
    that goes to the decoder. And the reply is cut at every ["```json"]
    before it is cut at the closing fence: when the closing fence is
    followed by a backtick and [json], the first cut falls one backtick
    into the closing run and that backtick stays with the contents. In both
    cases the decoder rejects a text whose fenced region is
    [{"conversation":"hi"}]. *)
Lemma fenced_reply_not_always_unwrapped :
  let w := Demo.world (ApiReply Demo.hi_text) [] TimedOut in
  let line_break := String Py.newline EmptyString in
  ~ unwraps_fenced_blocks w
  /\ clean_response (fenced_block "javascript" (Demo.hi_text +:+ line_break) "")
     = inr ("javascript" +:+ line_break +:+ Demo.hi_text)
  /\ _parse_ai_response w (fenced_block "javascript" (Demo.hi_text +:+ line_break) "")
     = inl JSONDecodeError
  /\ clean_response (fenced_block "json" Demo.hi_text "`json")
     = inr (Demo.hi_text +:+ "`")
  /\ _parse_ai_response w (fenced_block "json" Demo.hi_text "`json")
     = inl JSONDecodeError
  /\ json_loads w (Py.strip Demo.hi_text) = inr Demo.hi_value.
Proof.
  intros w line_break.
  split; [|repeat split; vm_compute; reflexivity].
  intros H.
  specialize (H "javascript" (Demo.hi_text +:+ line_break) ""
                eq_refl eq_refl eq_refl).
  vm_compute in H. discriminate H.
Qed.

(** ** The rounds of [split] and [replace] are enough *)

Lemma partition_shorter (sep s a r : string) :
  sep <> EmptyString ->
  Py.partition sep s = (a, Some r) ->
  String.length r < String.length s.
Proof.
  intros Hsep. unfold Py.partition.
  destruct (Py.find sep s) as [i|] eqn:Hi; [|discriminate].
  intros [= _ <-]. pose proof (find_some_length _ _ _ Hi).
  rewrite length_str_drop. destruct sep; [congruence|]. simpl in *. lia.
Qed.

Lemma split_rounds_unfold (rounds : nat) (sep s : string) :
  Py.split_rounds rounds sep s
  = match Py.partition sep s with
    | (a, None) => [a]
    | (a, Some r) =>
        match rounds with
        | O => [a]
        | S k => a :: Py.split_rounds k sep r
        end
    end.
Proof. destruct rounds; reflexivity. Qed.

Lemma replace_rounds_unfold (rounds : nat) (old new s : string) :
  Py.replace_rounds rounds old new s
  = match Py.partition old s with
    | (a, None) => a
    | (a, Some r) =>
        match rounds with
        | O => a
        | S k => a +:+ new +:+ Py.replace_rounds k old new r
        end
    end.
Proof. destruct rounds; reflexivity. Qed.

Lemma split_rounds_enough (sep s : string) (n m : nat) :
  sep <> EmptyString ->
  String.length s <= n -> String.length s <= m ->
  Py.split_rounds n sep s = Py.split_rounds m sep s.
Proof.
  intros Hsep. revert m s. induction n as [|n IH]; intros m s Hn Hm;
    rewrite (split_rounds_unfold _ sep s), (split_rounds_unfold m sep s);
    destruct (Py.partition sep s) as [a [r|]] eqn:Hp; try reflexivity;
    pose proof (partition_shorter _ _ _ _ Hsep Hp).
  - lia.
  - destruct m as [|m]; [lia|]. f_equal. apply IH; lia.
Qed.

Lemma replace_rounds_enough (old new s : string) (n m : nat) :
  old <> EmptyString ->
  String.length s <= n -> String.length s <= m ->
  Py.replace_rounds n old new s = Py.replace_rounds m old new s.
Proof.
  intros Hold. revert m s. induction n as [|n IH]; intros m s Hn Hm;
    rewrite (replace_rounds_unfold _ old new s), (replace_rounds_unfold m old new s);
    destruct (Py.partition old s) as [a [r|]] eqn:Hp; try reflexivity;
    pose proof (partition_shorter _ _ _ _ Hold Hp).
  - lia.
  - destruct m as [|m]; [lia|]. do 2 f_equal. apply IH; lia.
Qed.

(** ** Corner cases, by evaluation *)

(** A closing fence followed by a backtick and [json]: the split at
    ["```json"] cuts inside the run of backticks and one backtick stays
    with the body. *)
Example marker_inside_closing_run :
  clean_response (fence_json +:+ "{}" +:+ fence +:+ "`json") = inr "{}`".
Proof. vm_compute. reflexivity. Qed.

(** A fenced block with another language tag: the tag stays in the text
    handed to the decoder. *)
Example other_language_tag :
  clean_response (fence +:+ "js" +:+ String Py.newline "{}" +:+ fence)
  = inr ("js" +:+ String Py.newline "{}").
Proof. vm_compute. reflexivity. Qed.

(** A ["tool"] that is a list cannot be looked up in the install table:
    [chat] answers with the general error. *)
Example tool_name_as_list (w : World) :
  catch_all (check_parsed w [("tool", JArr [JStr "nmap"])])
  = general_error "unhashable type: 'list'".
Proof. reflexivity. Qed.

(** A reply with ["tool"] and no ["parameters"] for a tool that is present
    is not understood. *)
Example tool_without_parameters :
  route (Demo.world (ApiReply Demo.nmap_text) ["nmap"] TimedOut)
        [("tool", JStr "nmap")]
  = inr ReplyNotUnderstood.
Proof. reflexivity. Qed.

(** A decoded value that is not an object never reaches the dispatcher. *)
Example reply_not_an_object :
  keys_of (JArr [JStr "tool"])
  = inl (OtherException "'list' object has no attribute 'keys'").
Proof. reflexivity. Qed.

(** [clear_context] leaves an empty history behind. *)
Lemma clear_context_empties (ai : AIAssistant) (user_id : Z) :
  recent_context (clear_context ai user_id) user_id = []
  /\ get_context_size (clear_context ai user_id) user_id = 0.
Proof.
  unfold get_context_size. rewrite recent_context_drop.
  unfold clear_context, stored_context.
  destruct (user_contexts ai !! user_id) eqn:E; simpl.
  - now rewrite lookup_insert_eq.
  - now rewrite E.
Qed.

(** * Further properties of the code *)

(** ** What [chat] can return *)

Lemma dispatch_execute_inv (d : pydict) (t p e : json) :
  _handle_ai_response d = inr (ExecuteTool t p e) ->
  Dict.get "tool" d = Some t /\ Dict.get "parameters" d = Some p.
Proof.
  unfold _handle_ai_response.
  destruct (Dict.has "conversation" d) eqn:Hc.
  { known_key Hc. discriminate. }
  destruct (Dict.has "question" d) eqn:Hq.
  { known_key Hq.
    destruct (numbered (Dict.get_default "suggestions" (JArr []) d)); simpl;
      discriminate. }
  destruct (Dict.has "tool_not_installed" d) eqn:Hn.
  { known_key Hn. destruct (getitem "install_command" d); simpl; discriminate. }
  destruct (Dict.has "tool" d) eqn:Ht, (Dict.has "parameters" d) eqn:Hp; simpl;
    try (destruct (Dict.has "error" d) eqn:He;
         [known_key He; discriminate | discriminate]).
  destruct (has_getitem _ _ Ht) as [v1 [Hv1 Hg1]].
  destruct (has_getitem _ _ Hp) as [v2 [Hv2 Hg2]].
  rewrite Hv1, Hv2. simpl. intros [= <- <- _]. now split.
Qed.

(** The result [chat] builds for a missing tool is dispatched as an offer
    to install it. *)
Lemma dispatch_offer (tool : json) (command explanation : string) :
  _handle_ai_response
    [ ("tool_not_installed", tool); ("install_command", JStr command);
      ("offer_install", JBool true); ("explanation", JStr explanation) ]
  = inr (OfferInstall tool (JStr command) (JStr explanation)).
Proof. reflexivity. Qed.

(** What [check_parsed] returns: the reply itself, when it names no tool
    or a tool that is there, or the offer to install. *)
Lemma check_parsed_cases (w : World) (parsed d : pydict) :
  check_parsed w parsed = inr d ->
  (d = parsed
   /\ (Dict.get "tool" parsed = None
       \/ exists name, Dict.get "tool" parsed = Some (JStr name)
                       /\ which w name = true))
  \/ (exists tool command explanation,
        Dict.get "tool" parsed = Some tool
        /\ check_tool_installed w tool = false
        /\ d = [ ("tool_not_installed", tool); ("install_command", JStr command);
                 ("offer_install", JBool true);
                 ("explanation", JStr explanation) ]).
Proof.
  unfold check_parsed. destruct (Dict.get "tool" parsed) as [tool|] eqn:Ht.
  2:{ intros [= <-]. left. split; [reflexivity|now left]. }
  destruct (check_tool_installed w tool) eqn:Hi.
  - intros [= <-]. left. split; [reflexivity|]. right.
    destruct tool; try discriminate. eauto.
  - destruct (suggest_install tool) as [e|command]; [discriminate|].
    destruct (str_of_scalar tool) as [e|shown]; [discriminate|].
    simpl. intros [= <-]. right. eauto 10.
Qed.

Lemma dispatch_error_result (error suggestion : string) :
  _handle_ai_response [("error", JStr error); ("suggestion", JStr suggestion)]
  = inr (ReportError (JStr error) (JStr suggestion)).
Proof. reflexivity. Qed.

Lemma catch_all_cases (r : raises pydict) :
  (exists d, r = inr d /\ catch_all r = d)
  \/ (exists error suggestion,
        catch_all r = [("error", JStr error); ("suggestion", JStr suggestion)]).
Proof.
  destruct r as [e|d]; [right|left; eauto].
  destruct e; simpl; unfold parse_error, general_error; eauto.
Qed.

(** Every result of [chat] is an error result or comes out of
    [check_parsed] for the parsed reply. *)
Lemma chat_result_cases (w : World) (ai : AIAssistant) (user_message : string)
  (user_id : Z) :
  (exists error suggestion,
     snd (chat w ai user_message user_id)
     = [("error", JStr error); ("suggestion", JStr suggestion)])
  \/ (exists text parsed,
        is_available ai = true
        /\ complete w (build_messages ai user_message user_id) = ApiReply text
        /\ _parse_ai_response w (Py.strip text) = inr parsed
        /\ check_parsed w parsed = inr (snd (chat w ai user_message user_id))).
Proof.
  unfold chat. destruct (is_available ai) eqn:Hav; simpl.
  2:{ left. unfold unavailable_error. eauto. }
  destruct (complete w (build_messages ai user_message user_id)) as [text|text]
    eqn:Hc; simpl.
  2:{ left. unfold general_error. eauto. }
  destruct (_parse_ai_response w (Py.strip text)) as [e|parsed] eqn:Hp; simpl.
  { left. destruct e; simpl; unfold parse_error, general_error; eauto. }
  destruct (check_parsed w parsed) as [e|d] eqn:Hd; simpl.
  { left. destruct e; simpl; unfold parse_error, general_error; eauto. }
  right. exists text, parsed. rewrite Hd. auto.
Qed.

(** X1. Whatever the model answers, the dispatcher is asked to execute a
    tool only for a user who is allowed, and only a tool whose name is a
    string that [which] found when [chat] checked it. *)
Theorem executes_only_present_tools (w : World) (allowed : list Z)
  (ai ai' : AIAssistant) (user_message : string) (user_id : Z)
  (tool parameters explanation : json) :
  handle_message w allowed ai user_message user_id
  = (ai', Some (inr (ExecuteTool tool parameters explanation))) ->
  check_authorization allowed user_id = true
  /\ exists name, tool = JStr name /\ which w name = true.
Proof.
  unfold handle_message.
  destruct (check_authorization allowed user_id); simpl; [|discriminate].
  destruct (chat w ai user_message user_id) as [ai1 result] eqn:Hchat.
  intros [= _ Hd]. split; [reflexivity|].
  pose proof (chat_result_cases w ai user_message user_id) as Hcases.
  rewrite Hchat in Hcases. simpl in Hcases.
  destruct Hcases as [[err [sug ->]] | [text [parsed [_ [_ [_ Hcheck]]]]]].
  { rewrite dispatch_error_result in Hd. discriminate. }
  destruct (dispatch_execute_inv _ _ _ _ Hd) as [Htool _].
  destruct (check_parsed_cases _ _ _ Hcheck)
    as [[-> [Hnone | [name [Hname Hwhich]]]] | [t [c [x [_ [_ ->]]]]]].
  - congruence.
  - exists name. split; [congruence|exact Hwhich].
  - rewrite dispatch_offer in Hd. discriminate.
Qed.

Lemma executes_only_present_tools_witness :
  let w := Demo.world (ApiReply Demo.nmap_text) ["nmap"] TimedOut in
  handle_message w [7%Z] Demo.assistant "escanea 10.0.0.1" 7
  = (save_exchange Demo.assistant "escanea 10.0.0.1" Demo.nmap_text 7,
     Some (inr (ExecuteTool (JStr "nmap") Demo.nmap_parameters (JStr "scan"))))
  /\ check_authorization [7%Z] 7 = true
  /\ exists name, JStr "nmap" = JStr name /\ which w name = true.
Proof.
  intros w.
  assert (H : handle_message w [7%Z] Demo.assistant "escanea 10.0.0.1" 7
              = (save_exchange Demo.assistant "escanea 10.0.0.1" Demo.nmap_text 7,
                 Some (inr (ExecuteTool (JStr "nmap") Demo.nmap_parameters
                              (JStr "scan")))))
    by (vm_compute; reflexivity).
  split; [exact H|].
  exact (executes_only_present_tools w [7%Z] Demo.assistant _ _ 7 _ _ _ H).
Defined.



(** ** Sequences of exchanges *)

Lemma save_exchange_available (ai : AIAssistant) (m r : string) (user_id : Z) :
  is_available (save_exchange ai m r user_id) = is_available ai.
Proof. reflexivity. Qed.

Lemma chat_without_reply (w : World) (ai : AIAssistant) (user_message : string)
  (user_id : Z) :
  (is_available ai = false
   \/ exists text, complete w (build_messages ai user_message user_id)
                   = ApiFailure text) ->
  fst (chat w ai user_message user_id) = ai.
Proof.
  unfold chat. intros [Hav | [text Hfail]].
  - now rewrite Hav.
  - destruct (is_available ai); [|reflexivity]. simpl. now rewrite Hfail.
Qed.

(** X3. In a world where the model answers every request, [n] messages of
    one user add [2 * n] entries to that user's stored history and leave
    the history of every other user as it was; in a world where every
    request fails, the store does not change at all (the user's messages
    are not recorded). *)
Theorem exchanges_accumulate (w : World) (ai : AIAssistant)
  (user_messages : list string) (user_id : Z) :
  is_available ai = true ->
  ((forall request, exists text, complete w request = ApiReply text) ->
   get_context_size (chats w ai user_messages user_id) user_id
   = get_context_size ai user_id + 2 * length user_messages
   /\ forall other, other <> user_id ->
        stored_context (chats w ai user_messages user_id) other
        = stored_context ai other)
  /\ ((forall request, exists text, complete w request = ApiFailure text) ->
      chats w ai user_messages user_id = ai).
Proof.
  intros Hav. split; intros Hworld.
  - revert ai Hav. induction user_messages as [|m rest IH]; intros ai Hav.
    + simpl. split; [lia|reflexivity].
    + destruct (Hworld (build_messages ai m user_id)) as [text Hreply].
      simpl. rewrite (chat_saves_exchange _ _ _ _ _ Hav Hreply).
      destruct (IH (save_exchange ai m (Py.strip text) user_id) Hav) as [Hsize Hother].
      split.
      * rewrite Hsize. unfold get_context_size. rewrite stored_context_save.
        destruct (decide (user_id = user_id)); [|congruence].
        rewrite length_app. simpl. lia.
      * intros other Hne. rewrite (Hother other Hne), stored_context_save.
        destruct (decide (user_id = other)); congruence.
  - induction user_messages as [|m rest IH]; [reflexivity|].
    simpl. rewrite chat_without_reply; [exact IH|].
    right. apply Hworld.
Qed.

Lemma exchanges_accumulate_witness :
  let up := Demo.world (ApiReply Demo.hi_text) [] TimedOut in
  let down := Demo.world (ApiFailure "Connection error.") [] TimedOut in
  is_available Demo.busy_assistant = true
  /\ (forall request, exists text, complete up request = ApiReply text)
  /\ get_context_size (chats up Demo.busy_assistant ["a"; "b"; "c"] 7) 7
     = get_context_size Demo.busy_assistant 7 + 2 * 3
  /\ (forall request, exists text, complete down request = ApiFailure text)
  /\ chats down Demo.busy_assistant ["a"; "b"; "c"] 7 = Demo.busy_assistant.
Proof.
  intros up down.
  assert (Hup : forall request, exists text, complete up request = ApiReply text)
    by (intros; now exists Demo.hi_text).
  assert (Hdown : forall request, exists text, complete down request = ApiFailure text)
    by (intros; now exists "Connection error.").
  split; [reflexivity|]. split; [exact Hup|]. split.
  - exact (proj1 (proj1 (exchanges_accumulate up Demo.busy_assistant
                           ["a"; "b"; "c"] 7 eq_refl) Hup)).
  - split; [exact Hdown|].
    exact (proj2 (exchanges_accumulate down Demo.busy_assistant
                    ["a"; "b"; "c"] 7 eq_refl) Hdown).
Defined.

(** ** Clearing a history *)

Lemma clear_context_stored (ai : AIAssistant) (user_id other : Z) :
  stored_context (clear_context ai user_id) other
  = if decide (user_id = other) then [] else stored_context ai other.
Proof.
  unfold clear_context, stored_context.
  destruct (user_contexts ai !! user_id) eqn:E; simpl.
  - rewrite lookup_insert. now destruct (decide (user_id = other)).
  - destruct (decide (user_id = other)) as [<-|]; [now rewrite E|reflexivity].
Qed.

(** X4. [clear_context] empties the history of the user and of nobody
    else; the next request of that user carries the system prompt and the
    new message only; clearing twice is clearing once; and for a user the
    store does not know, clearing changes nothing (no entry is made). *)
Theorem clear_context_resets (ai : AIAssistant) (user_id : Z) :
  stored_context (clear_context ai user_id) user_id = []
  /\ (forall other, other <> user_id ->
        stored_context (clear_context ai user_id) other = stored_context ai other)
  /\ (forall user_message,
        build_messages (clear_context ai user_id) user_message user_id
        = [ {| role := "system"; content := system_prompt ai |};
            {| role := "user"; content := user_message |} ])
  /\ clear_context (clear_context ai user_id) user_id = clear_context ai user_id
  /\ (user_contexts ai !! user_id = None -> clear_context ai user_id = ai).
Proof.
  assert (Hown : stored_context (clear_context ai user_id) user_id = []).
  { rewrite clear_context_stored. now destruct (decide (user_id = user_id)). }
  split; [exact Hown|]. split; [|split; [|split]].
  - intros other Hne. rewrite clear_context_stored.
    destruct (decide (user_id = other)); congruence.
  - intros m. unfold build_messages. rewrite recent_context_drop, Hown.
    unfold clear_context. now destruct (user_contexts ai !! user_id).
  - destruct (user_contexts ai !! user_id) eqn:E; unfold clear_context;
      rewrite E; simpl.
    + rewrite lookup_insert_eq. simpl. now rewrite insert_insert_eq.
    + now rewrite E.
  - intros E. unfold clear_context. now rewrite E.
Qed.

Lemma clear_context_resets_witness :
  user_contexts Demo.busy_assistant !! 8%Z = None
  /\ clear_context Demo.busy_assistant 8 = Demo.busy_assistant
  /\ stored_context (clear_context Demo.busy_assistant 7) 7 = [].
Proof.
  assert (H : user_contexts Demo.busy_assistant !! 8%Z = None)
    by (vm_compute; reflexivity).
  split; [exact H|]. split.
  - exact (proj2 (proj2 (proj2 (proj2 (clear_context_resets Demo.busy_assistant 8)))) H).
  - exact (proj1 (clear_context_resets Demo.busy_assistant 7)).
Defined.

(** ** Every outbound message fits *)

Lemma length_code_block (piece : string) :
  String.length (code_block piece) = String.length piece + 8.
Proof.
  unfold code_block, fence. rewrite !append_cons, append_empty_l. simpl.
  rewrite length_append. simpl. lia.
Qed.

(** X5. For every output, long or short or empty, the dispatcher sends at
    least one message, every message (piece and fences) has at most 4008
    characters, there are [max 1 (ceil (len / 4000))] of them, and the
    pieces joined in order are the output. *)
Theorem send_output_fits (output : string) :
  length (send_output output)
  = Nat.max 1 ((String.length output + (CHUNK - 1)) / CHUNK)
  /\ Forall (fun m => String.length m <= CHUNK + 8) (send_output output)
  /\ Py.join (split_output output) = output.
Proof.
  unfold send_output. rewrite length_map.
  destruct (Nat.lt_ge_cases CHUNK (String.length output)) as [Hlong|Hshort].
  - rewrite (split_output_long _ Hlong), length_pieces.
    rewrite Nat.sub_0_r. repeat split.
    + assert (2 <= (String.length output + (CHUNK - 1)) / CHUNK)
        by (apply Nat.div_le_lower_bound; unfold CHUNK in *; lia).
      set (q := (String.length output + (CHUNK - 1)) / CHUNK) in *. lia.
    + apply List.Forall_forall. intros m Hm.
      apply in_map_iff in Hm as [piece [<- Hpiece]].
      rewrite length_code_block.
      pose proof (pieces_short CHUNK
                    ((String.length output + (CHUNK - 1)) / CHUNK) output) as Hall.
      rewrite List.Forall_forall in Hall. specialize (Hall _ Hpiece). lia.
    + apply join_pieces; [unfold CHUNK; lia|].
      pose proof (range_count CHUNK ltac:(unfold CHUNK; lia) (String.length output)).
      now rewrite Nat.sub_0_r in *.
  - unfold split_output.
    destruct (Nat.ltb_spec CHUNK (String.length output)); [lia|].
    repeat split.
    + assert ((String.length output + (CHUNK - 1)) / CHUNK < 2)
        by (apply Nat.Div0.div_lt_upper_bound; unfold CHUNK in *; lia).
      set (q := (String.length output + (CHUNK - 1)) / CHUNK) in *.
      change (length [output]) with 1. lia.
    + constructor; [|constructor]. rewrite length_code_block. lia.
    + apply append_empty_r.
Qed.

(** ** A fence that is never closed *)

Lemma find_none_marker (body : string) :
  Py.find fence body = None -> Py.find fence_json body = None.
Proof.
  intros Hnone. destruct (Py.find fence_json body) as [m|] eqn:Hm; [|reflexivity].
  apply find_some_prefix in Hm.
  assert (H : String.prefix fence (Py.drop m body) = true)
    by (eapply prefix_trans; [|exact Hm]; reflexivity).
  now rewrite (find_none_nowhere _ _ m Hnone) in H.
Qed.

Lemma partition_none (sep s : string) :
  Py.find sep s = None -> fst (Py.partition sep s) = s.
Proof. unfold Py.partition. now intros ->. Qed.

(** X6. A reply that opens a fenced block and never closes it (no further
    run of three backticks) is unwrapped all the same: everything after
    the marker goes to the decoder, stripped. *)
Theorem unclosed_fence_is_unwrapped (w : World) (body : string) :
  Py.find fence body = None ->
  _parse_ai_response w (fence_json +:+ body)
  = (parsed <- json_loads w (Py.strip body) ;; keys_of parsed)
  /\ (Py.startswith body "json" = false ->
      _parse_ai_response w (fence +:+ body)
      = (parsed <- json_loads w (Py.strip body) ;; keys_of parsed)).
Proof.
  intros Hnone.
  assert (Hjson : clean_response (fence_json +:+ body) = inr (Py.strip body)).
  { unfold clean_response. rewrite strip_fence_json. unfold Py.startswith at 1.
    rewrite prefix_refl_app.
    assert (Hfind : Py.find fence_json (fence_json +:+ body) = Some 0)
      by (rewrite find_unfold; now rewrite prefix_refl_app).
    rewrite (item_1_split _ _ 0 fence_json_nonempty Hfind), drop_marker.
    simpl bind. unfold Py.split. rewrite item_0_split_rounds. simpl bind.
    now rewrite (partition_none _ _ (find_none_marker _ Hnone)),
      (partition_none _ _ Hnone). }
  split.
  - unfold _parse_ai_response. now rewrite Hjson.
  - intros Hbody. unfold _parse_ai_response.
    assert (Hplain : clean_response (fence +:+ body) = inr (Py.strip body)).
    { unfold clean_response. rewrite strip_fence. unfold Py.startswith.
      assert (Hnot : String.prefix fence_json (fence +:+ Py.rstrip body) = false).
      { change fence_json with (fence +:+ "json"). rewrite prefix_common.
        destruct (String.prefix "json" (Py.rstrip body)) eqn:E; [|reflexivity].
        destruct (rstrip_is_prefix body) as [u Hu].
        apply (prefix_app _ _ u) in E. rewrite <- Hu in E.
        unfold Py.startswith in Hbody. congruence. }
      rewrite Hnot, prefix_refl_app.
      assert (Hfind : Py.find fence (fence +:+ body) = Some 0)
        by (rewrite find_unfold; now rewrite prefix_refl_app).
      rewrite (item_1_split _ _ 0 fence_nonempty Hfind), drop_marker.
      simpl bind. unfold Py.split. rewrite item_0_split_rounds. simpl bind.
      now rewrite !(partition_none _ _ Hnone). }
    now rewrite Hplain.
Qed.

Lemma unclosed_fence_is_unwrapped_witness :
  let w := Demo.world (ApiReply Demo.hi_text) [] TimedOut in
  let body := String Py.newline Demo.hi_text in
  Py.find fence body = None
  /\ Py.startswith body "json" = false
  /\ _parse_ai_response w (fence_json +:+ body) = inr [("conversation", JStr "hi")]
  /\ _parse_ai_response w (fence +:+ body) = inr [("conversation", JStr "hi")].
Proof.
  intros w body.
  assert (Hnone : Py.find fence body = None) by (vm_compute; reflexivity).
  destruct (unclosed_fence_is_unwrapped w body Hnone) as [Hjson Hplain].
  split; [exact Hnone|]. split; [reflexivity|].
  split; [exact Hjson|exact (Hplain eq_refl)].
Defined.

(** ** Redaction on the paths that redact *)

Lemma find_none_cons (sub : string) (c : ascii) (s : string) :
  Py.find sub (String c s) = None -> Py.find sub s = None.
Proof.
  rewrite find_unfold. destruct (String.prefix sub (String c s)); [discriminate|].
  now destruct (Py.find sub s).
Qed.

(** No occurrence of [sub] reaches across a character that [sub] does not
    hold. *)
Lemma find_none_across (sub a : string) (c : ascii) (y : string) :
  sub <> EmptyString ->
  ~ In c (list_ascii_of_string sub) ->
  Py.find sub a = None -> Py.find sub y = None ->
  Py.find sub (a +:+ String c y) = None.
Proof.
  intros Hsub Hc Ha Hy. induction a as [|x a IH].
  - rewrite append_empty_l, find_unfold, Hy.
    destruct (String.prefix sub (String c y)) eqn:E; [|reflexivity].
    destruct (prefix_straddle sub EmptyString c y E) as [H|H]; [|contradiction].
    destruct sub; [congruence|discriminate].
  - rewrite append_cons, find_unfold, (IH (find_none_cons _ _ _ Ha)).
    destruct (String.prefix sub (String x (a +:+ String c y))) eqn:E;
      [|reflexivity].
    rewrite <- append_cons in E.
    destruct (prefix_straddle sub (String x a) c y E) as [H|H]; [|contradiction].
    rewrite find_unfold, H in Ha. discriminate.
Qed.

Lemma length_substring_0 (i : nat) (s : string) :
  String.length (substring 0 i s) <= i.
Proof. apply length_substring_le. Qed.

(** The text before the first occurrence holds no occurrence. *)
Lemma find_none_before (sub s : string) (i : nat) :
  sub <> EmptyString ->
  Py.find sub s = Some i -> Py.find sub (substring 0 i s) = None.
Proof.
  intros Hsub Hi.
  destruct (Py.find sub (substring 0 i s)) as [j|] eqn:Hj; [|reflexivity].
  pose proof (find_some_length _ _ _ Hj) as Hlen.
  pose proof (length_substring_0 i s) as Hle.
  apply (find_app_stable _ _ (Py.drop i s)) in Hj.
  rewrite substring_0_drop in Hj.
  assert (0 < String.length sub) by (destruct sub; [congruence|simpl; lia]).
  rewrite Hi in Hj. injection Hj as ->. lia.
Qed.

Lemma replace_rounds_clean (rounds : nat) (old s : string) :
  old <> EmptyString ->
  ~ In "*"%char (list_ascii_of_string old) ->
  Py.find old (Py.replace_rounds rounds old "***" s) = None.
Proof.
  intros Hold Hstar. revert s. induction rounds as [|k IH]; intros s;
    rewrite replace_rounds_unfold; unfold Py.partition;
    destruct (Py.find old s) as [i|] eqn:Hi; try exact Hi.
  - now apply find_none_before.
  - change ("***" +:+ Py.replace_rounds k old "***"
                        (Py.drop (i + String.length old) s))
      with (String "*" (EmptyString +:+ String "*" (EmptyString +:+ String "*"
              (Py.replace_rounds k old "***" (Py.drop (i + String.length old) s))))).
    assert (Hempty : Py.find old EmptyString = None)
      by (destruct old; [congruence|reflexivity]).
    apply find_none_across; try assumption; [now apply find_none_before|].
    apply find_none_across; try assumption.
    apply find_none_across; try assumption.
    apply IH.
Qed.

Lemma contains_inside (a s b : string) : Py.contains s (a +:+ s +:+ b) = true.
Proof.
  unfold Py.contains.
  assert (H : exists i, Py.find s (a +:+ s +:+ b) = Some i).
  { induction a as [|c a IH].
    - exists 0. change (EmptyString +:+ s +:+ b) with (s +:+ b).
      rewrite find_unfold. now rewrite prefix_refl_app.
    - rewrite append_cons. now apply find_cons_some. }
  destruct H as [i ->]. reflexivity.
Qed.

(** X7. When the root password is not empty and holds no star, the
    command reported for a subprocess that completed, or that timed out
    and was killed, does not contain the password any more: every
    occurrence, the one the sudo prefix put there and any the caller's
    command had, is replaced. When the subprocess timed out and the kill
    raised, the command is reported as it was run: under sudo it holds
    the password. *)
Theorem redacted_command_hides_password (w : World)
  (root_password command : string) (timeout : Z) (use_sudo : bool) :
  root_password <> EmptyString ->
  ~ In "*"%char (list_ascii_of_string root_password) ->
  (completed (os_run w (sudo_command root_password command use_sudo) timeout) = true
   \/ os_run w (sudo_command root_password command use_sudo) timeout = TimedOut ->
   Py.contains root_password
     (command_field (fst (_run_command w root_password command timeout use_sudo)))
   = false)
  /\ (forall text,
        os_run w (sudo_command root_password command use_sudo) timeout
        = KillRaises text ->
        command_field (fst (_run_command w root_password command timeout use_sudo))
        = sudo_command root_password command use_sudo
        /\ (use_sudo = true ->
            Py.contains root_password
              (command_field
                 (fst (_run_command w root_password command timeout use_sudo)))
            = true)).
Proof.
  intros Hpw Hstar.
  assert (Hclean : forall c, Py.contains root_password (redact root_password c) = false).
  { intros c. unfold Py.contains, redact, Py.replace.
    destruct root_password; [congruence|]. simpl truthy. cbv iota.
    now rewrite replace_rounds_clean. }
  unfold _run_command. split.
  - intros Hout.
    destruct (os_run w (sudo_command root_password command use_sudo) timeout)
      as [text|out err code| |text]; simpl.
    + destruct Hout; discriminate.
    + apply Hclean.
    + apply Hclean.
    + destruct Hout; discriminate.
  - intros text ->. unfold command_field. cbn [fst Dict.get].
    change (Dict.get "command"
              [("success", JBool false);
               ("command", JStr (sudo_command root_password command use_sudo));
               ("error", JStr text)])
      with (Some (JStr (sudo_command root_password command use_sudo))).
    split; [reflexivity|]. intros ->. unfold sudo_command.
    destruct root_password as [|c pw]; [congruence|]. cbn [truthy andb].
    change ("echo " +:+ String Py.dquote
              (String c pw +:+ String Py.dquote (" | sudo -S " +:+ command)))
      with (("echo " +:+ String Py.dquote EmptyString)
            +:+ String c pw +:+ String Py.dquote (" | sudo -S " +:+ command)).
    apply contains_inside.
Qed.

Lemma redacted_command_hides_password_witness :
  let w := Demo.world (ApiFailure "") [] (Exited "uid=0(root)" "" 0) in
  let gone := Demo.world (ApiFailure "") [] (KillRaises "") in
  "s3cret" <> EmptyString
  /\ ~ In "*"%char (list_ascii_of_string "s3cret")
  /\ completed (os_run w (sudo_command "s3cret" "echo s3cret" true) 60) = true
  /\ Py.contains "s3cret"
       (command_field (fst (_run_command w "s3cret" "echo s3cret" 60 true)))
     = false
  /\ os_run gone (sudo_command "s3cret" "id" true) 60 = KillRaises ""
  /\ Py.contains "s3cret"
       (command_field (fst (_run_command gone "s3cret" "id" 60 true)))
     = true.
Proof.
  intros w gone.
  assert (H1 : "s3cret" <> EmptyString) by discriminate.
  assert (H2 : ~ In "*"%char (list_ascii_of_string "s3cret"))
    by (simpl; intuition discriminate).
  split; [exact H1|]. split; [exact H2|]. split; [reflexivity|]. split.
  - exact (proj1 (redacted_command_hides_password w "s3cret" "echo s3cret" 60 true
                    H1 H2) (or_introl eq_refl)).
  - split; [reflexivity|].
    exact (proj2 (proj2 (redacted_command_hides_password gone "s3cret" "id" 60 true
                           H1 H2) "" eq_refl) eq_refl).
Defined.

(** A password that holds a star survives its own redaction. *)
Example star_password_survives :
  redact "*" (sudo_command "*" "id" true)
  = "echo " +:+ Demo.q "***" +:+ " | sudo -S id"
  /\ Py.contains "*" (redact "*" (sudo_command "*" "id" true)) = true.
Proof. vm_compute. split; reflexivity. Qed.

(** ** The catalogue and its categories *)

Lemma in_get_tools_by_category (d : list (string * tool_info)) (c name : string) :
  In name (get_tools_by_category d c)
  <-> exists info, In (name, info) d /\ category info = c.
Proof.
  unfold get_tools_by_category. rewrite in_map_iff. split.
  - intros [[n info] [<- Hin]]. apply filter_In in Hin as [Hin Heq].
    simpl in *. apply String.eqb_eq in Heq. eauto.
  - intros [info [Hin <-]]. exists (name, info). split; [reflexivity|].
    apply filter_In. split; [exact Hin|]. simpl. apply String.eqb_refl.
Qed.

Lemma in_get_all_categories (d : list (string * tool_info)) (c : string) :
  In c (get_all_categories d)
  <-> exists name info, In (name, info) d /\ category info = c.
Proof.
  unfold get_all_categories, sorted.
  rewrite <- (Permutation_in' (eq_refl c) (StringSort.Permuted_sort _)).
  rewrite <- list_elem_of_In, elem_of_remove_dups, list_elem_of_In, in_map_iff.
  split.
  - intros [[name info] [<- Hin]]. eauto.
  - intros [name [info [Hin <-]]]. now exists (name, info).
Qed.

(** X8. Whatever was discovered, [get_all_categories] is sorted and
    without repetition, and a category is in it exactly when
    [get_tools_by_category] has a tool for it: no category is listed
    empty, none with a tool is missing. *)
Theorem categories_sorted_and_inhabited (d : list (string * tool_info)) :
  Sorted (fun a b => String.leb a b = true) (get_all_categories d)
  /\ List.NoDup (get_all_categories d)
  /\ forall c, In c (get_all_categories d) <-> get_tools_by_category d c <> [].
Proof.
  split; [apply StringSort.Sorted_sort|]. split.
  - unfold get_all_categories, sorted.
    eapply Permutation_NoDup; [apply StringSort.Permuted_sort|].
    apply NoDup_ListNoDup, NoDup_remove_dups.
  - intros c. rewrite in_get_all_categories. split.
    + intros [name [info H]] Hnil.
      assert (Hin : In name (get_tools_by_category d c))
        by (apply in_get_tools_by_category; eauto).
      rewrite Hnil in Hin. destruct Hin.
    + intros Hne. destruct (get_tools_by_category d c) as [|name l] eqn:E;
        [congruence|].
      assert (Hin : In name (get_tools_by_category d c)) by (rewrite E; now left).
      apply in_get_tools_by_category in Hin as [info H]. eauto.
Qed.

(** Two filters that never hold together split what either keeps. *)
Lemma filter_disjoint_app {A} (f g : A -> bool) (l : list A) :
  (forall x, In x l -> f x = true -> g x = false) ->
  Permutation (List.filter f l ++ List.filter g l)
              (List.filter (fun x => f x || g x) l).
Proof.
  induction l as [|a l IH]; intros Hdis; [constructor|].
  assert (Hl : forall x, In x l -> f x = true -> g x = false)
    by (intros x Hx; apply Hdis; now right).
  specialize (IH Hl). simpl.
  destruct (f a) eqn:Hf; simpl.
  - rewrite (Hdis a (or_introl eq_refl) Hf). now constructor.
  - destruct (g a); [|exact IH].
    etransitivity; [symmetry; apply Permutation_middle|]. now constructor.
Qed.

Lemma tools_by_categories (d : list (string * tool_info)) (cats : list string) :
  List.NoDup cats ->
  Permutation
    (concat (map (get_tools_by_category d) cats))
    (map fst (List.filter
                (fun entry => existsb (String.eqb (category (snd entry))) cats) d)).
Proof.
  induction 1 as [|c cats Hc Hnd IH]; simpl.
  - induction d as [|a d IHd]; [constructor|exact IHd].
  - etransitivity; [apply Permutation_app_head, IH|].
    unfold get_tools_by_category. rewrite <- map_app.
    apply Permutation_map, filter_disjoint_app.
    intros entry _ Heq. apply String.eqb_eq in Heq.
    destruct (existsb (String.eqb (category (snd entry))) cats) eqn:E;
      [|reflexivity].
    apply existsb_exists in E as [c' [Hin Heq']]. apply String.eqb_eq in Heq'.
    destruct Hc. congruence.
Qed.

Lemma filter_all {A} (f : A -> bool) (l : list A) :
  (forall x, In x l -> f x = true) -> List.filter f l = l.
Proof.
  induction l as [|a l IH]; intros H; [reflexivity|]. simpl.
  rewrite (H a (or_introl eq_refl)). f_equal. apply IH.
  intros x Hx. apply H. now right.
Qed.

Lemma categories_sorted_and_inhabited_aux (d : list (string * tool_info)) :
  List.NoDup (get_all_categories d)
  /\ forall entry, In entry d ->
       existsb (String.eqb (category (snd entry))) (get_all_categories d) = true.
Proof.
  split.
  - unfold get_all_categories, sorted.
    eapply Permutation_NoDup; [apply StringSort.Permuted_sort|].
    apply NoDup_ListNoDup, NoDup_remove_dups.
  - intros [name info] Hin. apply existsb_exists. exists (category info).
    split; [|apply String.eqb_refl].
    apply in_get_all_categories. eauto.
Qed.

(** X9. Listing the tools category by category, as the start-up summary,
    the prompt and the status command do, lists every discovered tool
    exactly once. *)
Theorem every_tool_listed_once (d : list (string * tool_info)) :
  Permutation
    (concat (map (get_tools_by_category d) (get_all_categories d)))
    (map fst d).
Proof.
  destruct (categories_sorted_and_inhabited_aux d) as [Hnd Hall].
  etransitivity; [apply tools_by_categories, Hnd|].
  now rewrite (filter_all _ _ Hall).
Qed.

(** ** Scanning and looking tools up *)

Lemma catalogue_names_distinct : List.NoDup (map fst common_kali_tools).
Proof.
  apply NoDup_ListNoDup. apply (bool_decide_unpack _). vm_compute. reflexivity.
Qed.

Lemma scan_names (w : World) (p : Probe) :
  map fst (scan_installed_tools w p)
  = List.filter (which w) (map fst common_kali_tools).
Proof.
  unfold scan_installed_tools. induction common_kali_tools as [|[name cd] tbl IH];
    [reflexivity|].
  cbn [flat_map]. rewrite map_app, IH. simpl.
  now destruct (which w name).
Qed.

Lemma scan_entry (w : World) (p : Probe) (name : string) (info : tool_info) :
  In (name, info) (scan_installed_tools w p) ->
  which w name = true
  /\ installed info = true
  /\ In (name, (category info, description info)) common_kali_tools.
Proof.
  unfold scan_installed_tools. rewrite in_flat_map.
  intros [[n [c ds]] [Hin Hentry]]. simpl in Hentry.
  destruct (which w n) eqn:Hw; [|destruct Hentry].
  destruct Hentry as [[= <- <-]|[]]. simpl. auto.
Qed.

Lemma assoc_in {A} (name : string) (v : A) (d : list (string * A)) :
  List.NoDup (map fst d) -> In (name, v) d -> assoc name d = Some v.
Proof.
  induction d as [|[k x] d IH]; intros Hnd Hin; [destruct Hin|].
  simpl in *. apply NoDup_cons_iff in Hnd as [Hk Hnd].
  destruct Hin as [[= -> ->]|Hin].
  - now rewrite String.eqb_refl.
  - destruct (String.eqb_spec name k) as [->|_]; [|now apply IH].
    destruct Hk. apply in_map_iff. now exists (k, v).
Qed.

Lemma scan_names_distinct (w : World) (p : Probe) :
  List.NoDup (map fst (scan_installed_tools w p)).
Proof. rewrite scan_names. apply List.NoDup_filter, catalogue_names_distinct. Qed.

Lemma map_raises_ok {A B} (f : A -> raises B) (g : A -> B) (l : list A) :
  (forall a, In a l -> f a = inr (g a)) -> map_raises f l = inr (map g l).
Proof.
  induction l as [|a l IH]; intros H; [reflexivity|].
  simpl. rewrite (H a (or_introl eq_refl)). simpl.
  rewrite IH; [reflexivity|]. intros x Hx. apply H. now right.
Qed.

Lemma replace_absent (old new s : string) :
  Py.find old s = None -> Py.replace old new s = s.
Proof.
  intros Hnone. unfold Py.replace. rewrite replace_rounds_unfold.
  unfold Py.partition. now rewrite Hnone.
Qed.

Lemma replace_at_start (old new s : string) :
  old <> EmptyString ->
  Py.replace old new (old +:+ s) = new +:+ Py.replace old new s.
Proof.
  intros Hold. unfold Py.replace. rewrite replace_rounds_unfold.
  unfold Py.partition.
  assert (Hfind : Py.find old (old +:+ s) = Some 0)
    by (rewrite find_unfold; now rewrite prefix_refl_app).
  rewrite Hfind, drop_marker. rewrite length_append.
  destruct (String.length old) as [|k] eqn:Hk;
    [apply length_0_empty in Hk; congruence|].
  cbn [Nat.add]. replace (substring 0 0 (old +:+ s)) with EmptyString
    by now destruct (old +:+ s).
  rewrite append_empty_l. f_equal.
  apply replace_rounds_enough; [exact Hold|lia|lia].
Qed.

(** The categories of the catalogue come back unchanged from the callback
    data of their button. *)
Lemma catalogue_categories_round_trip (name cat desc : string) :
  In (name, (cat, desc)) common_kali_tools ->
  Py.replace "cat_" "" (cat_button cat) = cat.
Proof.
  assert (H : forallb
                (fun e => String.eqb (Py.replace "cat_" "" (cat_button (fst (snd e))))
                            (fst (snd e)))
                common_kali_tools = true)
    by (vm_compute; reflexivity).
  rewrite forallb_forall in H. intros Hin.
  apply String.eqb_eq. exact (H _ Hin).
Qed.

(** X10. In the scan of any system, the discovered tools are catalogue
    tools that [which] finds, each once; and pressing the button of a
    listed category shows that category again: the callback reads the
    category back, does not raise, and lists exactly the tools of the
    category, sorted, each with a description taken from the catalogue. *)
Theorem category_button_lists_its_tools (w : World) (p : Probe) (cat : string) :
  let d := scan_installed_tools w p in
  List.NoDup (map fst d)
  /\ (In cat (get_all_categories d) ->
      exists lines,
        category_callback d (cat_button cat) = inr (cat, lines)
        /\ map fst lines = sorted (get_tools_by_category d cat)
        /\ lines <> []
        /\ forall tool desc,
             In (tool, desc) lines ->
             which w tool = true /\ In (tool, (cat, desc)) common_kali_tools).
Proof.
  intros d. split; [apply scan_names_distinct|]. intros Hcat.
  pose proof (scan_names_distinct w p) as Hnd. fold d in Hnd.
  set (show := fun tool =>
                 (tool, match get_tool_info d tool with
                        | Some info => description info
                        | None => EmptyString
                        end)).
  assert (Hinfo : forall tool,
             In tool (sorted (get_tools_by_category d cat)) ->
             exists info, In (tool, info) d /\ category info = cat
                          /\ get_tool_info d tool = Some info).
  { intros tool Hin. unfold sorted in Hin.
    apply (Permutation_in _ (Permutation_sym (StringSort.Permuted_sort _))) in Hin.
    apply in_get_tools_by_category in Hin as [info [Hin Hc]].
    exists info. repeat split; try assumption.
    unfold get_tool_info. now rewrite (assoc_in _ _ _ Hnd Hin). }
  apply in_get_all_categories in Hcat as [name0 [info0 [Hin0 Hc0]]].
  destruct (scan_entry _ _ _ _ Hin0) as [_ [_ Htable]]. rewrite Hc0 in Htable.
  exists (map show (sorted (get_tools_by_category d cat))).
  unfold category_callback.
  rewrite (catalogue_categories_round_trip _ _ _ Htable).
  rewrite (map_raises_ok _ show).
  2:{ intros tool Hin. destruct (Hinfo tool Hin) as [info [_ [_ Hg]]].
      unfold show. now rewrite Hg. }
  simpl. split; [reflexivity|]. split; [|split].
  - rewrite map_map. simpl. apply map_id.
  - intros Hnil. apply map_eq_nil in Hnil.
    assert (Hin : In name0 (sorted (get_tools_by_category d cat))).
    { unfold sorted. apply (Permutation_in _ (StringSort.Permuted_sort _)).
      apply in_get_tools_by_category. eauto. }
    rewrite Hnil in Hin. destruct Hin.
  - intros tool desc Hin. apply in_map_iff in Hin as [t [Hshow Hin]].
    destruct (Hinfo t Hin) as [info [Hd [Hc Hg]]].
    unfold show in Hshow. rewrite Hg in Hshow. injection Hshow as <- <-.
    destruct (scan_entry _ _ _ _ Hd) as [Hw [_ Htab]].
    rewrite Hc in Htab. now split.
Qed.

Lemma category_button_lists_its_tools_witness :
  let w := Demo.world (ApiFailure "") ["nmap"; "dig"; "masscan"] TimedOut in
  let d := scan_installed_tools w demo_probe in
  In "network_scan" (get_all_categories d)
  /\ exists lines,
       category_callback d (cat_button "network_scan") = inr ("network_scan", lines)
       /\ map fst lines = sorted (get_tools_by_category d "network_scan").
Proof.
  intros w d.
  assert (Hin : In "network_scan" (get_all_categories d))
    by (vm_compute; auto).
  split; [exact Hin|].
  destruct (proj2 (category_button_lists_its_tools w demo_probe "network_scan") Hin)
    as [lines [H1 [H2 _]]].
  exists lines. now split.
Defined.

(** ** The keyboard of categories *)

Lemma pair_induction {A} (P : list A -> Prop) :
  P [] -> (forall a, P [a]) -> (forall a b l, P l -> P (a :: b :: l)) ->
  forall l, P l.
Proof.
  intros H0 H1 H2 l.
  assert (H : P l /\ forall a, P (a :: l)).
  { induction l as [|b l [IH1 IH2]]; [auto|]. split; [apply IH2|].
    intros a. now apply H2. }
  apply H.
Qed.

Lemma half_succ_succ (n : nat) : (S (S n) + 1) / 2 = S ((n + 1) / 2).
Proof.
  replace (S (S n) + 1) with (n + 1 + 1 * 2) by lia.
  rewrite Nat.div_add by lia. lia.
Qed.

Lemma item_app_length {A} (pre l : list A) (a : A) :
  item (length pre) (pre ++ a :: l) = inr a.
Proof. unfold item. now rewrite list_lookup_middle. Qed.

(** The rows built from position [2 * j] on, when [2 * j] categories came
    before. *)
Lemma bind_inr {A B} (a : A) (k : A -> raises B) : bind (inr a) k = k a.
Proof. reflexivity. Qed.

Lemma keyboard_rows_from (cats pre l : list string) (j : nat) :
  cats = pre ++ l ->
  length pre = 2 * j ->
  map_raises
    (fun i =>
       first <- item i cats ;;
       if (i + 1 <? length cats)%nat then
         second <- item (i + 1) cats ;;
         ret [cat_button first; cat_button second]
       else ret [cat_button first])
    (map (fun k => k * 2) (seq j ((length l + 1) / 2)))
  = inr (map (map cat_button) (pairs l)).
Proof.
  revert pre j. induction l as [|a|a b l IH] using pair_induction;
    intros pre j Hcats Hpre.
  - reflexivity.
  - change ((length [a] + 1) / 2) with 1. cbn [seq map map_raises].
    assert (H1 : item (j * 2) cats = inr a).
    { replace (j * 2) with (length pre) by lia. rewrite Hcats.
      apply item_app_length. }
    assert (H2 : (j * 2 + 1 <? length cats)%nat = false).
    { apply Nat.ltb_ge. rewrite Hcats, length_app. simpl. lia. }
    rewrite H1, bind_inr, H2. reflexivity.
  - change (length (a :: b :: l)) with (S (S (length l))).
    rewrite half_succ_succ. cbn [seq map map_raises].
    assert (H1 : item (j * 2) cats = inr a).
    { replace (j * 2) with (length pre) by lia. rewrite Hcats.
      apply item_app_length. }
    assert (H2 : (j * 2 + 1 <? length cats)%nat = true).
    { apply Nat.ltb_lt. rewrite Hcats, length_app. simpl. lia. }
    assert (H3 : item (j * 2 + 1) cats = inr b).
    { replace (j * 2 + 1) with (length (pre ++ [a]))
        by (rewrite length_app; simpl; lia).
      rewrite Hcats. replace (pre ++ a :: b :: l) with ((pre ++ [a]) ++ b :: l)
        by now rewrite <- app_assoc.
      apply item_app_length. }
    rewrite H1, bind_inr, H2, H3, !bind_inr.
    rewrite (IH (pre ++ [a; b]) (S j)); [reflexivity| |].
    + rewrite Hcats. now rewrite <- app_assoc.
    + rewrite length_app. simpl. lia.
Qed.

Lemma concat_pairs {A} (l : list A) : concat (pairs l) = l.
Proof.
  induction l as [|a|a b l IH] using pair_induction; simpl; congruence.
Qed.

Lemma length_pairs {A} (l : list A) : length (pairs l) = (length l + 1) / 2.
Proof.
  induction l as [|a|a b l IH] using pair_induction; try reflexivity.
  change (length (a :: b :: l)) with (S (S (length l))).
  rewrite half_succ_succ. simpl. now rewrite IH.
Qed.

Lemma pairs_rows {A} (l : list A) :
  Forall (fun row => length row = 1 \/ length row = 2) (pairs l).
Proof.
  induction l as [|a|a b l IH] using pair_induction; simpl.
  - constructor.
  - constructor; [now left|constructor].
  - constructor; [now right|exact IH].
Qed.

(** X11. The keyboard of [categories_command] never fails to build (no
    index is out of range); its rows hold one or two buttons, there are
    [ceil (n / 2)] rows, and read row by row the buttons are the
    categories in their order, each exactly once. *)
Theorem keyboard_holds_every_category (categories : list string) :
  exists rows,
    keyboard_rows categories = inr rows
    /\ concat rows = map cat_button categories
    /\ length rows = (length categories + 1) / 2
    /\ Forall (fun row => length row = 1 \/ length row = 2) rows.
Proof.
  exists (map (map cat_button) (pairs categories)). split; [|split; [|split]].
  - unfold keyboard_rows, Py.range.
    replace ((length categories - 0 + (2 - 1)) / 2)
      with ((length categories + 1) / 2) by (f_equal; lia).
    change (fun k => 0 + k * 2) with (fun k => k * 2).
    exact (keyboard_rows_from categories [] categories 0 eq_refl eq_refl).
  - rewrite <- concat_map. now rewrite concat_pairs.
  - rewrite length_map. apply length_pairs.
  - apply List.Forall_map. eapply List.Forall_impl; [|apply pairs_rows].
    intros row. now rewrite length_map.
Qed.

(** ** Installing from the button *)

Lemma install_tool_outcome (w : World) (tool_name install_command : string) :
  install_tool w tool_name install_command
  = match os_run w install_command 600 with
    | Exited _ _ _ =>
        ([ ("success", JBool true); ("tool", JStr tool_name);
           ("message", JStr (tool_name +:+ " instalado correctamente")) ],
         [Spawned install_command])
    | TimedOut =>
        ([ ("success", JBool false); ("tool", JStr tool_name);
           ("error", JStr (timeout_text 600)) ],
         [Spawned install_command; Killed])
    | SpawnFails text =>
        ([ ("success", JBool false); ("tool", JStr tool_name);
           ("error", JStr text) ],
         [])
    | KillRaises text =>
        ([ ("success", JBool false); ("tool", JStr tool_name);
           ("error", JStr text) ],
         [Spawned install_command])
    end.
Proof.
  unfold install_tool, run_command.
  now destruct (os_run w install_command 600).
Qed.

(** X12. [install_tool] calls the install command a success exactly when
    the subprocess ended before its 600 seconds, whatever the exit code:
    a package manager that exits with an error is reported as "instalado
    correctamente". On a timeout or a failed spawn the error reported is
    the one [run_command] gave, which is always there, so the default
    text is never what decides. *)
Theorem install_tool_trusts_completion (w : World)
  (tool_name install_command : string) :
  let result := fst (install_tool w tool_name install_command) in
  snd (install_tool w tool_name install_command)
  = snd (run_command w install_command 600)
  /\ Dict.get "success" result
     = Some (JBool (completed (os_run w install_command 600)))
  /\ (forall stdout stderr code,
        os_run w install_command 600 = Exited stdout stderr code ->
        Dict.get "message" result
        = Some (JStr (tool_name +:+ " instalado correctamente")))
  /\ (completed (os_run w install_command 600) = false ->
      Dict.get "error" result
      = Dict.get "error" (fst (run_command w install_command 600))
      /\ exists text, Dict.get "error" result = Some (JStr text)).
Proof.
  rewrite install_tool_outcome. unfold run_command.
  destruct (os_run w install_command 600) as [text|out err code| |text] eqn:E;
    simpl; repeat split; try discriminate; eauto.
Qed.

Lemma install_tool_trusts_completion_witness :
  let w := Demo.world (ApiFailure "") [] (Exited "" "E: Unable to locate package" 100) in
  os_run w "sudo apt install nope" 600 = Exited "" "E: Unable to locate package" 100
  /\ Dict.get "message" (fst (install_tool w "nope" "sudo apt install nope"))
     = Some (JStr "nope instalado correctamente").
Proof.
  intros w. split; [reflexivity|].
  exact (proj1 (proj2 (proj2 (install_tool_trusts_completion w "nope"
                                "sudo apt install nope"))) _ _ _ eq_refl).
Defined.

Lemma eqb_yes_button (tool : string) :
  String.eqb (yes_button tool) "install_cancel" = String.eqb tool "cancel".
Proof. reflexivity. Qed.

Lemma yes_button_round_trip (tool : string) :
  Py.contains "install_" tool = false ->
  Py.replace "install_" "" (yes_button tool) = tool.
Proof.
  intros Hno. unfold yes_button.
  rewrite replace_at_start by discriminate. rewrite append_empty_l.
  apply replace_absent. unfold Py.contains in Hno.
  now destruct (Py.find "install_" tool).
Qed.

(** X13. The offer that [chat] makes for a missing tool and the button
    under it agree: for a tool name that does not hold "install_" and is
    not "cancel", pressing the button runs, with a timeout of 600
    seconds, exactly the install command the offer displayed; the tools
    are scanned again when, and only when, that subprocess completed. *)
Theorem button_runs_the_offered_command (before after : World) (p : Probe)
  (discovered_tools : list (string * tool_info)) (tool : string) :
  Py.contains "install_" tool = false ->
  tool <> "cancel" ->
  Dict.get "install_command" (not_installed_result tool)
  = Some (JStr (install_command_for tool))
  /\ install_callback before after p discovered_tools (yes_button tool)
     = match os_run before (install_command_for tool) 600 with
       | Exited _ _ _ =>
           (scan_installed_tools after p, InstallDone tool,
            [Spawned (install_command_for tool)])
       | TimedOut =>
           (discovered_tools, InstallError (JStr (timeout_text 600)),
            [Spawned (install_command_for tool); Killed])
       | SpawnFails text => (discovered_tools, InstallError (JStr text), [])
       | KillRaises text =>
           (discovered_tools, InstallError (JStr text),
            [Spawned (install_command_for tool)])
       end.
Proof.
  intros Hno Hcancel. split; [reflexivity|].
  unfold install_callback. rewrite eqb_yes_button.
  destruct (String.eqb_spec tool "cancel") as [->|_]; [congruence|].
  rewrite (yes_button_round_trip _ Hno), install_tool_outcome.
  now destruct (os_run before (install_command_for tool) 600).
Qed.

Lemma button_runs_the_offered_command_witness :
  let before := Demo.world (ApiFailure "") [] (Exited "" "" 0) in
  let after := Demo.world (ApiFailure "") ["hashcat"] TimedOut in
  Py.contains "install_" "hashcat" = false
  /\ "hashcat" <> "cancel"
  /\ install_callback before after demo_probe [] (yes_button "hashcat")
     = (scan_installed_tools after demo_probe, InstallDone "hashcat",
        [Spawned "sudo apt install hashcat"]).
Proof.
  intros before after.
  assert (H1 : Py.contains "install_" "hashcat" = false) by (vm_compute; reflexivity).
  assert (H2 : "hashcat" <> "cancel") by discriminate.
  split; [exact H1|]. split; [exact H2|].
  exact (proj2 (button_runs_the_offered_command before after demo_probe []
                  "hashcat" H1 H2)).
Defined.

(** Outside that: a tool called "cancel" cancels, and a name that holds
    "install_" comes back shortened, so that another package than the one
    displayed is installed. *)
Example button_of_cancel (before after : World) (p : Probe) :
  install_callback before after p [] (yes_button "cancel")
  = ([], InstallCancelled, []).
Proof. reflexivity. Qed.

Example button_of_install_package :
  Py.replace "install_" "" (yes_button "install_package") = "package"
  /\ install_command_for "install_package" = "sudo apt install install_package"
  /\ install_command_for "package" = "sudo apt install package".
Proof. vm_compute. repeat split. Qed.

(** ** Packages *)

Lemma get_dict_set (k k' : string) (v : json) (d : pydict) :
  Dict.get k (dict_set k' v d)
  = if String.eqb k k' then Some v else Dict.get k d.
Proof.
  induction d as [|[k0 v0] d IH]; simpl.
  - now destruct (String.eqb k k').
  - destruct (String.eqb_spec k' k0) as [->|Hne]; simpl.
    + now destruct (String.eqb k k0).
    + rewrite IH. destruct (String.eqb_spec k k0) as [->|]; [|reflexivity].
      destruct (String.eqb_spec k0 k'); [congruence|reflexivity].
Qed.

Lemma reports_dict_set (outcome : proc_outcome) (result : pydict) (k : string)
  (v : json) :
  ~ In k ["command"; "success"; "stdout"; "stderr"; "returncode"; "error"] ->
  reports outcome result -> reports outcome (dict_set k v result).
Proof.
  intros Hk. unfold reports. rewrite !get_dict_set.
  assert (Hne : forall k', In k' ["command"; "success"; "stdout"; "stderr";
                                  "returncode"; "error"] ->
                           String.eqb k' k = false).
  { intros k' Hin. destruct (String.eqb_spec k' k) as [->|]; [contradiction|reflexivity]. }
  rewrite !Hne by (simpl; tauto). tauto.
Qed.

Lemma run_command_reports_package (w : World) (root_password command : string)
  (use_sudo : bool) :
  reports (os_run w (sudo_command root_password command use_sudo) 1800)
    (fst (_run_command w root_password command 1800 use_sudo)).
Proof.
  unfold reports, _run_command.
  destruct (os_run w (sudo_command root_password command use_sudo) 1800);
    simpl; repeat split; eauto; congruence.
Qed.

(** X14. [install_package] starts nothing for a manager it does not know
    and answers with a failure that has no command. For one of its six
    managers it starts exactly one subprocess, with a timeout of 1800
    seconds and under sudo exactly for apt and npm, and its result
    reports the outcome of that subprocess and names the package and the
    manager. *)
Theorem install_package_runs_one_command (w : World)
  (root_password package_name package_manager : string) :
  let run := install_package w root_password package_name package_manager in
  (~ In package_manager ["apt"; "pip"; "pip3"; "gem"; "cargo"; "npm"] ->
   snd run = []
   /\ Dict.get "success" (fst run) = Some (JBool false)
   /\ Dict.get "command" (fst run) = None)
  /\ (In package_manager ["apt"; "pip"; "pip3"; "gem"; "cargo"; "npm"] ->
      exists command,
        table_get package_manager (package_commands package_name) = Some command
        /\ let use_sudo := bool_decide (package_manager = "apt"
                                        \/ package_manager = "npm") in
           snd run = snd (_run_command w root_password command 1800 use_sudo)
           /\ reports (os_run w (sudo_command root_password command use_sudo) 1800)
                (fst run)
           /\ Dict.get "package" (fst run) = Some (JStr package_name)
           /\ Dict.get "package_manager" (fst run) = Some (JStr package_manager)).
Proof.
  intros run. subst run. unfold install_package. split.
  - intros Hno. simpl in Hno.
    assert (H : table_get package_manager (package_commands package_name) = None).
    { simpl.
      destruct (String.eqb_spec package_manager "apt");
        [exfalso; apply Hno; auto 10|].
      destruct (String.eqb_spec package_manager "pip");
        [exfalso; apply Hno; auto 10|].
      destruct (String.eqb_spec package_manager "pip3");
        [exfalso; apply Hno; auto 10|].
      destruct (String.eqb_spec package_manager "gem");
        [exfalso; apply Hno; auto 10|].
      destruct (String.eqb_spec package_manager "cargo");
        [exfalso; apply Hno; auto 10|].
      destruct (String.eqb_spec package_manager "npm");
        [exfalso; apply Hno; auto 10|].
      reflexivity. }
    rewrite H. simpl. auto.
  - intros Hin. simpl in Hin.
    assert (Hs : (String.eqb package_manager "apt" || String.eqb package_manager "npm")
                 = bool_decide (package_manager = "apt" \/ package_manager = "npm")).
    { destruct Hin as [<-|[<-|[<-|[<-|[<-|[<-|[]]]]]]]; reflexivity. }
    assert (Hc : exists command,
               table_get package_manager (package_commands package_name)
               = Some command).
    { destruct Hin as [<-|[<-|[<-|[<-|[<-|[<-|[]]]]]]]; simpl; eauto. }
    destruct Hc as [command Hc]. exists command. split; [exact Hc|].
    rewrite Hc, Hs. clear Hs.
    set (use_sudo := bool_decide (package_manager = "apt" \/ package_manager = "npm")).
    pose proof (run_command_reports_package w root_password command use_sudo) as Hrep.
    destruct (_run_command w root_password command 1800 use_sudo)
      as [result events] eqn:Hrun.
    simpl in *. split; [reflexivity|]. split; [|split].
    + apply reports_dict_set; [simpl; intuition discriminate|].
      apply reports_dict_set; [simpl; intuition discriminate|]. exact Hrep.
    + rewrite !get_dict_set. reflexivity.
    + rewrite !get_dict_set. reflexivity.
Qed.

Lemma install_package_runs_one_command_witness :
  let w := Demo.world (ApiFailure "") [] (Exited "" "" 0) in
  (~ In "conda" ["apt"; "pip"; "pip3"; "gem"; "cargo"; "npm"]
   /\ snd (install_package w "" "requests" "conda") = [])
  /\ (In "apt" ["apt"; "pip"; "pip3"; "gem"; "cargo"; "npm"]
      /\ snd (install_package w "" "nmap" "apt")
         = [Spawned "sudo apt-get update && apt-get install -y nmap"]).
Proof.
  intros w.
  assert (H1 : ~ In "conda" ["apt"; "pip"; "pip3"; "gem"; "cargo"; "npm"])
    by (simpl; intuition discriminate).
  assert (H2 : In "apt" ["apt"; "pip"; "pip3"; "gem"; "cargo"; "npm"])
    by now left.
  split; split; try assumption.
  - exact (proj1 (proj1 (install_package_runs_one_command w "" "requests" "conda") H1)).
  - destruct (proj2 (install_package_runs_one_command w "" "nmap" "apt") H2)
      as [command [Hc [Hs _]]].
    injection Hc as <-. exact Hs.
Defined.

(** ** Reading a file *)

Lemma slice_to_take {A} (n : Z) (l : list A) :
  (0 <= n)%Z -> slice_to n l = take (Z.to_nat n) l.
Proof.
  intros Hn. unfold slice_to.
  now replace (n <? 0)%Z with false by (symmetry; apply Z.ltb_ge; lia).
Qed.

(** X15. For a file that can be read and a number of lines that is not
    negative, [read_file] shows the first [min (lines, total)] lines, in
    order and unchanged, and says "truncated" exactly when lines were left
    out. *)
Theorem read_file_shows_the_head (readlines : string -> string + list string)
  (filepath : string) (lines : Z) (content_lines : list string) :
  readlines filepath = inr content_lines ->
  (0 <= lines)%Z ->
  let result := read_file readlines filepath lines in
  let total := Z.of_nat (length content_lines) in
  Dict.get "total_lines" result = Some (JInt total)
  /\ Dict.get "showing_lines" result = Some (JInt (Z.min lines total))
  /\ Dict.get "truncated" result = Some (JBool (Z.min lines total <? total)%Z)
  /\ exists shown omitted,
       content_lines = shown ++ omitted
       /\ Z.of_nat (length shown) = Z.min lines total
       /\ Dict.get "content" result = Some (JStr (Py.join shown)).
Proof.
  intros Hread Hlines result total. subst result. unfold read_file.
  rewrite Hread, (slice_to_take _ _ Hlines). simpl.
  split; [reflexivity|]. split; [|split].
  - rewrite length_take. do 2 f_equal. subst total. lia.
  - do 2 f_equal. subst total.
    destruct (Z.ltb_spec lines (Z.of_nat (length content_lines)));
      destruct (Z.ltb_spec (Z.min lines (Z.of_nat (length content_lines)))
                  (Z.of_nat (length content_lines))); try reflexivity; lia.
  - exists (take (Z.to_nat lines) content_lines),
      (drop (Z.to_nat lines) content_lines).
    split; [symmetry; apply take_drop|]. split; [|reflexivity].
    rewrite length_take. subst total. lia.
Qed.

Lemma read_file_shows_the_head_witness :
  let readlines := fun _ : string => inr ["uno"; "dos"; "tres"] : string + list string in
  readlines "/etc/hosts" = inr ["uno"; "dos"; "tres"]
  /\ (0 <= 2)%Z
  /\ Dict.get "showing_lines" (read_file readlines "/etc/hosts" 2) = Some (JInt 2)
  /\ Dict.get "truncated" (read_file readlines "/etc/hosts" 2) = Some (JBool true).
Proof.
  intros readlines.
  assert (H0 : (0 <= 2)%Z) by lia.
  destruct (read_file_shows_the_head readlines "/etc/hosts" 2 _ eq_refl H0)
    as [_ [H1 [H2 _]]].
  split; [reflexivity|]. split; [exact H0|]. split; [exact H1|exact H2].
Defined.

(** With a negative number of lines an empty file is called truncated. *)
Example read_file_negative_lines :
  read_file (fun _ => inr []) "/dev/null" (-1)
  = [ ("success", JBool true); ("filepath", JStr "/dev/null");
      ("total_lines", JInt 0); ("showing_lines", JInt 0);
      ("content", JStr ""); ("truncated", JBool true) ].
Proof. reflexivity. Qed.

(** ** The command lines of the executor *)

Lemma startswith_name (name rest : string) :
  Py.startswith (name +:+ " " +:+ rest) (name +:+ " ") = true.
Proof.
  unfold Py.startswith. rewrite prefix_common. apply prefix_refl_app.
Qed.

Lemma timeout_get_bounds (name : string) :
  (30 <= timeout_get name (timeout_get "default" 300) <= 1800)%Z.
Proof.
  unfold timeout_get.
  assert (H : forall tbl, List.Forall (fun e => 30 <= snd e <= 1800)%Z tbl ->
              match assoc name tbl with
              | Some t => (30 <= t <= 1800)%Z
              | None => True
              end).
  { induction 1 as [|[k t] tbl Ht _ IH]; simpl; [exact I|].
    destruct (String.eqb name k); [exact Ht|exact IH]. }
  assert (Hall : List.Forall (fun e => 30 <= snd e <= 1800)%Z TOOL_TIMEOUTS)
    by (unfold TOOL_TIMEOUTS; repeat constructor; simpl; lia).
  specialize (H _ Hall). destruct (assoc name TOOL_TIMEOUTS); [exact H|].
  simpl. lia.
Qed.

(** Solve a goal about one method by following its steps. *)
Ltac follow_method :=
  repeat match goal with
         | |- context [and_then ?m _] =>
             let E := fresh "E" in
             destruct m eqn:E; simpl and_then; [discriminate|]
         | |- context [if ?b then _ else _] => destruct b
         end.

(** A command line that starts with a literal starts with what the
    literal starts with. *)
Ltac starts_with_literal :=
  unfold Py.startswith;
  repeat match goal with
         | |- String.prefix _ (?a +:+ _) = true => apply (prefix_app _ a)
         end;
  reflexivity.

Lemma ran_with {A} (x y : A) : @inr pyerr A x = inr y -> y = x.
Proof. now intros [= ->]. Qed.

(** Finish the case of one method: the command it ran, its first word and
    its timeout. *)
Ltac one_command Hbound :=
  let H := fresh "H" in
  intros H; apply ran_with in H; subst; eexists;
  refine (conj _ (conj eq_refl Hbound)); starts_with_literal.

(** X16. Whatever the parameters, when [execute_tool] returns for a tool
    that is not one of the file methods, it has run exactly one command
    through [run_command] and returns its formatted result: the command
    line begins with the name of the tool and a space, and the timeout is
    the entry of the tool in [TOOL_TIMEOUTS], or the default of 300
    seconds, always between 30 and 1800 seconds. *)
Theorem execute_tool_runs_the_named_tool (py : Python)
  (others : string -> json -> fails (string * list proc_event))
  (w : World) (tool_name : string) (parameters : json)
  (outcome : string * list proc_event) :
  ~ In tool_name file_methods ->
  execute_tool py others w tool_name parameters = inr outcome ->
  exists command,
    Py.startswith command (tool_name +:+ " ") = true
    /\ (let result :=
          run_command w command (timeout_get tool_name (timeout_get "default" 300))
        in outcome = (_format_result py (fst result), snd result))
    /\ (30 <= timeout_get tool_name (timeout_get "default" 300) <= 1800)%Z.
Proof.
  intros Hfile. unfold execute_tool.
  pose proof (timeout_get_bounds tool_name) as Hbound.
  destruct (String.eqb_spec tool_name "nmap") as [->|_].
  { unfold execute_nmap, run. follow_method; one_command Hbound. }
  destruct (String.eqb_spec tool_name "nikto") as [->|_].
  { unfold execute_nikto, run. follow_method; one_command Hbound. }
  destruct (String.eqb_spec tool_name "gobuster") as [->|_].
  { unfold execute_gobuster, run.
    destruct (get_param parameters "mode" (JStr "dir")) as [|mode]; [discriminate|].
    simpl and_then.
    destruct (subscript parameters "target") as [|target]; [discriminate|].
    simpl and_then.
    destruct (get_param parameters "wordlist" (JStr "common")) as [|wordlist];
      [discriminate|]. simpl and_then.
    destruct (get_param parameters "threads" (JInt 10)) as [|threads];
      [discriminate|]. simpl and_then.
    destruct (wordlist_path wordlist) as [|wl_path]; [discriminate|].
    simpl and_then.
    destruct (is_str mode "dir").
    - destruct (get_param parameters "extensions" (JStr "php,html,txt"))
        as [|extensions]; [discriminate|]. simpl and_then.
      one_command Hbound.
    - destruct (is_str mode "dns"); [|destruct (is_str mode "vhost")];
        simpl and_then; try discriminate; one_command Hbound. }
  destruct (String.eqb_spec tool_name "sqlmap") as [->|_].
  { unfold execute_sqlmap, run. follow_method; one_command Hbound. }
  destruct (String.eqb_spec tool_name "whatweb") as [->|_].
  { unfold execute_whatweb, run. follow_method; one_command Hbound. }
  destruct (String.eqb_spec tool_name "hydra") as [->|_].
  { unfold execute_hydra, run. follow_method; one_command Hbound. }
  destruct (String.eqb_spec tool_name "dig") as [->|_].
  { unfold execute_dig, run. follow_method; one_command Hbound. }
  destruct (String.eqb_spec tool_name "whois") as [->|_].
  { unfold execute_whois, run. follow_method; one_command Hbound. }
  destruct (bool_decide_reflect (tool_name ∈ file_methods)) as [Hin|_].
  { destruct Hfile. now apply list_elem_of_In. }
  unfold _execute_generic_tool, run.
  destruct (values parameters) as [|vs]; [discriminate|]. simpl and_then.
  intros H; apply ran_with in H; subst outcome. eexists.
  refine (conj _ (conj eq_refl Hbound)). apply startswith_name.
Qed.

Lemma execute_tool_runs_the_named_tool_witness :
  let w := Demo.world (ApiFailure "") ["nmap"] (Exited "PORT STATE" "" 0) in
  let params := JObj [("target", JStr "10.0.0.1"); ("scan_type", JStr "quick")] in
  ~ In "nmap" file_methods
  /\ execute_tool demo_python (fun _ _ => inl TypeErr) w "nmap" params
     = inr ("{ command: nmap -F   10.0.0.1 }", [Spawned "nmap -F   10.0.0.1"])
  /\ exists command,
       Py.startswith command "nmap " = true
       /\ ("{ command: nmap -F   10.0.0.1 }", [Spawned "nmap -F   10.0.0.1"])
          = (_format_result demo_python (fst (run_command w command 600)),
             snd (run_command w command 600)).
Proof.
  intros w params.
  assert (H1 : ~ In "nmap" file_methods) by (simpl; intuition discriminate).
  assert (H2 : execute_tool demo_python (fun _ _ => inl TypeErr) w "nmap" params
               = inr ("{ command: nmap -F   10.0.0.1 }", [Spawned "nmap -F   10.0.0.1"]))
    by reflexivity.
  split; [exact H1|]. split; [exact H2|].
  destruct (execute_tool_runs_the_named_tool demo_python _ w "nmap" params _ H1 H2)
    as [command [Hs [Hr _]]].
  exists command. split; [exact Hs|exact Hr].
Defined.

Lemma subscript_missing (d : pydict) (k : string) :
  Dict.has k d = false -> subscript (JObj d) k = inl (KeyErr (JStr k)).
Proof. unfold Dict.has, subscript. now destruct (Dict.get k d). Qed.

Lemma subscript_present (d : pydict) (k : string) :
  Dict.has k d = true -> exists v, subscript (JObj d) k = inr v.
Proof.
  unfold Dict.has, subscript. destruct (Dict.get k d) as [v|]; [|discriminate].
  intros _. now exists v.
Qed.

Lemma not_object_fails (params : json) (k : string) (dflt : json) :
  (forall d, params <> JObj d) ->
  subscript params k = inl TypeErr
  /\ get_param params k dflt = inl AttributeErr
  /\ values params = inl AttributeErr.
Proof.
  intros Hno. destruct params; try (repeat split; reflexivity).
  now destruct (Hno fields).
Qed.

(** X17. Nothing is run for parameters that are not an object, and
    nothing is run while a parameter that the method reads with
    [params[...]] is missing: [execute_tool] raises the [KeyError] of the
    first such parameter (for hydra: target, then service, then
    username). *)
Theorem missing_parameter_runs_nothing (py : Python)
  (others : string -> json -> fails (string * list proc_event))
  (w : World) (tool_name : string) (parameters : json) :
  ~ In tool_name file_methods ->
  (forall d k,
     parameters = JObj d ->
     List.find (fun k => negb (Dict.has k d)) (required_parameters tool_name)
     = Some k ->
     execute_tool py others w tool_name parameters = inl (KeyErr (JStr k)))
  /\ ((forall d, parameters <> JObj d) ->
      execute_tool py others w tool_name parameters = inl TypeErr
      \/ execute_tool py others w tool_name parameters = inl AttributeErr).
Proof.
  intros Hfile. split.
  - intros d k -> Hfind. revert Hfind. unfold execute_tool, required_parameters.
    repeat match goal with
           | |- context [String.eqb tool_name ?n] =>
               destruct (String.eqb_spec tool_name n) as [->|_]
           end;
      cbn [List.find]; [..|discriminate];
      unfold execute_nmap, execute_nikto, execute_gobuster, execute_sqlmap,
        execute_whatweb, execute_hydra, execute_dig, execute_whois;
      cbn [get_param and_then];
      repeat match goal with
             | |- context [Dict.has ?key d] =>
                 let E := fresh "E" in
                 destruct (Dict.has key d) eqn:E; cbn [negb];
                 [destruct (subscript_present _ _ E) as [? ->]; cbn [and_then]
                 |rewrite (subscript_missing _ _ E);
                  intros [= <-]; reflexivity]
             end;
      discriminate.
  - intros Hno. unfold execute_tool.
    repeat match goal with
           | |- context [String.eqb tool_name ?n] =>
               destruct (String.eqb_spec tool_name n) as [->|_]
           end;
      unfold execute_nmap, execute_nikto, execute_gobuster, execute_sqlmap,
        execute_whatweb, execute_hydra, execute_dig, execute_whois.
    all: try (left;
              now rewrite (proj1 (not_object_fails parameters _ JNull Hno))).
    + right. now rewrite (proj1 (proj2 (not_object_fails parameters _ _ Hno))).
    + destruct (bool_decide_reflect (tool_name ∈ file_methods)) as [Hin|_];
        [destruct Hfile; now apply list_elem_of_In|].
      right. unfold _execute_generic_tool.
      now rewrite (proj2 (proj2 (not_object_fails parameters "" JNull Hno))).
Qed.

Lemma missing_parameter_runs_nothing_witness :
  let w := Demo.world (ApiFailure "") [] TimedOut in
  let d := [("target", JStr "10.0.0.1"); ("username", JStr "root")] in
  ~ In "hydra" file_methods
  /\ List.find (fun k => negb (Dict.has k d)) (required_parameters "hydra")
     = Some "service"
  /\ execute_tool demo_python (fun _ _ => inl TypeErr) w "hydra" (JObj d)
     = inl (KeyErr (JStr "service"))
  /\ (forall d', JStr "10.0.0.1" <> JObj d')
  /\ (execute_tool demo_python (fun _ _ => inl TypeErr) w "hydra" (JStr "10.0.0.1")
      = inl TypeErr
      \/ execute_tool demo_python (fun _ _ => inl TypeErr) w "hydra" (JStr "10.0.0.1")
         = inl AttributeErr).
Proof.
  intros w d.
  assert (H1 : ~ In "hydra" file_methods) by (simpl; intuition discriminate).
  assert (H2 : forall d', JStr "10.0.0.1" <> JObj d') by discriminate.
  split; [exact H1|]. split; [reflexivity|]. split.
  - exact (proj1 (missing_parameter_runs_nothing demo_python _ w "hydra" (JObj d) H1)
             d "service" eq_refl eq_refl).
  - split; [exact H2|].
    exact (proj2 (missing_parameter_runs_nothing demo_python _ w "hydra"
                    (JStr "10.0.0.1") H1) H2).
Defined.

Lemma is_str_true (v : json) (s : string) : is_str v s = true <-> v = JStr s.
Proof.
  destruct v; simpl; try (split; [discriminate|discriminate]).
  split.
  - intros H. apply String.eqb_eq in H. now subst.
  - intros [= ->]. apply String.eqb_refl.
Qed.

(** X18. The methods of nikto, sqlmap, whatweb, hydra, dig and whois, and
    the generic method of every tool without one, check no value: given an
    object that holds the parameters read with [params[...]], they always
    run their command, whatever the values are. *)
Theorem parameter_values_are_not_checked (py : Python)
  (others : string -> json -> fails (string * list proc_event))
  (w : World) (tool_name : string) (d : pydict) :
  ~ In tool_name file_methods ->
  tool_name <> "nmap" -> tool_name <> "gobuster" ->
  forallb (fun k => Dict.has k d) (required_parameters tool_name) = true ->
  exists outcome, execute_tool py others w tool_name (JObj d) = inr outcome.
Proof.
  intros Hfile Hnmap Hgobuster. unfold execute_tool, required_parameters.
  repeat match goal with
         | |- context [String.eqb tool_name ?n] =>
             destruct (String.eqb_spec tool_name n) as [->|?]
         end;
    try contradiction;
    cbn [forallb]; intros Hall;
    repeat match type of Hall with
           | (_ && _)%bool = true =>
               let H := fresh "H" in
               apply andb_prop in Hall; destruct Hall as [H Hall];
               destruct (subscript_present _ _ H) as [? ?]
           end.
  all: unfold execute_nikto, execute_sqlmap, execute_whatweb, execute_hydra,
         execute_dig, execute_whois, _execute_generic_tool, run.
  all: repeat match goal with
              | H : subscript _ _ = inr _ |- _ => rewrite H; clear H
              end.
  all: try (destruct (bool_decide_reflect (tool_name ∈ file_methods)) as [Hin|_];
            [destruct Hfile; now apply list_elem_of_In|]).
  all: cbn [get_param values and_then].
  all: try (eexists; reflexivity).
  all: repeat match goal with
              | |- context [if ?b then _ else _] => destruct b
              end; cbn [and_then]; eexists; reflexivity.
Qed.

Lemma parameter_values_are_not_checked_witness :
  let w := Demo.world (ApiFailure "") [] TimedOut in
  let d := [("domain", JStr "example.com; id"); ("record_type", JInt 7)] in
  exists outcome,
    execute_tool demo_python (fun _ _ => inl TypeErr) w "dig" (JObj d) = inr outcome.
Proof.
  intros w d.
  apply (parameter_values_are_not_checked demo_python _ w "dig" d).
  - simpl; intuition discriminate.
  - discriminate.
  - discriminate.
  - reflexivity.
Defined.

Lemma table_item_ok (key : json) (table : list (string * string)) (v : string) :
  table_item key table = inr v ->
  exists s, key = JStr s /\ table_get s table = Some v.
Proof.
  destruct key as [| | | |s| |]; simpl; try discriminate.
  destruct (table_get s table) as [v'|] eqn:E; [|discriminate].
  intros [= ->]. now exists s.
Qed.

Lemma table_get_in (s : string) (table : list (string * string)) :
  is_Some (table_get s table) <-> In s (map fst table).
Proof.
  induction table as [|[k v] table IH]; simpl.
  - split; [intros [? [=]]|intros []].
  - destruct (String.eqb_spec s k) as [->|Hne].
    + split; [now left|intros _; now eexists].
    + rewrite IH. split; [now right|intros [Heq|H]; [now destruct Hne|exact H]].
Qed.

(** X19. The two methods that can refuse: with a target given, nmap runs
    exactly when the scan type (basic when absent) is one of its six
    names, and gobuster runs exactly when the mode (dir when absent) is
    dir, dns or vhost and the word list is not a list or an object. Any
    other request raises and runs nothing. *)
Theorem nmap_and_gobuster_need_a_known_mode (py : Python)
  (others : string -> json -> fails (string * list proc_event))
  (w : World) (d : pydict) :
  Dict.has "target" d = true ->
  ((exists outcome, execute_tool py others w "nmap" (JObj d) = inr outcome)
   <-> exists s, Dict.get_default "scan_type" (JStr "basic") d = JStr s
                 /\ In s ["quick"; "basic"; "version"; "aggressive"; "stealth"; "udp"])
  /\ ((exists outcome, execute_tool py others w "gobuster" (JObj d) = inr outcome)
      <-> (exists m, Dict.get_default "mode" (JStr "dir") d = JStr m
                     /\ In m ["dir"; "dns"; "vhost"])
          /\ (forall l, Dict.get_default "wordlist" (JStr "common") d <> JArr l)
          /\ (forall o, Dict.get_default "wordlist" (JStr "common") d <> JObj o)).
Proof.
  intros Htarget. destruct (subscript_present _ _ Htarget) as [target Ht].
  split.
  - change (execute_tool py others w "nmap" (JObj d))
      with (execute_nmap py w (JObj d)).
    unfold execute_nmap. rewrite Ht. cbn [get_param and_then].
    set (scan_type := Dict.get_default "scan_type" (JStr "basic") d).
    match goal with
    | |- context [table_item scan_type ?t] => set (scan_options := t)
    end.
    split.
    + intros [outcome H].
      destruct (table_item scan_type scan_options) as [|option] eqn:E;
        [discriminate|].
      destruct (table_item_ok _ _ _ E) as [s [Hkey Hs]]. exists s.
      split; [exact Hkey|].
      change (In s (map fst scan_options)). apply table_get_in.
      exists option. exact Hs.
    + intros [s [-> Hin]].
      change (In s (map fst scan_options)) in Hin.
      apply table_get_in in Hin. destruct Hin as [option Hopt].
      cbn [table_item]. rewrite Hopt. cbn [and_then]. unfold run. now eexists.
  - change (execute_tool py others w "gobuster" (JObj d))
      with (execute_gobuster py w (JObj d)).
    unfold execute_gobuster. rewrite Ht. cbn [get_param and_then].
    set (mode := Dict.get_default "mode" (JStr "dir") d).
    set (wordlist := Dict.get_default "wordlist" (JStr "common") d).
    split.
    + intros [outcome H].
      destruct (wordlist_path wordlist) as [|wl_path] eqn:Ewl; [discriminate|].
      cbn [and_then] in H.
      split; [|split].
      * destruct (is_str mode "dir") eqn:E1;
          [apply is_str_true in E1; exists "dir"; simpl; auto|].
        destruct (is_str mode "dns") eqn:E2;
          [apply is_str_true in E2; exists "dns"; simpl; auto|].
        destruct (is_str mode "vhost") eqn:E3;
          [apply is_str_true in E3; exists "vhost"; simpl; auto|].
        discriminate.
      * intros l Hl. rewrite Hl in Ewl. discriminate.
      * intros o Ho. rewrite Ho in Ewl. discriminate.
    + intros [[m [Hm Hin]] [Hlist Hobj]].
      assert (Hwl : exists wl_path, wordlist_path wordlist = inr wl_path).
      { unfold wordlist_path.
        destruct wordlist as [| | | |s|l|o]; try (now eexists).
        - destruct (table_get s WORDLISTS); now eexists.
        - now destruct (Hlist l).
        - now destruct (Hobj o). }
      destruct Hwl as [wl_path ->]. cbn [and_then]. rewrite Hm.
      simpl in Hin.
      destruct Hin as [<-|[<-|[<-|[]]]]; cbn [is_str String.eqb Ascii.eqb Bool.eqb and_then];
        unfold run; now eexists.
Qed.

Lemma nmap_and_gobuster_need_a_known_mode_witness :
  let w := Demo.world (ApiFailure "") [] TimedOut in
  let d := [("target", JStr "10.0.0.1"); ("scan_type", JStr "full");
            ("mode", JStr "fuzz")] in
  Dict.has "target" d = true
  /\ execute_tool demo_python (fun _ _ => inl TypeErr) w "nmap" (JObj d)
     = inl (KeyErr (JStr "full"))
  /\ execute_tool demo_python (fun _ _ => inl TypeErr) w "gobuster" (JObj d)
     = inl (UnboundLocalErr "command")
  /\ ~ (exists s, Dict.get_default "scan_type" (JStr "basic") d = JStr s
                  /\ In s ["quick"; "basic"; "version"; "aggressive"; "stealth"; "udp"]).
Proof.
  intros w d.
  assert (H : Dict.has "target" d = true) by reflexivity.
  split; [exact H|]. split; [reflexivity|]. split; [reflexivity|].
  intros Hs.
  apply (proj1 (nmap_and_gobuster_need_a_known_mode demo_python
                  (fun _ _ => inl TypeErr) w d H)) in Hs.
  destruct Hs as [outcome Hs]. discriminate Hs.
Defined.

(** ** The scan and the information on one tool *)

Lemma assoc_some_in {A} (name : string) (v : A) (d : list (string * A)) :
  assoc name d = Some v -> In (name, v) d.
Proof.
  induction d as [|[k x] d IH]; simpl; [discriminate|].
  destruct (String.eqb_spec name k) as [->|_].
  - intros [= ->]. now left.
  - intros H. right. now apply IH.
Qed.

Lemma assoc_none {A} (name : string) (d : list (string * A)) :
  assoc name d = None -> ~ In name (map fst d).
Proof.
  induction d as [|[k x] d IH]; simpl; [intros _ []|].
  destruct (String.eqb_spec name k) as [->|Hne]; [discriminate|].
  intros H [Heq|Hin]; [now destruct Hne|now apply IH].
Qed.

(** X20. After a scan, [get_tool_info] knows exactly the tools of the
    catalogue: for such a tool it gives the category and description of
    the catalogue, and its installed flag is what [which] answered during
    the scan; for any other name it gives nothing. *)
Theorem tool_info_reflects_the_scan (w : World) (p : Probe) (tool_name : string) :
  match get_tool_info (scan_installed_tools w p) tool_name with
  | Some info =>
      In (tool_name, (category info, description info)) common_kali_tools
      /\ installed info = which w tool_name
  | None => ~ In tool_name (map fst common_kali_tools)
  end.
Proof.
  unfold get_tool_info.
  destruct (assoc tool_name (scan_installed_tools w p)) as [info|] eqn:E.
  - apply assoc_some_in, scan_entry in E. destruct E as [Hw [Hi Hin]].
    split; [exact Hin|]. now rewrite Hw.
  - apply assoc_none in E. rewrite scan_names in E.
    destruct (assoc tool_name common_kali_tools) as [[cat desc]|] eqn:Ec.
    + apply assoc_some_in in Ec. split; [exact Ec|]. simpl.
      destruct (which w tool_name) eqn:Hw; [|reflexivity].
      destruct E. apply List.filter_In. split; [|exact Hw].
      apply in_map_iff. now exists (tool_name, (cat, desc)).
    + now apply assoc_none.
Qed.
